(** * Routing core of the shopping-assistant supervisor

    A shallow embedding of the supervisor state model
    ([src/agents/supervisor/state.ts]), of the supervisor and the specialist
    node adapters ([src/agents/supervisor.ts], with the helpers of
    [supervisor/message-utils.ts], [supervisor/product-utils.ts] and
    [supervisor/workflow-detection.ts]), of the notification agent
    ([src/agents/notificationAgent.ts]) and of the planner
    ([src/agents/planner.ts]), with the properties the specification states
    about them.

    Conventions of the embedding.
    - A JavaScript value of type [any] is a [JValue]; a number is a binary64
      float, as in the language.  An object is the finite map of its
      properties: the order in which they were written is not kept.
    - A field typed [string] or [ProductInfo] that may also be [null] or
      [undefined] is an [Opt]; messages and products have the shape their
      interfaces in [supervisor/types.ts] declare.
    - Strings are byte strings: a slice counts bytes, and [toLowerCase],
      [trim] and the [\s] class are the ASCII ones.  The phrases the routing
      code searches for are all ASCII.
    - [JSON.parse], [JSON.stringify], [String(...)] and the numeric coercion
      of a non-number are host functions: the nodes take them as a [Host]
      record, and every general theorem holds for all hosts.
    - The replies of the language model and of the specialist agents, and
      the reading of the clock, are inputs of the node functions.  A node
      takes the result of its cache lookup as an input, and its cache
      invalidations leave no trace; the planner cache is modelled apart,
      as a store that [plannerWithCache] threads through the planner. *)

From Stdlib Require Import Floats Uint63 ZArith Lia Strings.String Strings.Ascii.
From stdpp Require Import base option list strings pretty gmap fin_maps.

#[local] Set Warnings "-register-all,-inexact-float".
#[local] Open Scope string_scope.
#[local] Open Scope list_scope.

(* ===================================================================== *)
(** * Host values *)
(* ===================================================================== *)

Inductive JValue : Type :=
| JUndefined
| JNull
| JBool (b : bool)
| JNum (f : float)
| JStr (s : string)
| JArr (items : list JValue)
| JObj (fields : gmap string JValue).

(** [T | null | undefined] for a typed field. *)
Inductive Opt (A : Type) : Type :=
| Undefined
| Null
| Val (a : A).
Arguments Undefined {A}.
Arguments Null {A}.
Arguments Val {A} a.

(** What a function of the source can do: return a value or throw. *)
Inductive Outcome (A : Type) : Type :=
| Returns (a : A)
| Throws.
Arguments Returns {A} a.
Arguments Throws {A}.

Definition is_nan (f : float) : bool := negb (PrimFloat.eqb f f).

(** ToBoolean. *)
Definition truthy (v : JValue) : bool :=
  match v with
  | JUndefined | JNull => false
  | JBool b => b
  | JNum f => negb (PrimFloat.eqb f 0%float || is_nan f)
  | JStr s => negb (String.eqb s "")
  | JArr _ | JObj _ => true
  end.

Definition truthy_str (v : Opt string) : bool :=
  match v with
  | Val s => negb (String.eqb s "")
  | _ => false
  end.

(** ToBoolean of an object-or-nullish field: an object is always truthy. *)
Definition present {A} (v : Opt A) : bool :=
  match v with
  | Val _ => true
  | _ => false
  end.

(** [y ?? x] *)
Definition coalesce {A} (y x : Opt A) : Opt A :=
  match y with
  | Val _ => y
  | _ => x
  end.

Definition nullish (v : JValue) : bool :=
  match v with
  | JUndefined | JNull => true
  | _ => false
  end.

(** [v === s] for a string literal [s] *)
Definition is_str (s : string) (v : JValue) : bool :=
  match v with
  | JStr t => String.eqb t s
  | _ => false
  end.

(** [a || b] on values. *)
Definition js_or (a b : JValue) : JValue := if truthy a then a else b.

(** [v.k] and [v?.k] for a property name [k] that is neither an index nor
    [length] nor inherited from a prototype (every name the routing code
    reads is of this kind).  Where the source reads without [?.] the
    receiver has been tested and is neither [null] nor [undefined]. *)
Definition prop (v : JValue) (k : string) : JValue :=
  match v with
  | JObj m => default JUndefined (m !! k)
  | _ => JUndefined
  end.

Definition typeof_object (v : JValue) : bool :=
  match v with
  | JNull | JArr _ | JObj _ => true
  | _ => false
  end.

Definition chars_of (s : string) : list JValue :=
  (fun c => JStr (String c EmptyString)) <$> list_ascii_of_string s.

Definition indexed (l : list JValue) : gmap string JValue :=
  list_to_map (imap (fun i x => (pretty i, x)) l).

(** Own enumerable properties, as the object spread [{...v}] copies them. *)
Definition spread (v : JValue) : gmap string JValue :=
  match v with
  | JObj m => m
  | JArr l => indexed l
  | JStr s => indexed (chars_of s)
  | _ => ∅
  end.

(** [{...x, ...y}]: the keys of [y] win. *)
Definition spread2 (x y : JValue) : gmap string JValue := spread y ∪ spread x.

(** The array spread [[...v]]: [v] has to be iterable. *)
Definition iterate (v : JValue) : Outcome (list JValue) :=
  match v with
  | JArr l => Returns l
  | JStr s => Returns (chars_of s)
  | _ => Throws
  end.

(** [Math.min] and [Math.max] on two numbers. *)
Definition math_min (a b : float) : float :=
  if is_nan a || is_nan b then nan
  else if PrimFloat.ltb a b then a
  else if PrimFloat.ltb b a then b
  else if PrimFloat.ltb (PrimFloat.div 1 a) 0 then a else b.

Definition math_max (a b : float) : float :=
  if is_nan a || is_nan b then nan
  else if PrimFloat.ltb a b then b
  else if PrimFloat.ltb b a then a
  else if PrimFloat.ltb (PrimFloat.div 1 a) 0 then b else a.

(** The host functions the sources call on values.  [JSON_stringify] is a
    function of the value: the order of the properties of an object, which
    the host's serialisation follows, is not part of a [JValue]. *)
Record Host : Type := {
  JSON_parse : string -> option JValue;   (* [None]: SyntaxError *)
  JSON_stringify : JValue -> string;
  String_of : JValue -> string;           (* [String(v)] and [`${v}`] *)
  ToNumber : JValue -> float              (* used on non-numbers only *)
}.

Definition to_number (h : Host) (v : JValue) : float :=
  match v with
  | JNum f => f
  | JUndefined => nan
  | JNull => 0%float
  | JBool b => if b then 1%float else 0%float
  | _ => ToNumber h v
  end.

(** [typeof c === 'string' ? c : String(c)] *)
Definition text_of (h : Host) (c : JValue) : string :=
  match c with
  | JStr s => s
  | _ => String_of h c
  end.

(* ===================================================================== *)
(** * Strings *)
(* ===================================================================== *)

Definition lower_ascii (c : ascii) : ascii :=
  let n := nat_of_ascii c in
  if (65 <=? n)%nat && (n <=? 90)%nat then ascii_of_nat (n + 32) else c.

Fixpoint toLowerCase (s : string) : string :=
  match s with
  | EmptyString => EmptyString
  | String c r => String (lower_ascii c) (toLowerCase r)
  end.

(** [s.includes(pat)] *)
Fixpoint includes (s pat : string) : bool :=
  String.prefix pat s ||
  match s with
  | EmptyString => false
  | String _ r => includes r pat
  end.

Definition is_ws (c : ascii) : bool :=
  let n := nat_of_ascii c in
  ((9 <=? n)%nat && (n <=? 13)%nat) || (n =? 32)%nat.

Fixpoint drop_ws (l : list ascii) : list ascii :=
  match l with
  | c :: r => if is_ws c then drop_ws r else l
  | [] => []
  end.

Definition trim (s : string) : string :=
  string_of_list_ascii (rev (drop_ws (rev (drop_ws (list_ascii_of_string s))))).

(** [s.split(/\s+/)]: [cur] is the token being read, [skipping] holds inside
    a run of white space. *)
Fixpoint split_ws_go (l : list ascii) (cur : list ascii) (skipping : bool)
  : list string :=
  match l with
  | [] => [string_of_list_ascii (rev cur)]
  | c :: r =>
      if is_ws c then
        if skipping then split_ws_go r cur true
        else string_of_list_ascii (rev cur) :: split_ws_go r [] true
      else split_ws_go r (c :: cur) false
  end.

Definition split_ws (s : string) : list string :=
  split_ws_go (list_ascii_of_string s) [] false.

(** [l.slice(-n)] *)
Definition slice_last {A} (n : nat) (l : list A) : list A :=
  drop (length l - n) l.

Definition str_in (s : string) (l : list string) : bool :=
  existsb (String.eqb s) l.

Definition quote : string := String (ascii_of_nat 34) EmptyString.

(* ===================================================================== *)
(** * Messages and state ([supervisor/types.ts], [supervisor/state.ts]) *)
(* ===================================================================== *)

Inductive AgentRole : Type := user | assistant | system.

(** The class of a message object; [PlainMessage] is a message that reaches
    the graph as a plain object. *)
Inductive MessageKind : Type :=
  HumanMessage | AIMessage | SystemMessage | PlainMessage.

(** A chat message of the framework: its class and its content, a string or
    a list of content blocks. *)
Record BaseMessage : Type := {
  kind : MessageKind;
  content : JValue
}.

Record Progress : Type := {
  isProgressUpdate : bool;
  step : string;
  progressAgent : string;
  ephemeral : option bool;
  autoRemoveMs : option Z
}.

(** [AnnotatedMessage], with the [planningRecommendation] the planner
    attaches to its own message.  The optional [delegation] of the interface
    is read by [routePlanner] only, which takes it as an argument; it is
    left out of the record. *)
Record AnnotatedMessage : Type := {
  message : BaseMessage;
  role : AgentRole;
  agent : option string;
  senderId : option string;
  timestamp : Z;
  progress : option Progress;
  planningRecommendation : JValue
}.

Record ProductInfo : Type := {
  product : string;
  quantity : option float
}.

(** The state channels.  [M] is the type of a message entry: a message in
    the state, and a message or [undefined] in a fragment a node returns
    (the supervisor can put its possibly undefined last message there). *)
Record StateOf (M : Type) : Type := {
  messages : list M;
  next : Opt string;
  userId : Opt string;
  conversationId : Opt string;
  cartData : JValue;
  workflowContext : Opt string;
  dealData : JValue;
  delegationDepth : Opt float;
  pendingProduct : Opt ProductInfo;
  notificationData : JValue;
  plannerRecommendation : JValue
}.
Arguments messages {M} _.
Arguments next {M} _.
Arguments userId {M} _.
Arguments conversationId {M} _.
Arguments cartData {M} _.
Arguments workflowContext {M} _.
Arguments dealData {M} _.
Arguments delegationDepth {M} _.
Arguments pendingProduct {M} _.
Arguments notificationData {M} _.
Arguments plannerRecommendation {M} _.

Definition State : Type := StateOf AnnotatedMessage.
Definition Fragment : Type := StateOf (option AnnotatedMessage).

(** The terminal sentinel of the graph framework. *)
Definition END : string := "__end__".

(** ** The reducers *)

Definition isEphemeral (msg : AnnotatedMessage) : bool :=
  match progress msg with
  | Some p =>
      isProgressUpdate p &&
      match ephemeral p with Some true => true | _ => false end
  | None => false
  end.

Definition isPermanent (msg : AnnotatedMessage) : bool :=
  match progress msg with
  | Some p =>
      negb (isProgressUpdate p) ||
      match ephemeral p with Some true => false | _ => true end
  | None => true
  end.

Definition messages_reducer (x y : list AnnotatedMessage)
  : list AnnotatedMessage :=
  let combined := x ++ y in
  let ephemeral := List.filter isEphemeral combined in
  let permanent := List.filter isPermanent combined in
  let recentEphemeral := slice_last 5 ephemeral in
  let recentPermanent := slice_last 10 permanent in
  recentPermanent ++ recentEphemeral.

Definition next_reducer (x y : Opt string) : Opt string :=
  match coalesce y x with
  | Val s => Val s
  | _ => Val END
  end.

Definition userId_reducer (x y : Opt string) : Opt string :=
  if negb (truthy_str y) && negb (truthy_str x) then Val "default-user"
  else coalesce y x.

Definition conversationId_reducer (now : Z) (x y : Opt string) : Opt string :=
  if negb (truthy_str y) && negb (truthy_str x) then Val ("conv-" +:+ pretty now)
  else coalesce y x.

Definition cartData_reducer (x y : JValue) : JValue :=
  match y with
  | JNull => JNull
  | _ =>
      if negb (truthy y) then x
      else if negb (truthy x) then y
      else if typeof_object y && typeof_object x then JObj (spread2 x y)
      else y
  end.

Definition validContexts : list string :=
  [ "awaiting_deal_confirmation";
    "add_to_cart_with_deals";
    "add_to_cart_with_checkout";
    "check_deals";
    "prepare_checkout";
    "process_checkout";
    "send_notification" ].

Definition workflowContext_reducer (x y : Opt string) : Opt string :=
  match y with
  | Val s =>
      if negb (String.eqb s "") && negb (str_in s validContexts) then x
      else y
  | _ => x
  end.

Definition dealData_reducer (x y : JValue) : Outcome JValue :=
  match y with
  | JNull => Returns JNull
  | _ =>
      if negb (truthy y) then Returns x
      else if negb (truthy x) then Returns y
      else
        match iterate (js_or (prop x "history") (JArr [])),
              iterate (js_or (prop y "history") (JArr [])) with
        | Returns hx, Returns hy =>
            Returns (JObj (<["history" := JArr (hx ++ hy)]> (spread2 x y)))
        | _, _ => Throws
        end
  end.

Definition delegationDepth_reducer (x y : Opt float) : Opt float :=
  match y with
  | Null => Val 0%float
  | _ =>
      let prev := match x with Val f => f | _ => 0%float end in
      let next := match y with Val f => f | _ => prev end in
      Val (math_max 0 (math_min next 100))
  end.

Definition pendingProduct_reducer (x y : Opt ProductInfo) : Opt ProductInfo :=
  match y with
  | Null => Null
  | Undefined => x
  | Val p => if String.eqb (product p) "" then x else y
  end.

Definition notificationData_reducer (x y : JValue) : JValue :=
  match y with
  | JNull => JNull
  | _ =>
      if negb (truthy y) then x
      else if negb (truthy x) then y
      else JObj (spread2 x y)
  end.

Definition plannerRecommendation_reducer (x y : JValue) : JValue :=
  match y with
  | JNull => JNull
  | _ => if negb (truthy y) then x else y
  end.

(** One step of the graph runner: every channel of the state is updated by
    its reducer with the value the fragment holds for it, [undefined] where
    the fragment has no such key.  (A runner that skips the reducer of an
    absent key gives the same state but for the defaults of [next], [userId],
    [conversationId] and [delegationDepth]: the other reducers return the old
    value on [undefined].)  The messages reducer reads [msg.progress] of
    every entry and throws on an [undefined] one; the deal data reducer
    throws on a [history] it cannot iterate. *)
Definition merge (now : Z) (st : State) (upd : Fragment) : Outcome State :=
  match mapM id (messages upd), dealData_reducer (dealData st) (dealData upd) with
  | Some new, Returns dd =>
      Returns
        {| messages := messages_reducer (messages st) new;
           next := next_reducer (next st) (next upd);
           userId := userId_reducer (userId st) (userId upd);
           conversationId :=
             conversationId_reducer now (conversationId st) (conversationId upd);
           cartData := cartData_reducer (cartData st) (cartData upd);
           workflowContext :=
             workflowContext_reducer (workflowContext st) (workflowContext upd);
           dealData := dd;
           delegationDepth :=
             delegationDepth_reducer (delegationDepth st) (delegationDepth upd);
           pendingProduct :=
             pendingProduct_reducer (pendingProduct st) (pendingProduct upd);
           notificationData :=
             notificationData_reducer (notificationData st) (notificationData upd);
           plannerRecommendation :=
             plannerRecommendation_reducer
               (plannerRecommendation st) (plannerRecommendation upd) |}
  | _, _ => Throws
  end.

(* ===================================================================== *)
(** * Message helpers ([supervisor/message-utils.ts]) *)
(* ===================================================================== *)

(** Every node reads the clock through [Date.now()]; [now] is that reading
    (one per node invocation). *)

Definition annotateMessage (now : Z) (msg : BaseMessage) (role : AgentRole)
    (agent : option string) : AnnotatedMessage :=
  {| message := msg; role := role; agent := agent; senderId := None;
     timestamp := now; progress := None; planningRecommendation := JUndefined |}.

Definition aiMessage (text : JValue) : BaseMessage :=
  {| kind := AIMessage; content := text |}.

Definition createProgressMessage (now : Z) (text : string) (agent : string)
  : AnnotatedMessage :=
  let a := if String.eqb agent "" then "supervisor" else agent in
  {| message := aiMessage (JStr text);
     role := assistant;
     agent := Some a;
     senderId := None;
     timestamp := now;
     progress :=
       Some {| isProgressUpdate := true; step := text; progressAgent := a;
               ephemeral := Some true; autoRemoveMs := Some 5000%Z |};
     planningRecommendation := JUndefined |}.

Definition getAgentProgressMessage (now : Z) (agentName : string)
    (context : Opt string) : AnnotatedMessage :=
  let text :=
    if String.eqb agentName "catalog" then "ğŸ›ï¸ Searching our catalog..."
    else if String.eqb agentName "deals" then "ğŸ·ï¸ Checking for deals..."
    else if String.eqb agentName "cart_and_checkout" then
      match context with
      | Val c =>
          if String.eqb c "process_checkout" || String.eqb c "prepare_checkout"
          then "ğŸ’³ Processing checkout..."
          else "ğŸ›’ Managing your cart..."
      | _ => "ğŸ›’ Managing your cart..."
      end
    else if String.eqb agentName "payment" then "ğŸ’³ Managing payments..."
    else if String.eqb agentName "notification_agent"
    then "ğŸ“§ Sending notifications..."
    else "â³ Delegating to " +:+ agentName +:+ "..." in
  createProgressMessage now text "supervisor".

Definition with_timestamp (t : Z) (m : AnnotatedMessage) : AnnotatedMessage :=
  {| message := message m; role := role m; agent := agent m;
     senderId := senderId m; timestamp := t; progress := progress m;
     planningRecommendation := planningRecommendation m |}.

(** [messages[messages.length - 1]], [undefined] on an empty list *)
Definition lastOf {A} (l : list A) : option A := last l.

(** The text of the last message, [''] when there is none. *)
Definition lastContent (h : Host) (msgs : list AnnotatedMessage) : string :=
  match lastOf msgs with
  | Some m => text_of h (content (message m))
  | None => ""
  end.

Definition is_ctx (c : string) (wc : Opt string) : bool :=
  match wc with
  | Val s => String.eqb s c
  | _ => false
  end.

(* ===================================================================== *)
(** * The supervisor's workflow-context checks ([supervisor.ts], [supervisor]) *)
(* ===================================================================== *)

Definition affirmativePatterns : list string :=
  [ "yes"; "sure"; "ok"; "okay"; "apply"; "take";
    "sounds"; "great"; "perfect"; "good"; "deal"; "go" ].

Definition hasAffirmative (messageContent : string) : bool :=
  let messageWords := split_ws (trim (toLowerCase messageContent)) in
  existsb (fun pattern =>
             existsb (fun word => includes word pattern || includes pattern word)
                     messageWords)
          affirmativePatterns.

Definition completionText (st : State) (a : string) : string :=
  if String.eqb a "deals" then
    if truthy (dealData st) && truthy (prop (dealData st) "applied")
    then "🏷️ Found deals, proceeding..."
    else if truthy (dealData st) && truthy (prop (dealData st) "pending")
    then "🏷️ Found deals, awaiting confirmation..."
    else "🏷️ Deal search completed..."
  else if String.eqb a "cart_and_checkout" then
    if is_ctx "process_checkout" (workflowContext st)
       || is_ctx "prepare_checkout" (workflowContext st)
    then "💳 Checkout completed..."
    else "🛒 Added items to cart..."
  else if String.eqb a "catalog" then "🛍️ Catalog search completed..."
  else if String.eqb a "payment" then "💳 Payment processing completed..."
  else if String.eqb a "notification_agent" then "📧 Notifications sent..."
  else "✅ Agent task completed...".

(** The agent whose completion the supervisor frames, when the last message
    comes from a specialist. *)
Definition agentCompletion (st : State) : option string :=
  match lastOf (messages st) with
  | Some m =>
      match agent m with
      | Some a =>
          if negb (String.eqb a "") && negb (String.eqb a "supervisor")
             && negb (String.eqb a "user")
          then Some a else None
      | None => None
      end
  | None => None
  end.

(** The progress messages every branch starts from, and the next value of
    the time-stamp offset. *)
Definition initialMessages (now : Z) (st : State) : list AnnotatedMessage * Z :=
  match agentCompletion st with
  | Some a =>
      ([ with_timestamp now
           (createProgressMessage now (completionText st a) "supervisor");
         with_timestamp (now + 1)
           (createProgressMessage now "🔄 Evaluating next steps..." "supervisor") ],
       2%Z)
  | None =>
      ([ with_timestamp now
           (createProgressMessage now "🧠 Evaluating request..." "supervisor") ],
       1%Z)
  end.

(** ** [detectComplexWorkflow] ([supervisor/workflow-detection.ts]) *)

Record WorkflowDetectionResult : Type := {
  isComplex : bool;
  workflowType : option string;
  reason : option string;
  includesCheckout : bool
}.

Definition detectComplexWorkflow (messageContent : string)
  : WorkflowDetectionResult :=
  let lowerContent := toLowerCase messageContent in
  let has := includes lowerContent in
  let hasCheckout :=
    has "checkout" || has "check out" || has "place order" || has "complete order"
    || (has "then" && (has "continue" || has "proceed"))
    || (has "just" && has "continue") in
  let dealsAndCartPattern :=
    (has "check" || has "find" || has "look")
    && (has "deal" || has "promotion" || has "discount" || has "sale")
    && (has "add" && has "cart") in
  let conditionalPattern :=
    has "if"
    && (has "deal" || has "discount" || has "sale" || has "promotion")
    && (has "add" || has "buy" || has "purchase") in
  let multiActionPattern :=
    has " and "
    && ((has "deal" || has "promotion" || has "discount")
        && (has "add" || has "cart")) in
  if dealsAndCartPattern then
    {| isComplex := true;
       workflowType :=
         Some (if hasCheckout then "deals_to_cart_to_checkout" else "deals_to_cart");
       reason :=
         Some (if hasCheckout
               then "User wants to check deals, add to cart, and proceed to checkout automatically"
               else "User wants to check deals first, then add to cart based on availability");
       includesCheckout := hasCheckout |}
  else if conditionalPattern then
    {| isComplex := true;
       workflowType :=
         Some (if hasCheckout then "conditional_purchase_with_checkout"
               else "conditional_purchase");
       reason :=
         Some (if hasCheckout
               then "User wants conditional action based on deal availability with automatic checkout"
               else "User wants conditional action based on deal availability");
       includesCheckout := hasCheckout |}
  else if multiActionPattern then
    {| isComplex := true;
       workflowType :=
         Some (if hasCheckout then "multi_step_purchase_with_checkout"
               else "multi_step_purchase");
       reason :=
         Some (if hasCheckout
               then "User wants multiple coordinated actions (deals check + cart addition + checkout)"
               else "User wants multiple coordinated actions (deals check + cart addition)");
       includesCheckout := hasCheckout |}
  else
    {| isComplex := false; workflowType := None; reason := None;
       includesCheckout := false |}.

(** ** [supervisor] *)

Record ContinuationAnalysis : Type := {
  isContinuation : bool;
  continuationType : option string;
  targetAgent : option string;
  confidence : float;
  reasoning : option string
}.

(** What the three awaited calls of a supervisor turn resolve to, each
    consulted only where the source reaches it; a rejected call makes the
    node throw.  [routingReply] is [response.content.toString()] of the
    routing model. *)
Record SupervisorOracles : Type := {
  continuationIntent : Outcome ContinuationAnalysis;
  routingReply : Outcome string;
  extraction : Outcome (option ProductInfo)
}.

Definition js_opt_str (o : option string) : JValue :=
  match o with
  | Some s => JStr s
  | None => JUndefined
  end.

(** The fragment most routing decisions return. *)
Definition routeTo (target : string) (ctx : Opt string) (st : State)
    (deal cart : JValue) (pending : Opt ProductInfo) (recommendation : JValue)
    (msgs : list (option AnnotatedMessage)) : Fragment :=
  {| messages := msgs;
     next := Val target;
     userId := userId st;
     conversationId := conversationId st;
     cartData := cart;
     workflowContext := ctx;
     dealData := deal;
     delegationDepth := Undefined;
     pendingProduct := pending;
     notificationData := JUndefined;
     plannerRecommendation := recommendation |}.

(** [confidence && confidence > 0.7] *)
Definition confident (h : Host) (confidence : JValue) : bool :=
  truthy confidence && PrimFloat.ltb 0.7 (to_number h confidence).

Definition plannerAgents : list string :=
  ["catalog"; "cart_and_checkout"; "deals"; "payment"; "notification_agent"].

Definition routingAgents : list string :=
  ["catalog"; "cart_and_checkout"; "payment"; "deals"].

(** [supervisor].  [minContinuationConfidence] is the constant
    [MIN_CONTINUATION_CONFIDENCE] of [constants.ts].  The [targetAgent] of a
    planner recommendation is read at its declared type, an optional
    string. *)
Definition supervisor (h : Host) (now : Z) (minContinuationConfidence : float)
    (oracles : SupervisorOracles) (st : State) : Outcome Fragment :=
  let '(initial, offset) := initialMessages now st in
  let lastAnnotated := lastOf (messages st) in
  let lastEntry := match lastAnnotated with Some m => [Some m] | None => [] end in
  let messageContent := lastContent h (messages st) in
  let progressTo (target : string) (ctx : Opt string) :=
    (Some <$> initial) ++
    [Some (with_timestamp (now + offset) (getAgentProgressMessage now target ctx))] ++
    lastEntry in
  if is_ctx "send_notification" (workflowContext st) then
    let orderId := js_or (prop (notificationData st) "orderId") (JStr "N/A") in
    let checkoutCompletionMessage :=
      aiMessage (JStr ("✅ Checkout completed successfully! Your order ID is: "
                       +:+ text_of h orderId)) in
    let annotatedCheckoutMessage :=
      with_timestamp (now + offset)
        (annotateMessage now checkoutCompletionMessage assistant (Some "supervisor")) in
    let notificationProgressMessage :=
      with_timestamp (now + offset + 1)
        (getAgentProgressMessage now "notification_agent" (Val "send_notification")) in
    Returns
      (routeTo "notification_agent" (Val "send_notification") st
         JUndefined JUndefined Undefined (plannerRecommendation st)
         ((Some <$> initial) ++
          [Some annotatedCheckoutMessage; Some notificationProgressMessage] ++
          lastEntry))
  else if is_ctx "awaiting_deal_confirmation" (workflowContext st)
          && present (pendingProduct st) then
    if hasAffirmative messageContent then
      let cartProgressMessage :=
        with_timestamp (now + offset)
          (getAgentProgressMessage now "cart_and_checkout"
             (Val "add_to_cart_with_deals")) in
      Returns
        (routeTo "cart_and_checkout" (Val "add_to_cart_with_deals") st
           (dealData st) (cartData st) (pendingProduct st) JUndefined
           ((Some <$> initial) ++ [Some cartProgressMessage; lastAnnotated]))
    else
      let declineMessage :=
        aiMessage (JStr "No problem! Let me know if you'd like to explore other products or if there's anything else I can help you with.") in
      Returns
        (routeTo END Undefined st JUndefined (cartData st) Undefined JUndefined
           ((Some <$> initial) ++
            [Some {| message := declineMessage; role := assistant;
                     agent := Some "supervisor"; senderId := None;
                     timestamp := now; progress := None;
                     planningRecommendation := JUndefined |}]))
  else
    let complexWorkflow := detectComplexWorkflow messageContent in
    let recommendation := plannerRecommendation st in
    let action := prop recommendation "action" in
    let plannedAgent :=
      match prop recommendation "targetAgent" with
      | JStr s => if String.eqb s "" then None else Some s
      | _ => None
      end in
    let plannerConfidence := prop recommendation "confidence" in
    (* the decision taken from the planner recommendation, if any *)
    let planned : option Fragment :=
      if negb (truthy recommendation) then None
      else if is_str "direct_response" action then
        let responseContent :=
          js_or (js_or (prop recommendation "task") (prop recommendation "reasoning"))
                (JStr "Hello! How can I help you today?") in
        Some
          (routeTo END (workflowContext st) st (dealData st) (cartData st)
             (pendingProduct st) JUndefined
             ((Some <$> initial) ++
              [Some {| message := aiMessage responseContent; role := assistant;
                       agent := Some "supervisor"; senderId := None;
                       timestamp := now; progress := None;
                       planningRecommendation := JUndefined |}]))
      else if is_str "delegate" action then
        match plannedAgent with
        | Some target =>
            let finalTargetAgent :=
              if is_ctx "add_to_cart_with_deals" (workflowContext st)
                 && present (pendingProduct st) then "cart_and_checkout"
              else if is_ctx "awaiting_deal_confirmation" (workflowContext st)
                      && present (pendingProduct st) then target
              else if isComplex complexWorkflow && String.eqb target "supervisor"
              then "deals"
              else if str_in target plannerAgents && confident h plannerConfidence
              then target
              else target in
            if negb (String.eqb finalTargetAgent target)
               || confident h plannerConfidence then
              Some
                (routeTo finalTargetAgent (workflowContext st) st (dealData st)
                   (cartData st) (pendingProduct st) JUndefined
                   (progressTo finalTargetAgent (workflowContext st)))
            else None
        | None => None
        end
      else None in
    match planned with
    | Some f => Returns f
    | None =>
        match continuationIntent oracles with
        | Throws => Throws
        | Returns continuationAnalysis =>
            let continued : option Fragment :=
              if isContinuation continuationAnalysis
                 && PrimFloat.ltb minContinuationConfidence
                      (confidence continuationAnalysis) then
                match continuationType continuationAnalysis with
                | Some t =>
                    if String.eqb t "deal_confirmation" then
                      Some
                        (routeTo "cart_and_checkout" (Val "add_to_cart_with_deals") st
                           (dealData st) JUndefined (pendingProduct st) JUndefined
                           (progressTo "cart_and_checkout"
                              (Val "add_to_cart_with_deals")))
                    else if String.eqb t "checkout_flow" then
                      let checkoutContext :=
                        if truthy (cartData st) then "process_checkout"
                        else "prepare_checkout" in
                      Some
                        (routeTo "cart_and_checkout" (Val checkoutContext) st
                           JUndefined (cartData st) Undefined JUndefined
                           (progressTo "cart_and_checkout" (Val checkoutContext)))
                    else if String.eqb t "add_to_cart" then
                      let target :=
                        if present (pendingProduct st) then "cart_and_checkout"
                        else "deals" in
                      let ctx :=
                        if present (pendingProduct st) then "add_to_cart_with_deals"
                        else "check_deals" in
                      Some
                        (routeTo target (Val ctx) st (dealData st) JUndefined
                           (pendingProduct st) JUndefined
                           (progressTo target (Val ctx)))
                    else None
                | None => None
                end
              else None in
            match continued with
            | Some f => Returns f
            | None =>
                if is_ctx "add_to_cart_with_deals" (workflowContext st)
                   && present (pendingProduct st) then
                  Returns
                    (routeTo "cart_and_checkout" (Val "add_to_cart_with_deals") st
                       (dealData st) JUndefined (pendingProduct st)
                       (plannerRecommendation st)
                       (progressTo "cart_and_checkout"
                          (Val "add_to_cart_with_deals")))
                else if is_ctx "add_to_cart_with_checkout" (workflowContext st) then
                  Returns
                    (routeTo "cart_and_checkout" (Val "process_checkout") st
                       (dealData st) (cartData st) Null
                       (plannerRecommendation st)
                       (progressTo "cart_and_checkout" (Val "process_checkout")))
                else
                  match routingReply oracles with
                  | Throws => Throws
                  | Returns reply =>
                      let nextAgent := toLowerCase (trim reply) in
                      let selectedAgent :=
                        if str_in nextAgent routingAgents then nextAgent
                        else "catalog" in
                      let extractedProduct : Outcome (Opt ProductInfo) :=
                        if (String.eqb selectedAgent "deals"
                            && negb (present (pendingProduct st)))
                           || isComplex complexWorkflow then
                          match extraction oracles with
                          | Returns (Some p) => Returns (Val p)
                          | Returns None => Returns Null
                          | Throws => Throws
                          end
                        else Returns (pendingProduct st) in
                      match extractedProduct with
                      | Throws => Throws
                      | Returns extracted =>
                          let checksDeals :=
                            isComplex complexWorkflow
                            && String.eqb selectedAgent "deals"
                            && present extracted in
                          let finalWorkflowContext :=
                            if checksDeals then Val "check_deals"
                            else workflowContext st in
                          let finalDealData :=
                            if checksDeals && includesCheckout complexWorkflow then
                              JObj (<["includesCheckout" := JBool true]>
                                    (<["workflowType" :=
                                         js_opt_str (workflowType complexWorkflow)]>
                                     (spread (dealData st))))
                            else dealData st in
                          Returns
                            (routeTo selectedAgent finalWorkflowContext st
                               finalDealData (cartData st)
                               (if present extracted then extracted
                                else pendingProduct st)
                               (plannerRecommendation st)
                               (progressTo selectedAgent finalWorkflowContext))
                      end
                  end
            end
        end
    end.

(* ===================================================================== *)
(** * The specialist node adapters ([supervisor.ts]) *)
(* ===================================================================== *)

(** What a specialist agent graph resolves to: its messages, when it has
    any, and its [content] property.  The prompt a node sends to its agent
    ([buildAgentContextMessage] and the instructions appended to it) only
    reaches the agent, whose reply is an input here, and is not modelled;
    neither are the invalidations of the planner cache. *)
Record AgentResult : Type := {
  resultMessages : option (list BaseMessage);
  resultContent : JValue
}.

Definition js_str (v : Opt string) : JValue :=
  match v with
  | Val s => JStr s
  | Null => JNull
  | Undefined => JUndefined
  end.

Definition obj (l : list (string * JValue)) : JValue := JObj (list_to_map l).

Definition is_user (m : AnnotatedMessage) : bool :=
  match role m with
  | user => true
  | _ => false
  end.

(** [(result.messages || []).map(m => annotateMessage(m, 'assistant', agent))] *)
Definition annotateResponses (now : Z) (agent : string) (result : AgentResult)
  : list AnnotatedMessage :=
  (fun m => annotateMessage now m assistant (Some agent))
    <$> default [] (resultMessages result).

Definition catalogNode (now : Z) (st : State) (result : AgentResult) : Fragment :=
  let annotatedResponses := annotateResponses now "catalog" result in
  {| messages := Some <$> annotatedResponses;
     next := Val END;
     userId := userId st;
     conversationId := conversationId st;
     cartData := cartData st;
     workflowContext := workflowContext st;
     dealData := dealData st;
     delegationDepth := Undefined;
     pendingProduct := pendingProduct st;
     notificationData := JUndefined;
     plannerRecommendation := plannerRecommendation st |}.

(** ** [safeParseJson] ([supervisor/product-utils.ts]) *)

Definition brace_open : ascii := ascii_of_nat 123.
Definition brace_close : ascii := ascii_of_nat 125.

Fixpoint from_first_open (l : list ascii) : option (list ascii) :=
  match l with
  | [] => None
  | c :: r => if Ascii.eqb c brace_open then Some l else from_first_open r
  end.

(** The longest prefix of [l] that ends with a closing brace. *)
Fixpoint upto_last_close (l : list ascii) : option (list ascii) :=
  match l with
  | [] => None
  | c :: r =>
      match upto_last_close r with
      | Some p => Some (c :: p)
      | None => if Ascii.eqb c brace_close then Some [c] else None
      end
  end.

(** [text.match(/\{[\s\S]*\}/)]: from the first opening brace to the last
    closing brace after it. *)
Definition braceBlock (text : string) : option string :=
  match from_first_open (list_ascii_of_string text) with
  | Some (_ :: r) =>
      match upto_last_close r with
      | Some p => Some (string_of_list_ascii (brace_open :: p))
      | None => None
      end
  | _ => None
  end.

Definition safeParseJson (h : Host) (text : string) : JValue :=
  if String.eqb text "" then JNull
  else
    match JSON_parse h text with
    | Some v => v
    | None =>
        match braceBlock text with
        | None => JNull
        | Some block =>
            match JSON_parse h block with
            | Some v => v
            | None => JNull
            end
        end
    end.

(** ** [cartAndCheckoutNode] *)

(** The text of the last message a user wrote, else of the last message. *)
Definition actualUserContent (h : Host) (st : State) : string :=
  match lastOf (List.filter is_user (messages st)) with
  | Some m => text_of h (content (message m))
  | None => lastContent h (messages st)
  end.

Definition isCheckoutRequest (h : Host) (st : State) : bool :=
  let c := toLowerCase (actualUserContent h st) in
  includes c "checkout" || includes c "buy" || includes c "purchase"
  || is_ctx "process_checkout" (workflowContext st)
  || is_ctx "prepare_checkout" (workflowContext st).

(** [contentStr]: the content of the agent's last message when it is a
    non-empty string, [''] when it is of another type, and the [content]
    of the result when there is no such message or its content is falsy. *)
Definition cartContentStr (result : AgentResult) : string :=
  let responseContent :=
    match lastOf (default [] (resultMessages result)) with
    | Some m =>
        if truthy (content m) then
          match content m with JStr s => JStr s | _ => JStr "" end
        else js_or (resultContent result) (JStr "")
    | None => js_or (resultContent result) (JStr "")
    end in
  match responseContent with
  | JStr s => s
  | _ => ""
  end.

Definition productNotRecognized (contentStr : string) : bool :=
  let c := toLowerCase contentStr in
  includes c "not recognizing the product"
  || includes c "product not found"
  || includes c "item not found".

Definition checkoutSuccess (contentStr : string) : bool :=
  let c := toLowerCase contentStr in
  includes c "checkout completed"
  || includes c "order confirmed"
  || includes c "payment successful"
  || includes c "order placed".

Definition num_of_Z (z : Z) : float := PrimFloat.of_uint63 (Uint63.of_Z z).

Definition cartAndCheckoutNode (h : Host) (now : Z) (st : State)
    (result : AgentResult) : Fragment :=
  let isCheckout := isCheckoutRequest h st in
  let annotatedResponses := annotateResponses now "cart_and_checkout" result in
  let contentStr := cartContentStr result in
  let structured := safeParseJson h contentStr in
  let base : Fragment :=
    {| messages := Some <$> annotatedResponses;
       next := Val END;
       userId := userId st;
       conversationId := conversationId st;
       cartData := cartData st;
       workflowContext := workflowContext st;
       dealData := dealData st;
       delegationDepth := Undefined;
       pendingProduct := pendingProduct st;
       notificationData := JUndefined;
       plannerRecommendation := plannerRecommendation st |} in
  match productNotRecognized contentStr, pendingProduct st with
  | true, Val pending =>
      let helpfulMessage :=
        aiMessage (JStr ("I couldn't find " +:+ quote +:+ product pending +:+ quote
                         +:+ " in our catalog. Let me help you find the right product. You can try searching for similar items or browse our catalog.")) in
      {| messages :=
           Some <$> (annotatedResponses ++
                     [annotateMessage now helpfulMessage assistant
                        (Some "cart_and_checkout")]);
         next := Val END;
         userId := userId st;
         conversationId := conversationId st;
         cartData := cartData st;
         workflowContext := Null;
         dealData := JNull;
         delegationDepth := Undefined;
         pendingProduct := Null;
         notificationData := JUndefined;
         plannerRecommendation := plannerRecommendation st |}
  | _, _ =>
      if truthy structured && truthy (prop structured "checkoutStatus")
         && is_str "success" (prop structured "checkoutStatus") then
        let notificationPayload :=
          obj [ ("userId", js_str (userId st));
                ("conversationId", js_str (conversationId st));
                ("summary", js_or (prop structured "summary") (JStr contentStr));
                ("cartData", js_or (prop structured "items") (cartData st));
                ("orderId", js_or (prop structured "orderId") JNull);
                ("total", js_or (prop structured "total") JNull);
                ("timestamp", JNum (num_of_Z now)) ] in
        {| messages := Some <$> annotatedResponses;
           next := Val "supervisor";
           userId := userId st;
           conversationId := conversationId st;
           cartData := JNull;
           workflowContext := Val "send_notification";
           dealData := dealData st;
           delegationDepth := Undefined;
           pendingProduct := Null;
           notificationData := notificationPayload;
           plannerRecommendation := plannerRecommendation st |}
      else if truthy structured && truthy (prop structured "checkoutStatus")
              && is_str "failure" (prop structured "checkoutStatus") then
        let failMessage :=
          aiMessage (JStr ("Checkout failed: " +:+
                           text_of h (js_or (prop structured "summary")
                                            (JStr "Unknown reason")))) in
        {| messages :=
             Some <$> (annotatedResponses ++
                       [annotateMessage now failMessage assistant
                          (Some "cart_and_checkout")]);
           next := Val END;
           userId := userId st;
           conversationId := conversationId st;
           cartData := cartData st;
           workflowContext := Null;
           dealData := dealData st;
           delegationDepth := Undefined;
           pendingProduct := Null;
           notificationData := JUndefined;
           plannerRecommendation := plannerRecommendation st |}
      else if checkoutSuccess contentStr then
        let notificationPayload :=
          obj [ ("userId", js_str (userId st));
                ("conversationId", js_str (conversationId st));
                ("summary", JStr contentStr);
                ("cartData", cartData st);
                ("orderId", JNull);
                ("timestamp", JNum (num_of_Z now)) ] in
        {| messages := Some <$> annotatedResponses;
           next := Val "supervisor";
           userId := userId st;
           conversationId := conversationId st;
           cartData := JNull;
           workflowContext := Val "send_notification";
           dealData := dealData st;
           delegationDepth := Undefined;
           pendingProduct := Null;
           notificationData := notificationPayload;
           plannerRecommendation := plannerRecommendation st |}
      else
        let shouldAutoCheckout :=
          truthy (dealData st)
          && truthy (prop (dealData st) "includesCheckout")
          && is_ctx "add_to_cart_with_deals" (workflowContext st)
          && negb isCheckout in
        if shouldAutoCheckout then
          let checkoutProgressMessage :=
            createProgressMessage now
              "💳 Proceeding to checkout automatically..." "supervisor" in
          {| messages := Some <$> (annotatedResponses ++ [checkoutProgressMessage]);
             next := Val "supervisor";
             userId := userId st;
             conversationId := conversationId st;
             cartData := cartData st;
             workflowContext := Val "add_to_cart_with_checkout";
             dealData :=
               JObj (<["includesCheckout" := JBool false]> (spread (dealData st)));
             delegationDepth := Undefined;
             pendingProduct := Null;
             notificationData := JUndefined;
             plannerRecommendation := plannerRecommendation st |}
        else base
  end.

(** ** [dealsNode] *)

(** [extractProductInfo] asks the language model; [extract] is its answer
    for a message text: a product, [null], or an exception. *)
Definition Extractor : Type := string -> Outcome (option ProductInfo).

(** One turn of the extraction loop: a thrown error is caught, and a result
    counts only when its [product] is truthy. *)
Definition tryExtract (h : Host) (extract : Extractor) (m : AnnotatedMessage)
  : option ProductInfo :=
  match extract (text_of h (content (message m))) with
  | Returns (Some p) => if String.eqb (product p) "" then None else Some p
  | _ => None
  end.

(** The loop over the last two user messages, the most recent first, until
    one yields a product. *)
Fixpoint extractFirst (h : Host) (extract : Extractor)
    (newestFirst : list AnnotatedMessage) : option ProductInfo :=
  match newestFirst with
  | [] => None
  | m :: r =>
      match tryExtract h extract m with
      | Some p => Some p
      | None => extractFirst h extract r
      end
  end.

Definition effectivePending (h : Host) (extract : Extractor) (st : State)
  : option ProductInfo :=
  match pendingProduct st with
  | Val p => Some p
  | _ =>
      let userMessages := List.filter is_user (messages st) in
      let recentUserMessages := slice_last 2 userMessages in
      extractFirst h extract (rev recentUserMessages)
  end.

Definition quantitySuffix (h : Host) (p : ProductInfo) : string :=
  match quantity p with
  | Some q =>
      if truthy (JNum q) then " (quantity: " +:+ String_of h (JNum q) +:+ ")"
      else ""
  | None => ""
  end.

(** The message for the deals agent: the last message, rewritten in the
    [check_deals] context. *)
Definition dealsMessageToAgent (h : Host) (st : State) (p : ProductInfo)
  : string :=
  let messageToAgent := lastContent h (messages st) in
  if is_ctx "check_deals" (workflowContext st) then
    let originalMessage := toLowerCase messageToAgent in
    let isComplexWorkflow :=
      (includes originalMessage "check" && includes originalMessage "deal"
       && includes originalMessage "add")
      || (includes originalMessage "if" && includes originalMessage "deal")
      || (includes originalMessage "deal" && includes originalMessage "cart") in
    if isComplexWorkflow then
      "Complex workflow request: " +:+ quote +:+ messageToAgent +:+ quote
      +:+ ". User wants to check for deals on " +:+ product p
      +:+ quantitySuffix h p
      +:+ " and conditionally add to cart if deals are available. Please check for deals and present options clearly."
    else
      "User wants to add to cart: " +:+ quote +:+ messageToAgent +:+ quote
      +:+ ". Check for deals on " +:+ product p +:+ quantitySuffix h p
  else messageToAgent.

Definition dealsIsComplexWorkflow (messageToAgent : string) : bool :=
  let modifiedMessageLower := toLowerCase messageToAgent in
  (includes modifiedMessageLower "check" && includes modifiedMessageLower "deal"
   && includes modifiedMessageLower "add")
  || (includes modifiedMessageLower "if" && includes modifiedMessageLower "deal")
  || (includes modifiedMessageLower "deal" && includes modifiedMessageLower "cart")
  || includes modifiedMessageLower "complex workflow request".

Definition requiresConfirmation (responseContent : string) : bool :=
  let c := toLowerCase responseContent in
  includes c "would you like"
  || includes c "apply this deal"
  || includes c "interested in"
  || includes c "take advantage".

Definition noDealsAvailable (responseContent : string) : bool :=
  let c := toLowerCase responseContent in
  includes c "no current deals"
  || includes c "no deals available"
  || includes c "expired"
  || includes c "unfortunately, there are no".

(** [dealsNode].  The function throws when the agent's [content] is truthy
    and not a string (it is lower-cased), and returns [undefined], here
    [None], when it reaches its end without a [return]. *)
Definition dealsNode (h : Host) (now : Z) (extract : Extractor) (st : State)
    (result : AgentResult) : Outcome (option Fragment) :=
  match effectivePending h extract st with
  | None =>
      let errorMessage :=
        aiMessage (JStr "I need to know which product you're interested in to check for deals. Could you please specify the product name? For example, 'Check deals on apples' or 'Add 8 apples to my cart'.") in
      Returns (Some
        {| messages := [Some (annotateMessage now errorMessage assistant (Some "deals"))];
           next := Val END;
           userId := userId st;
           conversationId := conversationId st;
           cartData := cartData st;
           workflowContext := Null;
           dealData := dealData st;
           delegationDepth := Undefined;
           pendingProduct := Null;
           notificationData := JUndefined;
           plannerRecommendation := plannerRecommendation st |})
  | Some pending =>
      let messageToAgent := dealsMessageToAgent h st pending in
      let responseMessages := annotateResponses now "deals" result in
      match js_or (resultContent result) (JStr "No deals found") with
      | JStr responseContent =>
          let isComplexWorkflow := dealsIsComplexWorkflow messageToAgent in
          let autoApplyIntent :=
            match prop (plannerRecommendation st) "autoApplyIntent" with
            | JBool true => true
            | _ => false
            end in
          let confirm := requiresConfirmation responseContent in
          let lower := toLowerCase responseContent in
          if confirm
             || (isComplexWorkflow && negb (includes lower "no current deals")
                 && negb (includes lower "no deals available")) then
            if autoApplyIntent then
              Returns (Some
                {| messages :=
                     Some <$> (responseMessages ++
                               [createProgressMessage now
                                  "🛒 Adding items to your cart..." "supervisor"]);
                   next := Val "supervisor";
                   userId := userId st;
                   conversationId := conversationId st;
                   cartData := cartData st;
                   workflowContext := Val "add_to_cart_with_deals";
                   dealData :=
                     JObj (<["applied" := JBool true]>
                           (<["response" := JStr responseContent]>
                            (<["type" := JStr "product_deal"]>
                             (<["originalIntent" := JStr messageToAgent]>
                              (spread (dealData st))))));
                   delegationDepth := Undefined;
                   pendingProduct := Val pending;
                   notificationData := JUndefined;
                   plannerRecommendation := plannerRecommendation st |})
            else if confirm then
              Returns (Some
                {| messages := Some <$> responseMessages;
                   next := Val END;
                   userId := userId st;
                   conversationId := conversationId st;
                   cartData := cartData st;
                   workflowContext := Val "awaiting_deal_confirmation";
                   dealData :=
                     JObj (<["pending" := JBool true]>
                           (<["response" := JStr responseContent]>
                            (<["type" := JStr "product_deal"]>
                             (spread (dealData st)))));
                   delegationDepth := Undefined;
                   pendingProduct := Val pending;
                   notificationData := JUndefined;
                   plannerRecommendation := plannerRecommendation st |})
            else
              Returns (Some
                {| messages := Some <$> responseMessages;
                   next := Val "cart_and_checkout";
                   userId := userId st;
                   conversationId := conversationId st;
                   cartData := cartData st;
                   workflowContext := Val "add_to_cart_with_deals";
                   dealData :=
                     JObj (<["applied" := JBool true]>
                           (<["response" := JStr responseContent]>
                            (<["type" := JStr "product_deal"]>
                             (spread (dealData st)))));
                   delegationDepth := Undefined;
                   pendingProduct := Val pending;
                   notificationData := JUndefined;
                   plannerRecommendation := plannerRecommendation st |})
          else if noDealsAvailable responseContent then
            Returns (Some
              {| messages := Some <$> responseMessages;
                 next := Val END;
                 userId := userId st;
                 conversationId := conversationId st;
                 cartData := cartData st;
                 workflowContext := Null;
                 dealData :=
                   JObj (<["applied" := JBool false]>
                         (<["response" := JStr responseContent]>
                          (<["type" := JStr "no_deals_found"]>
                           (spread (dealData st)))));
                 delegationDepth := Undefined;
                 pendingProduct := Null;
                 notificationData := JUndefined;
                 plannerRecommendation := plannerRecommendation st |})
          else Returns None
      | _ => Throws
      end
  end.

(** ** [paymentNode] *)

Definition paymentNode (now : Z) (st : State) (result : AgentResult) : Fragment :=
  let annotatedResponses := annotateResponses now "payment" result in
  {| messages := Some <$> annotatedResponses;
     next := Val END;
     userId := userId st;
     conversationId := conversationId st;
     cartData := cartData st;
     workflowContext := workflowContext st;
     dealData := dealData st;
     delegationDepth := Undefined;
     pendingProduct := pendingProduct st;
     notificationData := JUndefined;
     plannerRecommendation := JUndefined |}.

(** ** [notificationAgent] ([notificationAgent.ts]) *)

(** What the delivery call resolves to: its [ok] flag and [result?.status]. *)
Record PushResult : Type := {
  ok : JValue;
  status : JValue
}.

Definition is_one (v : JValue) : bool :=
  match v with
  | JNum f => PrimFloat.eqb f 1%float
  | _ => false
  end.

Definition notificationAgent (now : Z) (st : State) (send : Outcome PushResult)
  : Fragment :=
  let reply (text : string) : Fragment :=
    {| messages :=
         [Some (annotateMessage now (aiMessage (JStr text)) assistant
                  (Some "notification_agent"))];
       next := Val END;
       userId := userId st;
       conversationId := conversationId st;
       cartData := JUndefined;
       workflowContext := Undefined;
       dealData := JUndefined;
       delegationDepth := Undefined;
       pendingProduct := Undefined;
       notificationData := JNull;
       plannerRecommendation := JUndefined |} in
  if negb (truthy (notificationData st)) then
    reply "No notification data to process."
  else
    match send with
    | Returns pushoverResult =>
        if truthy (ok pushoverResult) && is_one (status pushoverResult) then
          reply "Notification sent successfully! You should receive a push notification shortly."
        else
          reply "Failed to send notification. Your order was completed successfully though!"
    | Throws =>
        reply "There was an issue sending the notification, but your order was completed successfully!"
    end.

(** ** The graph wiring *)

(** The path map of the conditional edge that routes by [state.next] out of
    a node: the values of [next] the graph can follow from there.  [payment]
    has a plain edge to the end and no such map. *)
Definition pathMap (node : string) : list string :=
  if String.eqb node "supervisor" then
    ["catalog"; "cart_and_checkout"; "payment"; "deals"; "notification_agent"]
  else if String.eqb node "catalog" then ["supervisor"; END]
  else if String.eqb node "cart_and_checkout" then ["supervisor"; END]
  else if String.eqb node "deals" then ["supervisor"; END]
  else if String.eqb node "notification_agent" then ["supervisor"; END]
  else [].

(** A next hop the hub-and-spoke pattern allows a specialist. *)
Definition hubOrEnd (n : Opt string) : bool :=
  match n with
  | Val s => String.eqb s "supervisor" || String.eqb s END
  | _ => false
  end.

(** The three fields of the state a fragment is to hand on. *)
Definition carriesIdentity (st : State) (f : Fragment) : Prop :=
  userId f = userId st
  /\ conversationId f = conversationId st
  /\ plannerRecommendation f = plannerRecommendation st.

(* ===================================================================== *)
(** * The planner ([planner.ts]) *)
(* ===================================================================== *)

(** [s.slice(0, 1000)] *)
Definition slice1000 (s : string) : string := String.substring 0 1000 s.

Definition allowedActions : list string := ["direct_response"; "delegate"].

(** The plan returned for a missing or unknown action. *)
Definition invalidActionPlan (h : Host) (input : JValue) : JValue :=
  let task := prop input "task" in
  let shown := slice1000 (text_of h task) in
  obj [ ("action", JStr "delegate");
        ("task",
         JStr (if truthy task && negb (String.eqb shown "") then shown
               else slice1000 (JSON_stringify h input)));
        ("confidence", JNum 0.5%float);
        ("reasoning", JStr "Planner returned invalid or missing action") ].

(** The fields of [normalizedPlan]. *)
Definition normalizedTask (h : Host) (input : JValue) : JValue :=
  match prop input "task" with
  | JStr s => JStr s
  | t => if truthy t then JStr (String_of h t) else JUndefined
  end.

Definition normalizedConfidence (input : JValue) : float :=
  match prop input "confidence" with
  | JNum c => math_max 0 (math_min 1 c)
  | _ => 0.5%float
  end.

Definition normalizedReasoning (h : Host) (input : JValue) : string :=
  match prop input "reasoning" with
  | JStr s => s
  | r => if truthy r then String_of h r else ""
  end.

Definition normalizedAutoApplyIntent (input : JValue) : bool :=
  match prop input "autoApplyIntent" with
  | JBool b => b
  | _ => false
  end.

Definition planObject (action : string) (task : JValue) (confidence : float)
    (reasoning : string) (autoApplyIntent : bool) : JValue :=
  obj [ ("action", JStr action);
        ("task", task);
        ("confidence", JNum confidence);
        ("reasoning", JStr reasoning);
        ("autoApplyIntent", JBool autoApplyIntent) ].

(** [validateAndNormalizePlan]: the pair of [valid] and [plan].  It throws on
    [undefined], whose [JSON.stringify] has no [slice]. *)
Definition validateAndNormalizePlan (h : Host) (input : JValue)
  : Outcome (bool * JValue) :=
  if negb (truthy input) || negb (typeof_object input) then
    match input with
    | JUndefined => Throws
    | _ =>
        Returns
          (false,
           obj [ ("action", JStr "delegate");
                 ("task",
                  JStr (match input with
                        | JStr s => slice1000 s
                        | _ => slice1000 (JSON_stringify h input)
                        end));
                 ("confidence", JNum 0.5%float);
                 ("reasoning", JStr "Invalid planner output format") ])
    end
  else
    let rawAction :=
      match prop input "action" with
      | JStr a => toLowerCase a
      | _ => ""
      end in
    if String.eqb rawAction "" || negb (str_in rawAction allowedActions) then
      Returns (false, invalidActionPlan h input)
    else
      let task := normalizedTask h input in
      let confidence := normalizedConfidence input in
      let reasoning := normalizedReasoning h input in
      let autoApplyIntent := normalizedAutoApplyIntent input in
      if String.eqb rawAction "direct_response" && negb (truthy task)
         && String.eqb reasoning "" then
        Returns
          (false,
           planObject "delegate" task (math_min confidence 0.6)
             "Converted to delegate because direct_response lacked content"
             autoApplyIntent)
      else if PrimFloat.ltb confidence 0.7
              && String.eqb rawAction "direct_response" then
        Returns
          (true,
           planObject "delegate" task confidence
             ("Low confidence classification - delegating for safety. Original: "
              +:+ reasoning)
             autoApplyIntent)
      else
        Returns
          (true, planObject rawAction task confidence reasoning autoApplyIntent).

(** What the language model call of the planner does: it resolves to a
    response or rejects with an error whose [message] is given. *)
Inductive OracleOutcome : Type :=
| Replied (response : JValue)
| Failed (errorMessage : JValue).

(** The text the planner parses: the [content] of the response when it is a
    non-empty string, else the response serialised. *)
Definition plannerText (h : Host) (response : JValue) : string :=
  let textContent :=
    match response with
    | JUndefined | JNull => ""
    | _ => match prop response "content" with JStr s => s | _ => "" end
    end in
  if String.eqb textContent "" then JSON_stringify h (js_or response (JStr ""))
  else textContent.

Fixpoint from_first_brace (s : string) : option string :=
  match s with
  | EmptyString => None
  | String c r => if Ascii.eqb c brace_open then Some s else from_first_brace r
  end.

(** [text.slice(text.indexOf('{'))], the whole text when it has no brace *)
Definition jsonText (text : string) : string :=
  default text (from_first_brace text).

Definition parseFallbackPlan (text reasoning : string) : JValue :=
  obj [ ("action", JStr "delegate");
        ("task", JStr (slice1000 text));
        ("confidence", JNum 0.5%float);
        ("reasoning", JStr reasoning) ].

(** The plan after the parse: the parsed value, or a fallback when the parse
    throws or yields a falsy value. *)
Definition parsedPlan (h : Host) (text : string) : JValue :=
  match JSON_parse h (jsonText text) with
  | Some plan =>
      if truthy plan then plan
      else parseFallbackPlan text "Planner returned no plan; delegating for safety."
  | None =>
      parseFallbackPlan text
        "Could not parse JSON plan from planner LLM; delegating for safety."
  end.

(** The three assignments [plan.confidence = ...], [plan.action = ...] and
    [plan.reasoning = ...].  The module is in strict mode, where a property
    assignment on a primitive value throws.  An array has none of the three
    properties nor any other that [validateAndNormalizePlan] reads, and no
    branch that follows them serialises the plan, so the object of the three
    properties written stands for the array that carries them. *)
Definition assignDefaults (h : Host) (plan : JValue) : Outcome JValue :=
  let fields :=
    match plan with
    | JObj m => Some m
    | JArr _ => Some ∅
    | _ => None
    end in
  match fields with
  | Some m =>
      let confidence :=
        math_max 0 (math_min 1
          (to_number h (js_or (prop plan "confidence") (JNum 0.5%float)))) in
      let action := js_or (prop plan "action") (JStr "delegate") in
      let reasoning := js_or (prop plan "reasoning") (JStr "") in
      Returns
        (JObj (<["reasoning" := reasoning]>
               (<["action" := action]>
                (<["confidence" := JNum confidence]> m))))
  | None => Throws
  end.

(** A message as a client sends it to the graph, with its [type] property. *)
Record RawMessage : Type := {
  rawMessage : BaseMessage;
  rawType : option string
}.

(** The messages of the planner's state: annotated messages, or raw ones
    that the planner converts first. *)
Inductive PlannerMessages : Type :=
| AnnotatedMessages (l : list AnnotatedMessage)
| RawMessages (l : list RawMessage).

Definition is_type (t : string) (m : RawMessage) : bool :=
  match rawType m with
  | Some s => String.eqb s t
  | None => false
  end.

Definition convertRaw (now : Z) (msg : RawMessage) : AnnotatedMessage :=
  let k := kind (rawMessage msg) in
  let r :=
    if is_type "human" msg || match k with HumanMessage => true | _ => false end
    then user
    else if is_type "ai" msg || match k with AIMessage => true | _ => false end
    then assistant
    else if is_type "system" msg || match k with SystemMessage => true | _ => false end
    then system
    else user in
  {| message := rawMessage msg; role := r; agent := None; senderId := None;
     timestamp := now; progress := None; planningRecommendation := JUndefined |}.

(** The messages the planner works on, and those it hands back because it
    converted them. *)
Definition plannerMessages (now : Z) (msgs : PlannerMessages)
  : list AnnotatedMessage * list AnnotatedMessage :=
  match msgs with
  | AnnotatedMessages l => (l, [])
  | RawMessages [] => ([], [])
  | RawMessages l => (convertRaw now <$> l, convertRaw now <$> l)
  end.

Definition has_content (m : AnnotatedMessage) : bool :=
  match content (message m) with
  | JUndefined => false
  | _ => true
  end.

Definition plannerMessage (h : Host) (now : Z) (plan : JValue) : AnnotatedMessage :=
  {| message := aiMessage (JStr (JSON_stringify h plan));
     role := assistant;
     agent := Some "planner";
     senderId := None;
     timestamp := now;
     progress := None;
     planningRecommendation := plan |}.

(** [planner], for a state that is an object (the guard against any other
    is the first thing in the source).  [cached] is what the planner cache
    holds for the key of this turn; [msgs] are the messages of the state and
    [st] its other channels; [oracle] is the outcome of the language model
    call.  The planner metrics are not modelled. *)
Definition planner (h : Host) (now : Z) (cached : option Fragment)
    (msgs : PlannerMessages) (st : State) (oracle : OracleOutcome)
  : Outcome Fragment :=
  let '(messages, converted) := plannerMessages now msgs in
  match cached with
  | Some payload => Returns payload
  | None =>
      let extractedMessages := List.filter has_content (slice_last 6 messages) in
      match extractedMessages with
      | [] =>
          let fallbackPlan :=
            obj [ ("action", JStr "delegate");
                  ("confidence", JNum 0.5%float);
                  ("reasoning", JStr "No valid messages to analyze") ] in
          Returns
            {| messages := Some <$> (converted ++ [plannerMessage h now fallbackPlan]);
               next := Undefined; userId := Undefined; conversationId := Undefined;
               cartData := JUndefined; workflowContext := Undefined;
               dealData := JUndefined; delegationDepth := Undefined;
               pendingProduct := Undefined; notificationData := JUndefined;
               plannerRecommendation := JUndefined |}
      | _ =>
          match oracle with
          | Failed errorMessage =>
              let fallbackPlan :=
                obj [ ("action", JStr "delegate");
                      ("confidence", JNum 0.5%float);
                      ("reasoning",
                       JStr ("LLM invocation error: " +:+ text_of h errorMessage)) ] in
              Returns
                {| messages := Some <$> (converted ++ [plannerMessage h now fallbackPlan]);
                   next := Undefined; userId := Undefined; conversationId := Undefined;
                   cartData := JUndefined; workflowContext := Undefined;
                   dealData := JUndefined; delegationDepth := Undefined;
                   pendingProduct := Undefined; notificationData := JUndefined;
                   plannerRecommendation := fallbackPlan |}
          | Replied response =>
              let text := plannerText h response in
              match assignDefaults h (parsedPlan h text) with
              | Throws => Throws
              | Returns plan =>
                  match validateAndNormalizePlan h plan with
                  | Throws => Throws
                  | Returns (_, finalPlan) =>
                      Returns
                        {| messages :=
                             Some <$> (converted ++ [plannerMessage h now finalPlan]);
                           next := Undefined;
                           userId := userId st;
                           conversationId := conversationId st;
                           cartData := cartData st;
                           workflowContext := workflowContext st;
                           dealData := dealData st;
                           delegationDepth := delegationDepth st;
                           pendingProduct := pendingProduct st;
                           notificationData := notificationData st;
                           plannerRecommendation := finalPlan |}
                  end
              end
          end
      end
  end.

(** The language model is called when the planner has a message to show
    it (with no cached plan, as in every statement below). *)
Definition oracleCalled (now : Z) (msgs : PlannerMessages) : Prop :=
  List.filter has_content (slice_last 6 (fst (plannerMessages now msgs))) <> [].

(* ===================================================================== *)
(** * A reference host *)
(* ===================================================================== *)

(** A concrete [Host] for closed examples.  It follows the language on a
    fragment: JSON texts whose numbers are written without exponent, with at
    most 22 fraction digits and a significand below 2^53, and whose strings
    have no [\u] escape (other texts are rejected); numbers of at most 15
    significant digits and magnitude in [1e-6, 2^53) when printed; objects
    serialised in the key order of the map. *)

Definition digit_of (c : ascii) : option Z :=
  let n := nat_of_ascii c in
  if (48 <=? n)%nat && (n <=? 57)%nat then Some (Z.of_nat (n - 48)) else None.

Fixpoint read_digits (l : list ascii) (acc : Z) (count : nat)
  : Z * nat * list ascii :=
  match l with
  | c :: r =>
      match digit_of c with
      | Some d => read_digits r (acc * 10 + d)%Z (S count)
      | None => (acc, count, l)
      end
  | [] => (acc, count, [])
  end.

Definition pow10 (p : nat) : Z := (10 ^ Z.of_nat p)%Z.

Definition is_char (n : nat) (c : ascii) : bool := (nat_of_ascii c =? n)%nat.

Definition starts_zero (l : list ascii) : bool :=
  match l with
  | c :: _ => is_char 48 c
  | [] => false
  end.

(** A JSON number at the head of [l]. *)
Definition read_number (l : list ascii) : option (float * list ascii) :=
  let '(negative, l1) :=
    match l with
    | c :: r => if is_char 45 c then (true, r) else (false, l)
    | [] => (false, l)
    end in
  let '(i, n, r1) := read_digits l1 0%Z 0 in
  if (n =? 0)%nat || ((1 <? n)%nat && starts_zero l1) then None
  else
    let has_exponent (rest : list ascii) :=
      match rest with
      | c :: _ => is_char 101 c || is_char 69 c
      | [] => false
      end in
    let result (m : Z) (p : nat) (rest : list ascii) :=
      if has_exponent rest then None
      else if (m <? 2 ^ 53)%Z && (p <=? 22)%nat then
        let v := PrimFloat.div (num_of_Z m) (num_of_Z (pow10 p)) in
        Some (if negative then PrimFloat.opp v else v, rest)
      else None in
    match r1 with
    | c :: r2 =>
        if is_char 46 c then
          let '(m, p, r3) := read_digits r2 i 0 in
          if (p =? 0)%nat then None else result m p r3
        else result i 0%nat r1
    | [] => result i 0%nat r1
    end.

Definition unescape (c : ascii) : option ascii :=
  let n := nat_of_ascii c in
  if (n =? 34)%nat || (n =? 92)%nat || (n =? 47)%nat then Some c
  else if (n =? 98)%nat then Some (ascii_of_nat 8)
  else if (n =? 102)%nat then Some (ascii_of_nat 12)
  else if (n =? 110)%nat then Some (ascii_of_nat 10)
  else if (n =? 114)%nat then Some (ascii_of_nat 13)
  else if (n =? 116)%nat then Some (ascii_of_nat 9)
  else None.

(** The rest of a JSON string after its opening quote. *)
Fixpoint read_string (l : list ascii) (acc : list ascii)
  : option (string * list ascii) :=
  match l with
  | [] => None
  | c :: r =>
      if is_char 34 c then Some (string_of_list_ascii (rev acc), r)
      else if is_char 92 c then
        match r with
        | e :: r' =>
            match unescape e with
            | Some x => read_string r' (x :: acc)
            | None => None
            end
        | [] => None
        end
      else if (nat_of_ascii c <? 32)%nat then None
      else read_string r (c :: acc)
  end.

Definition is_jws (c : ascii) : bool :=
  is_char 32 c || is_char 9 c || is_char 10 c || is_char 13 c.

Fixpoint skip_jws (l : list ascii) : list ascii :=
  match l with
  | c :: r => if is_jws c then skip_jws r else l
  | [] => []
  end.

Fixpoint strip_prefix (p l : list ascii) : option (list ascii) :=
  match p, l with
  | [], _ => Some l
  | a :: p', b :: l' => if Ascii.eqb a b then strip_prefix p' l' else None
  | _ :: _, [] => None
  end.

Definition literal (word : string) (v : JValue) (l : list ascii)
  : option (JValue * list ascii) :=
  match strip_prefix (list_ascii_of_string word) l with
  | Some r => Some (v, r)
  | None => None
  end.

Fixpoint read_value (fuel : nat) (l : list ascii) : option (JValue * list ascii) :=
  match fuel with
  | O => None
  | S fuel' =>
      match skip_jws l with
      | [] => None
      | c :: r =>
          if is_char 110 c then literal "null" JNull (c :: r)
          else if is_char 116 c then literal "true" (JBool true) (c :: r)
          else if is_char 102 c then literal "false" (JBool false) (c :: r)
          else if is_char 34 c then
            match read_string r [] with
            | Some (s, r') => Some (JStr s, r')
            | None => None
            end
          else if is_char 91 c then
            match skip_jws r with
            | d :: r' =>
                if is_char 93 d then Some (JArr [], r')
                else read_elements fuel' r []
            | [] => None
            end
          else if is_char 123 c then
            match skip_jws r with
            | d :: r' =>
                if is_char 125 d then Some (JObj ∅, r')
                else read_members fuel' r ∅
            | [] => None
            end
          else
            match read_number (c :: r) with
            | Some (f, r') => Some (JNum f, r')
            | None => None
            end
      end
  end
with read_elements (fuel : nat) (l : list ascii) (acc : list JValue)
  : option (JValue * list ascii) :=
  match fuel with
  | O => None
  | S fuel' =>
      match read_value fuel' l with
      | Some (v, r) =>
          match skip_jws r with
          | c :: r' =>
              if is_char 44 c then read_elements fuel' r' (v :: acc)
              else if is_char 93 c then Some (JArr (rev (v :: acc)), r')
              else None
          | [] => None
          end
      | None => None
      end
  end
with read_members (fuel : nat) (l : list ascii) (acc : gmap string JValue)
  : option (JValue * list ascii) :=
  match fuel with
  | O => None
  | S fuel' =>
      match skip_jws l with
      | q :: r =>
          if is_char 34 q then
            match read_string r [] with
            | Some (k, r1) =>
                match skip_jws r1 with
                | c :: r2 =>
                    if is_char 58 c then
                      match read_value fuel' r2 with
                      | Some (v, r3) =>
                          match skip_jws r3 with
                          | d :: r4 =>
                              if is_char 44 d
                              then read_members fuel' r4 (<[k := v]> acc)
                              else if is_char 125 d
                              then Some (JObj (<[k := v]> acc), r4)
                              else None
                          | [] => None
                          end
                      | None => None
                      end
                    else None
                | [] => None
                end
            | None => None
            end
          else None
      | [] => None
      end
  end.

Definition ref_parse (text : string) : option JValue :=
  let l := list_ascii_of_string text in
  match read_value (2 * length l + 2) l with
  | Some (v, r) =>
      match skip_jws r with
      | [] => Some v
      | _ => None
      end
  | None => None
  end.

(** ** Printing *)

Definition join (sep : string) (l : list string) : string :=
  match l with
  | [] => ""
  | x :: r => x +:+ fold_right (fun y acc => sep +:+ y +:+ acc) "" r
  end.

(** The nearest integer to [a / b], for positive [b]. *)
Definition round_div (a b : Z) : Z := ((2 * a + b) / (2 * b))%Z.

(** The least number [p] of fraction digits, from [p] on, with which the
    nearest decimal reads back as [f], where [f] is [m * 2^e]. *)
Fixpoint find_digits (fuel p : nat) (f : float) (m e : Z) : option (Z * nat) :=
  match fuel with
  | O => None
  | S fuel' =>
      let scaled := (m * pow10 p)%Z in
      let s := if (0 <=? e)%Z then (scaled * 2 ^ e)%Z
               else round_div scaled (2 ^ (- e)) in
      if (s <? 2 ^ 53)%Z
         && PrimFloat.eqb (PrimFloat.div (num_of_Z s) (num_of_Z (pow10 p))) f
      then Some (s, p)
      else find_digits fuel' (S p) f m e
  end.

Fixpoint zeros (n : nat) : string :=
  match n with
  | O => ""
  | S k => "0" +:+ zeros k
  end.

(** [s / 10^p] in decimal notation *)
Definition decimal (s : Z) (p : nat) : string :=
  match p with
  | O => pretty s
  | _ =>
      let frac := pretty (s mod pow10 p)%Z in
      pretty (s / pow10 p)%Z +:+ "." +:+ zeros (p - String.length frac) +:+ frac
  end.

Definition print_number (f : float) : string :=
  let sign := if PrimFloat.ltb f 0 then "-" else "" in
  match Prim2SF (PrimFloat.abs f) with
  | S754_zero _ => "0"
  | S754_infinity _ => sign +:+ "Infinity"
  | S754_nan => "NaN"
  | S754_finite _ m e =>
      match find_digits 23 0 (PrimFloat.abs f) (Z.pos m) e with
      | Some (s, p) => sign +:+ decimal s p
      | None =>
          if (0 <=? e)%Z then sign +:+ pretty (Z.pos m * 2 ^ e)%Z
          else sign +:+ decimal (Z.pos m * 5 ^ (- e))%Z (Z.to_nat (- e))
      end
  end.

Definition hex_digit (n : nat) : ascii :=
  ascii_of_nat (if (n <? 10)%nat then 48 + n else 87 + n).

Definition escape_char (c : ascii) : string :=
  let n := nat_of_ascii c in
  let bs := String (ascii_of_nat 92) EmptyString in
  if (n =? 34)%nat then bs +:+ quote
  else if (n =? 92)%nat then bs +:+ bs
  else if (n =? 8)%nat then bs +:+ "b"
  else if (n =? 12)%nat then bs +:+ "f"
  else if (n =? 10)%nat then bs +:+ "n"
  else if (n =? 13)%nat then bs +:+ "r"
  else if (n =? 9)%nat then bs +:+ "t"
  else if (n <? 32)%nat then
    bs +:+ "u00" +:+ String (hex_digit (n / 16)) (String (hex_digit (n mod 16)) EmptyString)
  else String c EmptyString.

Fixpoint escape_string (s : string) : string :=
  match s with
  | EmptyString => EmptyString
  | String c r => escape_char c +:+ escape_string r
  end.

Definition quoted (s : string) : string := quote +:+ escape_string s +:+ quote.

Definition is_finite (f : float) : bool :=
  match Prim2SF f with
  | S754_zero _ | S754_finite _ _ _ => true
  | _ => false
  end.

(** [JSON.stringify(v)] for a value that has a serialisation; in an array
    [undefined] prints as [null], in an object its key is left out. *)
Fixpoint ref_stringify (v : JValue) : string :=
  match v with
  | JUndefined => "null"
  | JNull => "null"
  | JBool b => if b then "true" else "false"
  | JNum f => if is_finite f then print_number f else "null"
  | JStr s => quoted s
  | JArr l => "[" +:+ join "," (ref_stringify <$> l) +:+ "]"
  | JObj m =>
      let shown :=
        omap (fun x => match x with
                       | JUndefined => None
                       | _ => Some (ref_stringify x)
                       end) m in
      "{" +:+ join "," ((fun kv => quoted (fst kv) +:+ ":" +:+ snd kv)
                          <$> map_to_list shown) +:+ "}"
  end.

(** [String(v)] *)
Fixpoint ref_String (v : JValue) : string :=
  match v with
  | JUndefined => "undefined"
  | JNull => "null"
  | JBool b => if b then "true" else "false"
  | JNum f => print_number f
  | JStr s => s
  | JArr l =>
      join "," ((fun x => match x with
                          | JUndefined | JNull => ""
                          | _ => ref_String x
                          end) <$> l)
  | JObj _ => "[object Object]"
  end.

(** The number a string denotes: [0] for a blank one, [NaN] outside the
    fragment. *)
Definition number_of_string (s : string) : float :=
  let t := list_ascii_of_string (trim s) in
  match t with
  | [] => 0%float
  | _ =>
      match read_number t with
      | Some (f, []) => f
      | _ => nan
      end
  end.

Definition ref_ToNumber (v : JValue) : float :=
  match v with
  | JStr s => number_of_string s
  | JArr _ => number_of_string (ref_String v)
  | JNum f => f
  | JBool b => if b then 1%float else 0%float
  | JNull => 0%float
  | _ => nan
  end.

Definition refHost : Host :=
  {| JSON_parse := ref_parse;
     JSON_stringify := ref_stringify;
     String_of := ref_String;
     ToNumber := ref_ToNumber |}.

(* ===================================================================== *)
(** * The edge out of the planner ([supervisor.ts], [routePlanner]) *)
(* ===================================================================== *)

(** [lastMessage.message.content = c], an assignment to the last message of
    the list. *)
Definition setLastContent (c : JValue) (msgs : list AnnotatedMessage)
  : list AnnotatedMessage :=
  match lastOf msgs with
  | Some m =>
      removelast msgs ++
      [ {| message := {| kind := kind (message m); content := c |};
           role := role m; agent := agent m; senderId := senderId m;
           timestamp := timestamp m; progress := progress m;
           planningRecommendation := planningRecommendation m |} ]
  | None => msgs
  end.

(** [delegationDepth + 1], with the default [0] of the destructuring for
    [undefined]; [null + 1] is [1] as well. *)
Definition nextDepth (depth : Opt float) : float :=
  match depth with
  | Val d => PrimFloat.add d 1
  | _ => 1%float
  end.

(** [routePlanner], the function of the conditional edge that leaves the
    planner.  It reads two properties of the last message that
    [AnnotatedMessage] above does not hold: its [delegation], and the names
    of the [tool_calls] of its [message] ([None] when the message has no
    such property or a falsy one).  The function assigns to the state it is
    given and to the last message; it returns the name of the next node, and
    the state is returned as the function leaves it. *)
Definition routePlanner (delegation : JValue) (toolCalls : option (list string))
    (st : State) : string * State :=
  match lastOf (messages st) with
  | None => (END, st)
  | Some lastMessage =>
      let recommendation := js_or (planningRecommendation lastMessage) delegation in
      if truthy recommendation then
        if is_str "direct_response" (prop recommendation "action") then
          (END,
           if truthy (prop recommendation "task") then
             {| messages := setLastContent (prop recommendation "task") (messages st);
                next := next st; userId := userId st;
                conversationId := conversationId st; cartData := cartData st;
                workflowContext := workflowContext st; dealData := dealData st;
                delegationDepth := delegationDepth st;
                pendingProduct := pendingProduct st;
                notificationData := notificationData st;
                plannerRecommendation := plannerRecommendation st |}
           else st)
        else if is_str "delegate" (prop recommendation "action") then
          ("supervisor",
           {| messages := messages st;
              next := next st; userId := userId st;
              conversationId := conversationId st; cartData := cartData st;
              workflowContext := workflowContext st; dealData := dealData st;
              delegationDepth := Val (nextDepth (delegationDepth st));
              pendingProduct := pendingProduct st;
              notificationData := notificationData st;
              plannerRecommendation := recommendation |})
        else ("supervisor", st)
      else
        match toolCalls with
        | Some (toolName :: _) =>
            if String.eqb toolName "direct_response" then (END, st)
            else if String.eqb toolName "delegate_to_agent" then ("supervisor", st)
            else if String.eqb toolName "generate_plan" then ("supervisor", st)
            else (END, st)
        | _ => (END, st)
        end
  end.

(** The path map of the edge: the names [routePlanner] may return. *)
Definition plannerPathMap : list string := [END; "supervisor"; "tools"].

(* ===================================================================== *)
(** * The context sent to a specialist ([supervisor/message-utils.ts]) *)
(* ===================================================================== *)

Definition upper_ascii (c : ascii) : ascii :=
  let n := nat_of_ascii c in
  if (97 <=? n)%nat && (n <=? 122)%nat then ascii_of_nat (n - 32) else c.

Fixpoint toUpperCase (s : string) : string :=
  match s with
  | EmptyString => EmptyString
  | String c r => String (upper_ascii c) (toUpperCase r)
  end.

(** The filter of [buildAgentContextMessage]: the messages of the user and
    of the system, and those the target agent itself produced. *)
Definition relevantTo (targetAgent : string) (m : AnnotatedMessage) : bool :=
  match role m with
  | user | system => true
  | assistant =>
      match agent m with
      | Some a => String.eqb a targetAgent
      | None => false
      end
  end.

(** [typeof c === 'string' ? c : JSON.stringify(c)], which is [undefined],
    here [None], for an [undefined] content. *)
Definition contextContent (h : Host) (m : AnnotatedMessage) : option string :=
  match content (message m) with
  | JStr s => Some s
  | JUndefined => None
  | c => Some (JSON_stringify h c)
  end.

Definition same_content (a b : option string) : bool :=
  match a, b with
  | Some s, Some t => String.eqb s t
  | None, None => true
  | _, _ => false
  end.

(** The loop that walks the filtered messages from the most recent one and
    keeps a message when its content has not been seen. *)
Fixpoint dedupeNewest (h : Host) (newestFirst : list AnnotatedMessage)
    (seen : list (option string)) : list AnnotatedMessage :=
  match newestFirst with
  | [] => []
  | m :: r =>
      let c := contextContent h m in
      if existsb (same_content c) seen then dedupeNewest h r seen
      else m :: dedupeNewest h r (c :: seen)
  end.

(** [l.slice(-n)] for any count: [slice(-0)] is the whole list. *)
Definition slice_from_end {A} (n : nat) (l : list A) : list A :=
  match n with
  | O => l
  | _ => slice_last n l
  end.

(** The entries of the context: [recent] of the source. *)
Definition contextEntries (h : Host) (annotatedMessages : list AnnotatedMessage)
    (targetAgent : string) (maxEntries : nat) : list AnnotatedMessage :=
  let filtered := List.filter (relevantTo targetAgent) annotatedMessages in
  let deduped := rev (dedupeNewest h (rev filtered) []) in
  slice_from_end maxEntries deduped.

Definition contextLine (h : Host) (m : AnnotatedMessage) : string :=
  let src :=
    match role m with
    | assistant =>
        match agent m with
        | Some a => if String.eqb a "" then "assistant" else a
        | None => "assistant"
        end
    | system => "system"
    | user => "user"
    end in
  toUpperCase src +:+ ": " +:+ default "undefined" (contextContent h m).

Definition contextLines (h : Host) (annotatedMessages : list AnnotatedMessage)
    (targetAgent currentUserMessage : string) (maxEntries : nat) : list string :=
  let lines := contextLine h <$> contextEntries h annotatedMessages targetAgent maxEntries in
  if existsb (fun l => includes l currentUserMessage) lines then lines
  else lines ++ ["USER_LATEST: " +:+ currentUserMessage].

Definition newline : string := String (ascii_of_nat 10) EmptyString.

(** [buildAgentContextMessage]; every caller leaves [maxEntries] at its
    default, 6. *)
Definition buildAgentContextMessage (h : Host)
    (annotatedMessages : list AnnotatedMessage)
    (targetAgent currentUserMessage : string) (maxEntries : nat) : string :=
  join (newline +:+ newline)
       (contextLines h annotatedMessages targetAgent currentUserMessage maxEntries).

(* ===================================================================== *)
(** * Product names ([supervisor/product-utils.ts]) *)
(* ===================================================================== *)

Definition pluralToSingular : list (string * string) :=
  [ ("apples", "apple"); ("bananas", "banana"); ("oranges", "orange");
    ("carrots", "carrots"); ("potatoes", "potato"); ("tomatoes", "tomato");
    ("onions", "onion"); ("eggs", "egg"); ("breads", "bread");
    ("milks", "milk"); ("cheeses", "cheese"); ("yogurts", "yogurt");
    ("cereals", "cereal") ].

Fixpoint assoc (k : string) (l : list (string * string)) : option string :=
  match l with
  | [] => None
  | (k', v) :: r => if String.eqb k k' then Some v else assoc k r
  end.

(** The names every object literal inherits that are written in lower case:
    under such a key the table yields a function or the prototype object. *)
Definition inheritedNames : list string := ["constructor"; "__proto__"].

(** [normalizeProductName]: the singular of a known plural, else the name
    in lower case and trimmed.  [None] stands for the value that is not a
    string which the table lookup yields under an inherited name. *)
Definition normalizeProductName (productName : string) : option string :=
  let normalized := trim (toLowerCase productName) in
  if str_in normalized inheritedNames then None
  else
    match assoc normalized pluralToSingular with
    | Some singular => Some singular
    | None => Some normalized
    end.

(* ===================================================================== *)
(** * The planner cache ([planner.ts]) *)
(* ===================================================================== *)

Record CacheEntry : Type := {
  value : Fragment;
  expiresAt : Z
}.

(** The module-level cache of the planner with the four counters of
    [plannerMetrics] that the cache functions update. *)
Record PlannerStore : Type := {
  plannerCache : gmap string CacheEntry;
  hits : nat;
  misses : nat;
  sets : nat;
  invalidations : nat
}.

(** [getPlannerCache]: what it returns ([None] for [null]) and the store it
    leaves; [now] is the reading of the clock. *)
Definition getPlannerCache (now : Z) (key : string) (store : PlannerStore)
  : option Fragment * PlannerStore :=
  match plannerCache store !! key with
  | None => (None, store)
  | Some e =>
      if (expiresAt e <? now)%Z then
        (None,
         {| plannerCache := delete key (plannerCache store);
            hits := hits store; misses := S (misses store);
            sets := sets store; invalidations := invalidations store |})
      else
        (Some (value e),
         {| plannerCache := plannerCache store;
            hits := S (hits store); misses := misses store;
            sets := sets store; invalidations := invalidations store |})
  end.

Definition setPlannerCache (now : Z) (key : string) (payload : Fragment)
    (ttlMs : Z) (store : PlannerStore) : PlannerStore :=
  {| plannerCache :=
       <[key := {| value := payload; expiresAt := (now + ttlMs)%Z |}]>
         (plannerCache store);
     hits := hits store; misses := misses store;
     sets := S (sets store); invalidations := invalidations store |}.

Definition invalidatePlannerCacheByPrefix (prefix : string) (store : PlannerStore)
  : PlannerStore :=
  let kept :=
    filter (fun entry => String.prefix prefix entry.1 = false) (plannerCache store) in
  {| plannerCache := kept;
     hits := hits store; misses := misses store; sets := sets store;
     invalidations :=
       invalidations store + (size (plannerCache store) - size kept) |}.

(** The head of the planner's cache key, [`${userId}:${convId}:`], before
    the context and the recent messages, here [fingerprint]. *)
Definition plannerKey (st : State) (fingerprint : string) : string :=
  let userId :=
    match userId st with
    | Val s => if String.eqb s "" then "anon" else s
    | _ => "anon"
    end in
  let convId :=
    match conversationId st with
    | Val s => if String.eqb s "" then "global" else s
    | _ => "global"
    end in
  userId +:+ ":" +:+ convId +:+ ":" +:+ fingerprint.

(** The prefix the supervisor and the specialist nodes invalidate after
    they changed the state: [`${conversationId || 'global'}:${userId}`]. *)
Definition invalidationPrefix (st : State) : string :=
  let convId :=
    match conversationId st with
    | Val s => if String.eqb s "" then "global" else s
    | _ => "global"
    end in
  let userId :=
    match userId st with
    | Val s => s
    | Null => "null"
    | Undefined => "undefined"
    end in
  convId +:+ ":" +:+ userId.

(** [planner] with its cache: the lookup before the work, and the entry
    written, for 30 seconds, when the model has answered and its plan has
    been normalised (the fallbacks return before that). *)
Definition plannerWithCache (h : Host) (now : Z) (fingerprint : string)
    (store : PlannerStore) (msgs : PlannerMessages) (st : State)
    (oracle : OracleOutcome) : Outcome Fragment * PlannerStore :=
  let key := plannerKey st fingerprint in
  let '(cached, looked) := getPlannerCache now key store in
  let result := planner h now cached msgs st oracle in
  match cached, result, oracle,
        List.filter has_content (slice_last 6 (fst (plannerMessages now msgs))) with
  | None, Returns resultPayload, Replied _, _ :: _ =>
      (result, setPlannerCache now key resultPayload 30000 looked)
  | _, _, _, _ => (result, looked)
  end.

(* ===================================================================== *)
(** * Notions used in the statements *)
(* ===================================================================== *)

(** The value a call returned, [d] when it threw. *)
Definition returned {A} (d : A) (o : Outcome A) : A :=
  match o with
  | Returns a => a
  | Throws => d
  end.


Definition withRecommendation (recommendation : JValue) (st : State) : State :=
  {| messages := messages st; next := next st; userId := userId st;
     conversationId := conversationId st; cartData := cartData st;
     workflowContext := workflowContext st; dealData := dealData st;
     delegationDepth := delegationDepth st; pendingProduct := pendingProduct st;
     notificationData := notificationData st;
     plannerRecommendation := recommendation |}.


(** The shapes of a plan that [validateAndNormalizePlan] returns for
    [input], one for each of its [return]s. *)
Inductive NormalPlan (h : Host) (input : JValue) : JValue -> Prop :=
| plan_bad_format (task : string) :
    NormalPlan h input
      (obj [ ("action", JStr "delegate"); ("task", JStr task);
             ("confidence", JNum 0.5%float);
             ("reasoning", JStr "Invalid planner output format") ])
| plan_bad_action : NormalPlan h input (invalidActionPlan h input)
| plan_no_content :
    NormalPlan h input
      (planObject "delegate" (normalizedTask h input)
         (math_min (normalizedConfidence input) 0.6)
         "Converted to delegate because direct_response lacked content"
         (normalizedAutoApplyIntent input))
| plan_low_confidence :
    PrimFloat.ltb (normalizedConfidence input) 0.7 = true ->
    NormalPlan h input
      (planObject "delegate" (normalizedTask h input) (normalizedConfidence input)
         ("Low confidence classification - delegating for safety. Original: "
          +:+ normalizedReasoning h input)
         (normalizedAutoApplyIntent input))
| plan_delegate :
    NormalPlan h input
      (planObject "delegate" (normalizedTask h input) (normalizedConfidence input)
         (normalizedReasoning h input) (normalizedAutoApplyIntent input))
| plan_direct :
    negb (truthy (normalizedTask h input))
      && String.eqb (normalizedReasoning h input) "" = false ->
    PrimFloat.ltb (normalizedConfidence input) 0.7 = false ->
    NormalPlan h input
      (planObject "direct_response" (normalizedTask h input)
         (normalizedConfidence input) (normalizedReasoning h input)
         (normalizedAutoApplyIntent input)).

(** A number between 0 and 1. *)
Definition unitInterval (c : float) : Prop :=
  PrimFloat.leb 0 c = true /\ PrimFloat.leb c 1 = true.

(** The [history] of deal data as its reducer reads it,
    [[...(deal.history || [])]]. *)
Definition historyOf (deal : JValue) : Outcome (list JValue) :=
  iterate (js_or (prop deal "history") (JArr [])).

(** A text of white space only, the empty text included. *)
Definition blank (text : string) : Prop :=
  Forall (fun c => is_ws c = true) (list_ascii_of_string text).

(** Characters none of which is white space. *)
Definition solid (p : list ascii) : Prop := Forall (fun c => is_ws c = false) p.

(** The text [s] has no character [c]. *)
Definition lacks (c : ascii) (s : string) : Prop :=
  Forall (fun d => d <> c) (list_ascii_of_string s).

(** [messageContent.toLowerCase().includes(k)] *)
Definition mentions (messageContent k : string) : bool :=
  includes (toLowerCase messageContent) k.

(** A planner call that reaches the point where it writes its result to the
    cache: it had a message to show the model, and the model answered. *)
Definition cachesResult (now : Z) (msgs : PlannerMessages) (oracle : OracleOutcome)
  : Prop :=
  oracleCalled now msgs /\ exists response, oracle = Replied response.

(* ===================================================================== *)
(** * Example inputs *)
(* ===================================================================== *)

Definition bananas : ProductInfo :=
  {| product := "bananas"; quantity := Some 2%float |}.

Definition userSays (text : string) : AnnotatedMessage :=
  annotateMessage 0 {| kind := HumanMessage; content := JStr text |} user None.

(** A conversation in which the deals agent has offered a deal on two
    bananas and the user has just answered [text]. *)
Definition awaitingState (text : string) : State :=
  {| messages := [userSays "add 2 bananas to my cart"; userSays text];
     next := Val END;
     userId := Val "user-1";
     conversationId := Val "conv-1";
     cartData := JUndefined;
     workflowContext := Val "awaiting_deal_confirmation";
     dealData := obj [("pending", JBool true); ("type", JStr "product_deal")];
     delegationDepth := Undefined;
     pendingProduct := Val bananas;
     notificationData := JUndefined;
     plannerRecommendation := JUndefined |}.

Definition apples : ProductInfo :=
  {| product := "apples"; quantity := None |}.

Definition delegatePlan : JValue :=
  obj [ ("action", JStr "delegate"); ("confidence", JNum 0.9%float);
        ("reasoning", JStr "deal lookup"); ("autoApplyIntent", JBool false) ].

(** A turn with apples as the pending product, in workflow context [ctx],
    whose last message is the user's [text]. *)
Definition applesState (ctx : Opt string) (deal : JValue) (text : string) : State :=
  {| messages := [userSays text];
     next := Val "deals";
     userId := Val "user-1";
     conversationId := Val "conv-1";
     cartData := JUndefined;
     workflowContext := ctx;
     dealData := deal;
     delegationDepth := Undefined;
     pendingProduct := Val apples;
     notificationData := JUndefined;
     plannerRecommendation := delegatePlan |}.

(** An agent result whose last message and [content] are both [text]. *)
Definition agentSays (text : string) : AgentResult :=
  {| resultMessages := Some [aiMessage (JStr text)];
     resultContent := JStr text |}.

Definition noExtraction : Extractor := fun _ => Returns None.

(** A checkout turn: a cart, apples still pending, and the user asking to
    check out. *)
Definition checkoutState (pending : Opt ProductInfo) : State :=
  {| messages := [userSays "checkout please"];
     next := Val "cart_and_checkout";
     userId := Val "user-1";
     conversationId := Val "conv-1";
     cartData := obj [("total", JNum 5%float)];
     workflowContext := Val "process_checkout";
     dealData := JUndefined;
     delegationDepth := Undefined;
     pendingProduct := pending;
     notificationData := JUndefined;
     plannerRecommendation := delegatePlan |}.

(** A reply of the cart agent in the structured form the node asks for: the
    text [{'checkoutStatus':'success','orderId':...,'summary':...}], with
    double quotes. *)
Definition successText (orderId summary : string) : string :=
  "{" +:+ quoted "checkoutStatus" +:+ ":" +:+ quoted "success"
  +:+ "," +:+ quoted "orderId" +:+ ":" +:+ quoted orderId
  +:+ "," +:+ quoted "summary" +:+ ":" +:+ quoted summary +:+ "}".

Definition successReply (orderId summary : string) : AgentResult :=
  agentSays (successText orderId summary).

(** The deal data of a complex workflow that includes the checkout. *)
Definition checkoutDeal : JValue :=
  obj [ ("applied", JBool true); ("type", JStr "product_deal");
        ("includesCheckout", JBool true);
        ("workflowType", JStr "deals_to_cart_to_checkout") ].

(** The planner result of the specification's example. *)
Definition hesitantPlan : JValue :=
  obj [ ("action", JStr "direct_response"); ("confidence", JNum 0.5%float);
        ("task", JStr "hi") ].

(** A first turn: one raw user message, no cached plan. *)
Definition firstTurn : PlannerMessages :=
  RawMessages [ {| rawMessage := {| kind := PlainMessage; content := JStr "Find apples" |};
                   rawType := Some "human" |} ].

Definition emptyState : State :=
  {| messages := []; next := Undefined; userId := Undefined;
     conversationId := Undefined; cartData := JUndefined;
     workflowContext := Undefined; dealData := JUndefined;
     delegationDepth := Undefined; pendingProduct := Undefined;
     notificationData := JUndefined; plannerRecommendation := JUndefined |}.

(** A reply of the language model with the given text as its [content]. *)
Definition modelSays (text : string) : OracleOutcome :=
  Replied (obj [("content", JStr text)]).

(** Oracles that all fail: no branch that returns without consulting one
    depends on them. *)
Definition noOracles : SupervisorOracles :=
  {| continuationIntent := Throws; routingReply := Throws; extraction := Throws |}.

(** Deal data with a history: an offer made, a deal applied, and one whose
    [history] is a count. *)
Definition offeredDeal : gmap string JValue :=
  list_to_map [ ("pending", JBool true); ("history", JArr [JStr "offer"]) ].

Definition appliedDeal : gmap string JValue :=
  list_to_map [ ("applied", JBool true); ("history", JArr [JStr "applied"]) ].

Definition countedDeal : gmap string JValue :=
  list_to_map [ ("history", JNum 2%float) ].

(** A plan to greet the user, as the model gives it and as the
    normalisation returns it. *)
Definition greetingPlan : JValue :=
  obj [ ("action", JStr "direct_response"); ("confidence", JNum 0.9%float);
        ("task", JStr "Hello!") ].

Definition normalGreeting : JValue :=
  planObject "direct_response" (JStr "Hello!") 0.9 "" false.

(** A plan with a confidence above 1. *)
Definition overconfidentPlan : JValue :=
  obj [ ("action", JStr "delegate"); ("confidence", JNum 1.7%float);
        ("reasoning", JStr "sure") ].

(** A reply of the model that names a target agent. *)
Definition targetedReply : OracleOutcome :=
  modelSays ("{" +:+ quoted "action" +:+ ":" +:+ quoted "delegate"
             +:+ "," +:+ quoted "targetAgent" +:+ ":" +:+ quoted "deals"
             +:+ "," +:+ quoted "confidence" +:+ ":0.9}").

(** A reply of the model whose confidence is a word. *)
Definition vagueReply : JValue :=
  obj [ ("content",
         JStr ("{" +:+ quoted "action" +:+ ":" +:+ quoted "direct_response"
               +:+ "," +:+ quoted "task" +:+ ":" +:+ quoted "Hello!"
               +:+ "," +:+ quoted "confidence" +:+ ":" +:+ quoted "high" +:+ "}")) ].


(** A state whose recommendation names an agent the graph does not have. *)
Definition shippingState : State :=
  withRecommendation
    (obj [ ("action", JStr "delegate"); ("targetAgent", JStr "shipping");
           ("confidence", JNum 0.9%float) ])
    emptyState.

(** The state after a checkout: an order to notify the user of. *)
Definition notifyState : State :=
  {| messages := [userSays "checkout please"];
     next := Val "supervisor";
     userId := Val "user-1";
     conversationId := Val "conv-1";
     cartData := JNull;
     workflowContext := Val "send_notification";
     dealData := JUndefined;
     delegationDepth := Undefined;
     pendingProduct := Null;
     notificationData := obj [("orderId", JStr "ORD-1")];
     plannerRecommendation := delegatePlan |}.


(** The state of a first turn after the planner's fragment has been
    merged. *)
Definition plannedState : State :=
  returned emptyState
    (merge 1 (applesState Undefined JUndefined "find apples")
       (returned (catalogNode 0 emptyState (agentSays "none"))
          (planner refHost 0 None
             (AnnotatedMessages
                (messages (applesState Undefined JUndefined "find apples")))
             (applesState Undefined JUndefined "find apples") targetedReply))).

(** The state at the start of a second turn: the messages of the first
    turn, a progress message of the supervisor among them, and the new
    message of the user; and that state after the planner's fragment has been
    merged. *)
Definition secondTurn : State :=
  {| messages :=
       [ userSays "find apples";
         createProgressMessage 0 "Searching our catalog..." "supervisor";
         userSays "and pears" ];
     next := Val END;
     userId := Val "user-1";
     conversationId := Val "conv-1";
     cartData := JUndefined;
     workflowContext := Undefined;
     dealData := JUndefined;
     delegationDepth := Undefined;
     pendingProduct := Undefined;
     notificationData := JUndefined;
     plannerRecommendation := JUndefined |}.

Definition replannedState : State :=
  returned emptyState
    (merge 6 secondTurn
       (returned (catalogNode 0 emptyState (agentSays "none"))
          (planner refHost 5 None (AnnotatedMessages (messages secondTurn))
             secondTurn targetedReply))).

(** The planner cache when the module is loaded. *)
Definition emptyStore : PlannerStore :=
  {| plannerCache := ∅; hits := 0; misses := 0; sets := 0; invalidations := 0 |}.

(** The tail of the planner's cache key for [secondTurn]: no context, no
    pending product, no deal, and the contents of its messages. *)
Definition pearsFingerprint : string :=
  "none:none:none:find apples|Searching our catalog...|and pears".

(** What the planner computes on the first turn for [targetedReply]. *)
Definition cachedPlan : Fragment :=
  returned (catalogNode 0 emptyState (agentSays "none"))
    (planner refHost 0 None firstTurn emptyState targetedReply).

(* ===================================================================== *)
(** * Properties *)
(* ===================================================================== *)


(** ** The messages reducer *)

Section FilterFacts.
Context {A : Type} (f : A -> bool).

Lemma filter_all (l : list A) :
  Forall (fun a => f a = true) l -> List.filter f l = l.
Proof.
  induction 1 as [|a l Ha _ IH]; simpl; [reflexivity|].
  rewrite Ha, IH. reflexivity.
Qed.

Lemma filter_none (l : list A) :
  Forall (fun a => f a = false) l -> List.filter f l = [].
Proof.
  induction 1 as [|a l Ha _ IH]; simpl; [reflexivity|].
  rewrite Ha. exact IH.
Qed.

Lemma filter_satisfies (l : list A) :
  Forall (fun a => f a = true) (List.filter f l).
Proof.
  induction l as [|a l IH]; simpl; [constructor|].
  destruct (f a) eqn:Ha; [constructor; assumption | assumption].
Qed.

Lemma filter_sublist (l : list A) : List.filter f l `sublist_of` l.
Proof.
  induction l as [|a l IH]; simpl; [constructor|].
  destruct (f a); [apply sublist_skip | apply sublist_cons]; exact IH.
Qed.
End FilterFacts.

Lemma slice_last_length {A} (n : nat) (l : list A) : length (slice_last n l) <= n.
Proof. unfold slice_last. rewrite length_drop. lia. Qed.

Lemma slice_last_sublist {A} (n : nat) (l : list A) : slice_last n l `sublist_of` l.
Proof. apply sublist_drop. Qed.

Lemma slice_last_Forall {A} (P : A -> Prop) (n : nat) (l : list A) :
  Forall P l -> Forall P (slice_last n l).
Proof. intros H. unfold slice_last. apply Forall_drop. exact H. Qed.

(** A message is permanent exactly when it is not ephemeral. *)
Lemma isPermanent_negb (m : AnnotatedMessage) : isPermanent m = negb (isEphemeral m).
Proof.
  unfold isPermanent, isEphemeral.
  destruct (progress m) as [p|]; [|reflexivity].
  destruct (isProgressUpdate p), (ephemeral p) as [[|]|]; reflexivity.
Qed.

Lemma permanent_not_ephemeral (l : list AnnotatedMessage) :
  Forall (fun m => isPermanent m = true) l ->
  Forall (fun m => isEphemeral m = false) l.
Proof.
  intros HP. eapply Forall_impl; [exact HP|].
  intros m H. cbv beta in H |- *. rewrite isPermanent_negb in H.
  destruct (isEphemeral m); [discriminate | reflexivity].
Qed.

Lemma ephemeral_not_permanent (l : list AnnotatedMessage) :
  Forall (fun m => isEphemeral m = true) l ->
  Forall (fun m => isPermanent m = false) l.
Proof.
  intros HE. eapply Forall_impl; [exact HE|].
  intros m H. cbv beta in H |- *. rewrite isPermanent_negb, H. reflexivity.
Qed.

(** The two groups of the reducer's output. *)
Lemma messages_reducer_groups (x y : list AnnotatedMessage) :
  List.filter isPermanent (messages_reducer x y)
    = slice_last 10 (List.filter isPermanent (x ++ y))
  /\ List.filter isEphemeral (messages_reducer x y)
    = slice_last 5 (List.filter isEphemeral (x ++ y)).
Proof.
  unfold messages_reducer. cbv zeta.
  pose proof (slice_last_Forall _ 10 _ (filter_satisfies isPermanent (x ++ y))) as HP.
  pose proof (slice_last_Forall _ 5 _ (filter_satisfies isEphemeral (x ++ y))) as HE.
  split; rewrite (List.filter_app _ (slice_last 10 _) (slice_last 5 _)).
  - rewrite (filter_all _ _ HP), (filter_none _ _ (ephemeral_not_permanent _ HE)).
    apply app_nil_r.
  - rewrite (filter_none _ _ (permanent_not_ephemeral _ HP)), (filter_all _ _ HE).
    reflexivity.
Qed.

(** C6.  Whatever the old and the new messages are, the list the messages
    reducer returns holds at most 10 permanent and at most 5 ephemeral
    messages; it is its permanent messages followed by its ephemeral ones;
    and each of the two groups is a subsequence of old ++ new, so keeps the
    order the messages had there. *)
Theorem messages_reducer_cap (x y : list AnnotatedMessage) :
  let out := messages_reducer x y in
  let permanent := List.filter isPermanent out in
  let ephemeral := List.filter isEphemeral out in
  length permanent <= 10
  /\ length ephemeral <= 5
  /\ out = permanent ++ ephemeral
  /\ permanent `sublist_of` (x ++ y)
  /\ ephemeral `sublist_of` (x ++ y).
Proof.
  cbv zeta.
  destruct (messages_reducer_groups x y) as [-> ->].
  repeat split.
  - apply slice_last_length.
  - apply slice_last_length.
  - etransitivity; [apply slice_last_sublist | apply filter_sublist].
  - etransitivity; [apply slice_last_sublist | apply filter_sublist].
Qed.

(** The caps are reached: the reducer keeps the last ten of eleven permanent
    messages. *)
Lemma messages_reducer_keeps_last (m : AnnotatedMessage) (l : list AnnotatedMessage) :
  Forall (fun a => isPermanent a = true) (m :: l) -> length l = 10 ->
  messages_reducer [m] l = l.
Proof.
  intros H Hlen. unfold messages_reducer. cbv zeta. change ([m] ++ l) with (m :: l).
  rewrite (filter_all _ _ H).
  rewrite (filter_none _ _ (permanent_not_ephemeral _ H)).
  unfold slice_last. simpl length. rewrite Hlen. simpl. apply app_nil_r.
Qed.

(** ** The supervisor's check of a pending deal confirmation *)

(** [hasAffirmative] is the matching the source spells out: some pattern and
    some token of the message, one a substring of the other. *)
Lemma hasAffirmative_spec (text : string) :
  hasAffirmative text = true <->
  exists pattern word,
    In pattern affirmativePatterns
    /\ In word (split_ws (trim (toLowerCase text)))
    /\ (includes word pattern = true \/ includes pattern word = true).
Proof.
  unfold hasAffirmative. cbv zeta. rewrite existsb_exists. split.
  - intros (pattern & Hp & Hw). apply existsb_exists in Hw.
    destruct Hw as (word & Hw & Hm). apply orb_true_iff in Hm.
    exists pattern, word. auto.
  - intros (pattern & word & Hp & Hw & Hm). exists pattern. split; [exact Hp|].
    apply existsb_exists. exists word. split; [exact Hw|].
    apply orb_true_iff. exact Hm.
Qed.

Lemma mapM_id_Some {A} (l : list A) : mapM id (Some <$> l) = Some l.
Proof. apply mapM_fmap_Some. reflexivity. Qed.

Section SupervisorChecks.
Variables (h : Host) (now : Z) (minConfidence : float)
          (oracles : SupervisorOracles) (st : State).
Hypothesis Hctx : workflowContext st = Val "awaiting_deal_confirmation".
Hypothesis Hpending : present (pendingProduct st) = true.

Lemma supervisor_affirmative :
  hasAffirmative (lastContent h (messages st)) = true ->
  exists f,
    supervisor h now minConfidence oracles st = Returns f
    /\ next f = Val "cart_and_checkout"
    /\ workflowContext f = Val "add_to_cart_with_deals"
    /\ dealData f = dealData st
    /\ pendingProduct f = pendingProduct st
    /\ cartData f = cartData st.
Proof.
  intros Hyes. unfold supervisor.
  destruct (initialMessages now st) as [initial offset].
  rewrite Hctx, Hpending, Hyes.
  change (is_ctx "send_notification" (Val "awaiting_deal_confirmation")) with false.
  change (is_ctx "awaiting_deal_confirmation" (Val "awaiting_deal_confirmation"))
    with true.
  cbv iota beta. simpl andb. cbv iota.
  eexists. split; [reflexivity|]. repeat split.
Qed.

(** The decline branch: the turn ends, and the fragment sets the three
    workflow fields to [undefined], which their reducers take for "no new
    value": the merged state still holds the old ones. *)
Lemma supervisor_decline :
  hasAffirmative (lastContent h (messages st)) = false ->
  exists f,
    supervisor h now minConfidence oracles st = Returns f
    /\ next f = Val END
    /\ workflowContext f = Undefined
    /\ dealData f = JUndefined
    /\ pendingProduct f = Undefined
    /\ forall now', exists st',
         merge now' st f = Returns st'
         /\ next st' = Val END
         /\ workflowContext st' = workflowContext st
         /\ dealData st' = dealData st
         /\ pendingProduct st' = pendingProduct st.
Proof.
  intros Hno. unfold supervisor.
  destruct (initialMessages now st) as [initial offset].
  rewrite Hctx, Hpending, Hno.
  change (is_ctx "send_notification" (Val "awaiting_deal_confirmation")) with false.
  change (is_ctx "awaiting_deal_confirmation" (Val "awaiting_deal_confirmation"))
    with true.
  cbv iota beta. simpl andb. cbv iota.
  eexists. split; [reflexivity|]. repeat split.
  intros now'. unfold merge, routeTo. cbn [messages dealData].
  match goal with
  | |- context [(Some <$> initial) ++ [Some ?m]] =>
      change [Some m] with (Some <$> [m]);
      rewrite <- (fmap_app Some initial [m])
  end.
  rewrite mapM_id_Some.
  cbn [dealData_reducer truthy negb].
  eexists. split; [reflexivity|].
  cbn [next workflowContext dealData pendingProduct].
  repeat split.
  rewrite Hctx. reflexivity.
Qed.
End SupervisorChecks.

(** C4.  With a deal confirmation pending and a pending product, a last
    message one of whose white-space separated tokens contains an affirmative
    pattern, or is contained in one, sends the turn to [cart_and_checkout]
    under [add_to_cart_with_deals], with the deal data and the pending
    product as they were. *)
Theorem supervisor_confirms_deal (h : Host) (now : Z) (minConfidence : float)
    (oracles : SupervisorOracles) (st : State) (pattern word : string) :
  workflowContext st = Val "awaiting_deal_confirmation" ->
  present (pendingProduct st) = true ->
  In pattern affirmativePatterns ->
  In word (split_ws (trim (toLowerCase (lastContent h (messages st))))) ->
  includes word pattern = true \/ includes pattern word = true ->
  exists f,
    supervisor h now minConfidence oracles st = Returns f
    /\ next f = Val "cart_and_checkout"
    /\ workflowContext f = Val "add_to_cart_with_deals"
    /\ dealData f = dealData st
    /\ pendingProduct f = pendingProduct st.
Proof.
  intros Hctx Hpending Hp Hw Hm.
  destruct (supervisor_affirmative h now minConfidence oracles st Hctx Hpending)
    as (f & Hf & H1 & H2 & H3 & H4 & _).
  - apply hasAffirmative_spec. exists pattern, word. auto.
  - exists f. auto.
Qed.

(** The example of the specification: the answer "yes please". *)
Lemma supervisor_confirms_deal_witness :
  exists f,
    supervisor refHost 0 0.7 noOracles (awaitingState "yes please") = Returns f
    /\ next f = Val "cart_and_checkout"
    /\ workflowContext f = Val "add_to_cart_with_deals"
    /\ dealData f = dealData (awaitingState "yes please")
    /\ pendingProduct f = Val bananas.
Proof.
  apply (supervisor_confirms_deal refHost 0 0.7 noOracles
           (awaitingState "yes please") "yes" "yes").
  - reflexivity.
  - reflexivity.
  - simpl. auto.
  - vm_compute. auto.
  - left. reflexivity.
Defined.

(** C3.  The answer "no thanks" to a pending deal confirmation ends the
    turn, but the state that results from merging the supervisor's fragment
    still has the workflow context, the deal data and the pending product:
    the fragment carries [undefined] for the three, and the reducers clear on
    [null] only. *)
Theorem supervisor_decline_not_cleared :
  exists f st',
    supervisor refHost 0 0.7 noOracles (awaitingState "no thanks") = Returns f
    /\ next f = Val END
    /\ merge 0 (awaitingState "no thanks") f = Returns st'
    /\ workflowContext st' = Val "awaiting_deal_confirmation"
    /\ dealData st' = obj [("pending", JBool true); ("type", JStr "product_deal")]
    /\ pendingProduct st' = Val bananas.
Proof.
  destruct (supervisor_decline refHost 0 0.7 noOracles (awaitingState "no thanks"))
    as (f & Hf & Hnext & _ & _ & _ & Hmerge); try reflexivity.
  destruct (Hmerge 0%Z) as (st' & Hst' & _ & Hw & Hd & Hp).
  exists f, st'. repeat split; assumption.
Qed.

(** What an explicit [null] does in the three reducers: it clears the deal
    data and the pending product, as the cart and deals nodes rely on. *)
Lemma reducers_clear_on_null (deal : JValue) (pending : Opt ProductInfo) :
  dealData_reducer deal JNull = Returns JNull
  /\ pendingProduct_reducer pending Null = Null.
Proof. split; reflexivity. Qed.

(** Not even [null] would clear the workflow context: its reducer keeps the
    old value on every nullish update. *)
Lemma workflowContext_reducer_never_clears (x : Opt string) :
  workflowContext_reducer x Null = x /\ workflowContext_reducer x Undefined = x.
Proof. split; reflexivity. Qed.

(** ** Where the specialist nodes send the turn *)

Lemma catalogNode_next (now : Z) (st : State) (result : AgentResult) :
  next (catalogNode now st result) = Val END.
Proof. reflexivity. Qed.

Lemma paymentNode_next (now : Z) (st : State) (result : AgentResult) :
  next (paymentNode now st result) = Val END.
Proof. reflexivity. Qed.

Lemma notificationAgent_next (now : Z) (st : State) (send : Outcome PushResult) :
  next (notificationAgent now st send) = Val END.
Proof.
  unfold notificationAgent.
  destruct (negb (truthy (notificationData st))); [reflexivity|].
  destruct send as [r|]; [|reflexivity].
  destruct (truthy (ok r) && is_one (status r)); reflexivity.
Qed.

(** Case analysis on every test of a branching term. *)
Ltac case_tests :=
  repeat match goal with
         | |- context [if ?b then _ else _] => destruct b
         end.

(** The cart node keeps to the hub-and-spoke pattern on every branch. *)
Lemma cartAndCheckoutNode_next (h : Host) (now : Z) (st : State) (result : AgentResult) :
  next (cartAndCheckoutNode h now st result) = Val "supervisor"
  \/ next (cartAndCheckoutNode h now st result) = Val END.
Proof.
  unfold cartAndCheckoutNode. cbv zeta.
  destruct (productNotRecognized (cartContentStr result)), (pendingProduct st);
    cbv iota beta; try (right; reflexivity); case_tests; auto.
Qed.

(** The deals node has a branch that names [cart_and_checkout], and one
    that returns nothing. *)
Lemma dealsNode_next (h : Host) (now : Z) (extract : Extractor) (st : State)
    (result : AgentResult) (f : Fragment) :
  dealsNode h now extract st result = Returns (Some f) ->
  next f = Val "supervisor" \/ next f = Val END \/ next f = Val "cart_and_checkout".
Proof.
  unfold dealsNode.
  destruct (effectivePending h extract st) as [pending|].
  - cbv zeta.
    destruct (js_or (resultContent result) (JStr "No deals found")); try discriminate.
    case_tests; intros [= <-]; auto.
  - intros [= <-]. auto.
Qed.

(** The other four specialists return to the supervisor or end the turn,
    on every branch. *)
Lemma specialists_keep_to_hub (h : Host) (now : Z) (st : State) :
  (forall result, hubOrEnd (next (catalogNode now st result)) = true)
  /\ (forall result, hubOrEnd (next (cartAndCheckoutNode h now st result)) = true)
  /\ (forall result, hubOrEnd (next (paymentNode now st result)) = true)
  /\ (forall send, hubOrEnd (next (notificationAgent now st send)) = true).
Proof.
  split; [|split; [|split]]; intros x.
  - rewrite catalogNode_next. reflexivity.
  - destruct (cartAndCheckoutNode_next h now st x) as [-> | ->]; reflexivity.
  - rewrite paymentNode_next. reflexivity.
  - rewrite notificationAgent_next. reflexivity.
Qed.

(** C1.  The deals node breaks the hub-and-spoke pattern: for a pending
    product, a message that mentions a deal and the cart, and a reply
    without confirmation wording, it returns [next = 'cart_and_checkout'],
    which is neither the supervisor nor the end, and which the conditional
    edge leaving [deals] cannot follow. *)
Theorem dealsNode_routes_to_cart :
  exists f,
    dealsNode refHost 0 noExtraction
      (applesState Undefined JUndefined "any deal on apples for my cart?")
      (agentSays "Apples are 20% off this week.") = Returns (Some f)
    /\ next f = Val "cart_and_checkout"
    /\ hubOrEnd (next f) = false
    /\ str_in "cart_and_checkout" (pathMap "deals") = false.
Proof. eexists. split; [vm_compute; reflexivity|]. repeat split. Qed.

(** ** What the specialist nodes carry over *)

Lemma catalogNode_carries (now : Z) (st : State) (result : AgentResult) :
  carriesIdentity st (catalogNode now st result).
Proof. repeat split. Qed.

Lemma cartAndCheckoutNode_carries (h : Host) (now : Z) (st : State)
    (result : AgentResult) :
  carriesIdentity st (cartAndCheckoutNode h now st result).
Proof.
  unfold cartAndCheckoutNode. cbv zeta.
  destruct (productNotRecognized (cartContentStr result)), (pendingProduct st);
    cbv iota beta; try (repeat split; fail); case_tests; repeat split.
Qed.

Lemma dealsNode_carries (h : Host) (now : Z) (extract : Extractor) (st : State)
    (result : AgentResult) (f : Fragment) :
  dealsNode h now extract st result = Returns (Some f) ->
  carriesIdentity st f.
Proof.
  unfold dealsNode.
  destruct (effectivePending h extract st) as [pending|].
  - cbv zeta.
    destruct (js_or (resultContent result) (JStr "No deals found")); try discriminate.
    case_tests; intros [= <-]; repeat split.
  - intros [= <-]. repeat split.
Qed.

(** The payment node hands on the two identifiers only. *)
Lemma paymentNode_fragment (now : Z) (st : State) (result : AgentResult) :
  userId (paymentNode now st result) = userId st
  /\ conversationId (paymentNode now st result) = conversationId st
  /\ plannerRecommendation (paymentNode now st result) = JUndefined.
Proof. repeat split. Qed.

(** C9.  The payment node drops the planner recommendation: for a state
    that holds one, its fragment has the user and conversation identifiers
    of the state but no [plannerRecommendation]. *)
Theorem paymentNode_drops_recommendation :
  let st := applesState Undefined JUndefined "add a credit card" in
  let f := paymentNode 0 st (agentSays "Your card was added.") in
  userId f = userId st
  /\ conversationId f = conversationId st
  /\ plannerRecommendation st = delegatePlan
  /\ plannerRecommendation f = JUndefined
  /\ ~ carriesIdentity st f.
Proof.
  cbv zeta. repeat split.
  intros (_ & _ & H). vm_compute in H. discriminate H.
Qed.

(** ** The branch of the deals node that returns nothing *)

Section DealsFallThrough.
Variables (h : Host) (now : Z) (extract : Extractor) (st : State)
          (result : AgentResult) (pending : ProductInfo).
Hypothesis Hpending : effectivePending h extract st = Some pending.
Hypothesis Hsimple :
  dealsIsComplexWorkflow (dealsMessageToAgent h st pending) = false.

(** A reply without confirmation wording nor a no-deals phrase, to a
    message that is not a complex workflow. *)
Lemma dealsNode_falls_through (text : string) :
  resultContent result = JStr text -> text <> "" ->
  requiresConfirmation text = false ->
  noDealsAvailable text = false ->
  dealsNode h now extract st result = Returns None.
Proof.
  intros Hc Hne Hconfirm Hnone. unfold dealsNode. rewrite Hpending. cbv zeta.
  rewrite Hc. unfold js_or. cbn [truthy].
  destruct (String.eqb_spec text "") as [->|_]; [contradiction|].
  cbn [negb]. rewrite Hconfirm, Hsimple, Hnone. reflexivity.
Qed.

(** A result without [content]: the default text ['No deals found'] is none
    of the no-deals phrases either. *)
Lemma dealsNode_default_reply :
  truthy (resultContent result) = false ->
  dealsNode h now extract st result = Returns None.
Proof.
  intros Hc. unfold dealsNode. rewrite Hpending. cbv zeta.
  unfold js_or. rewrite Hc, Hsimple. reflexivity.
Qed.
End DealsFallThrough.

(** C10.  The deals node is not total: with a pending product, no workflow
    context, a message without complex-workflow keywords and a plain price
    listing as the reply (no confirmation phrase, no no-deals phrase), it
    reaches its end without a [return] and yields no fragment. *)
Theorem dealsNode_not_total :
  exists (st : State) (result : AgentResult) (text : string),
    present (pendingProduct st) = true
    /\ workflowContext st = Undefined
    /\ resultContent result = JStr text
    /\ requiresConfirmation text = false
    /\ noDealsAvailable text = false
    /\ (forall h : Host,
          dealsIsComplexWorkflow (lastContent h (messages st)) = false)
    /\ (forall (h : Host) (now : Z) (extract : Extractor),
          dealsNode h now extract st result = Returns None).
Proof.
  exists (applesState Undefined JUndefined "how much are the apples?"),
         (agentSays "Apples cost 1.20 per pound."),
         "Apples cost 1.20 per pound.".
  split; [reflexivity|]. split; [reflexivity|]. split; [reflexivity|].
  split; [reflexivity|]. split; [reflexivity|]. split; [reflexivity|].
  intros h now extract.
  apply (dealsNode_falls_through h now extract _ _ apples) with
    (text := "Apples cost 1.20 per pound."); try reflexivity.
  discriminate.
Qed.

(** ** The cart node's reading of a reply *)

Lemma is_str_prop (s k : string) (v : JValue) :
  is_str s (prop v k) = true -> prop v k = JStr s /\ truthy v = true.
Proof.
  destruct v; simpl; try discriminate.
  destruct (default JUndefined (fields !! k)); simpl; try discriminate.
  intros H. apply String.eqb_eq in H. subst. auto.
Qed.

Lemma truthy_prop (k : string) (v : JValue) :
  truthy (prop v k) = true -> exists m, v = JObj m.
Proof. destruct v; simpl; try discriminate. eauto. Qed.

Section CartReply.
Variables (h : Host) (now : Z) (st : State) (result : AgentResult).

(** The guard that comes first: the reply does not both read as "product
    not recognised" and meet a pending product. *)
Hypothesis Hrecognised :
  productNotRecognized (cartContentStr result) && present (pendingProduct st) = false.

Lemma cart_checkout_success_fragment :
  is_str "success"
    (prop (safeParseJson h (cartContentStr result)) "checkoutStatus") = true ->
  next (cartAndCheckoutNode h now st result) = Val "supervisor"
  /\ workflowContext (cartAndCheckoutNode h now st result) = Val "send_notification"
  /\ pendingProduct (cartAndCheckoutNode h now st result) = Null
  /\ cartData (cartAndCheckoutNode h now st result) = JNull
  /\ prop (notificationData (cartAndCheckoutNode h now st result)) "orderId"
     = js_or (prop (safeParseJson h (cartContentStr result)) "orderId") JNull.
Proof.
  intros Hs. destruct (is_str_prop _ _ _ Hs) as [Hstatus Htruthy].
  unfold cartAndCheckoutNode. cbv zeta.
  rewrite Hs, Htruthy, Hstatus. cbn [truthy String.eqb negb andb].
  change (negb (String.eqb "success" "")) with true. cbv iota.
  destruct (productNotRecognized (cartContentStr result)), (pendingProduct st);
    try discriminate Hrecognised; cbv iota beta; repeat split.
Qed.

Hypothesis Hnot_success :
  is_str "success"
    (prop (safeParseJson h (cartContentStr result)) "checkoutStatus") = false.
Hypothesis Hnot_failure :
  is_str "failure"
    (prop (safeParseJson h (cartContentStr result)) "checkoutStatus") = false.
Hypothesis Hno_text_success : checkoutSuccess (cartContentStr result) = false.

Lemma cart_auto_checkout_fragment :
  truthy (prop (dealData st) "includesCheckout") = true ->
  workflowContext st = Val "add_to_cart_with_deals" ->
  isCheckoutRequest h st = false ->
  next (cartAndCheckoutNode h now st result) = Val "supervisor"
  /\ workflowContext (cartAndCheckoutNode h now st result)
     = Val "add_to_cart_with_checkout"
  /\ pendingProduct (cartAndCheckoutNode h now st result) = Null
  /\ cartData (cartAndCheckoutNode h now st result) = cartData st
  /\ dealData (cartAndCheckoutNode h now st result)
     = JObj (<["includesCheckout" := JBool false]> (spread (dealData st))).
Proof.
  intros Hflag Hctx Hreq.
  destruct (truthy_prop _ _ Hflag) as [m Hm].
  unfold cartAndCheckoutNode. cbv zeta.
  rewrite Hnot_success, Hnot_failure, Hno_text_success, Hflag, Hctx, Hreq.
  rewrite !andb_false_r. rewrite Hm. cbn [truthy andb negb].
  change (is_ctx "add_to_cart_with_deals" (Val "add_to_cart_with_deals")) with true.
  cbv iota.
  destruct (productNotRecognized (cartContentStr result)), (pendingProduct st);
    try discriminate Hrecognised; cbv iota beta; repeat split.
Qed.

(** With none of these signals and no checkout to chain, the node ends the
    turn and hands the state on as it is. *)
Lemma cart_plain_fragment :
  truthy (prop (dealData st) "includesCheckout") = false ->
  next (cartAndCheckoutNode h now st result) = Val END
  /\ workflowContext (cartAndCheckoutNode h now st result) = workflowContext st
  /\ pendingProduct (cartAndCheckoutNode h now st result) = pendingProduct st
  /\ cartData (cartAndCheckoutNode h now st result) = cartData st
  /\ dealData (cartAndCheckoutNode h now st result) = dealData st.
Proof.
  intros Hflag.
  unfold cartAndCheckoutNode. cbv zeta.
  rewrite Hnot_success, Hnot_failure, Hno_text_success, Hflag.
  rewrite !andb_false_r. cbn [andb].
  destruct (productNotRecognized (cartContentStr result)), (pendingProduct st);
    try discriminate Hrecognised; cbv iota beta; repeat split.
Qed.
End CartReply.

(** C5.  When the deal data asks for the checkout, the context is
    [add_to_cart_with_deals], the turn is not a checkout request and the
    reply is neither a structured checkout result, nor "product not
    recognised" for a pending product, nor a checkout success in plain text,
    the cart node returns to the supervisor under
    [add_to_cart_with_checkout], with the pending product cleared and the
    deal data unchanged but for [includesCheckout], now [false]. *)
Theorem cart_auto_checkout (h : Host) (now : Z) (st : State) (result : AgentResult) :
  truthy (prop (dealData st) "includesCheckout") = true ->
  workflowContext st = Val "add_to_cart_with_deals" ->
  isCheckoutRequest h st = false ->
  productNotRecognized (cartContentStr result) && present (pendingProduct st) = false ->
  is_str "success"
    (prop (safeParseJson h (cartContentStr result)) "checkoutStatus") = false ->
  is_str "failure"
    (prop (safeParseJson h (cartContentStr result)) "checkoutStatus") = false ->
  checkoutSuccess (cartContentStr result) = false ->
  next (cartAndCheckoutNode h now st result) = Val "supervisor"
  /\ workflowContext (cartAndCheckoutNode h now st result)
     = Val "add_to_cart_with_checkout"
  /\ pendingProduct (cartAndCheckoutNode h now st result) = Null
  /\ prop (dealData (cartAndCheckoutNode h now st result)) "includesCheckout"
     = JBool false
  /\ (forall k : string, k <> "includesCheckout" ->
        prop (dealData (cartAndCheckoutNode h now st result)) k
        = prop (dealData st) k).
Proof.
  intros Hflag Hctx Hreq Hrec Hs Hf Ht.
  destruct (cart_auto_checkout_fragment h now st result Hrec Hs Hf Ht Hflag Hctx Hreq)
    as (Hnext & Hw & Hp & _ & Hd).
  destruct (truthy_prop _ _ Hflag) as [m Hm].
  rewrite Hd, Hm. cbn [spread prop].
  repeat split; try assumption.
  - rewrite lookup_insert_eq. reflexivity.
  - intros k Hk. rewrite lookup_insert_ne by congruence. reflexivity.
Qed.

(** An add-to-cart turn of a workflow that includes the checkout. *)
Lemma cart_auto_checkout_witness :
  let st := applesState (Val "add_to_cart_with_deals") checkoutDeal
              "find deals on apples, add them to my cart and place order" in
  let f := cartAndCheckoutNode refHost 0 st (agentSays "Added apples to your cart.") in
  next f = Val "supervisor"
  /\ workflowContext f = Val "add_to_cart_with_checkout"
  /\ pendingProduct f = Null
  /\ prop (dealData f) "includesCheckout" = JBool false
  /\ (forall k : string, k <> "includesCheckout" ->
        prop (dealData f) k = prop (dealData st) k).
Proof.
  cbv zeta.
  apply (cart_auto_checkout refHost 0
           (applesState (Val "add_to_cart_with_deals") checkoutDeal
              "find deals on apples, add them to my cart and place order")
           (agentSays "Added apples to your cart.")); reflexivity.
Defined.

(** C2.  As the code has it: a reply that [safeParseJson] reads as an
    object with [checkoutStatus: "success"] sends the turn back to the
    supervisor under [send_notification], with the pending product and the
    cart cleared, provided the reply does not also read as "product not
    recognised" while a product is pending; the order id of the notification
    is the reply's when that is truthy, and [null] otherwise. *)
Theorem cart_checkout_success (h : Host) (now : Z) (st : State) (result : AgentResult) :
  prop (safeParseJson h (cartContentStr result)) "checkoutStatus" = JStr "success" ->
  productNotRecognized (cartContentStr result) && present (pendingProduct st) = false ->
  next (cartAndCheckoutNode h now st result) = Val "supervisor"
  /\ workflowContext (cartAndCheckoutNode h now st result) = Val "send_notification"
  /\ pendingProduct (cartAndCheckoutNode h now st result) = Null
  /\ cartData (cartAndCheckoutNode h now st result) = JNull
  /\ prop (notificationData (cartAndCheckoutNode h now st result)) "orderId"
     = (if truthy (prop (safeParseJson h (cartContentStr result)) "orderId")
        then prop (safeParseJson h (cartContentStr result)) "orderId"
        else JNull).
Proof.
  intros Hs Hrec.
  apply (cart_checkout_success_fragment h now st result Hrec).
  rewrite Hs. reflexivity.
Qed.

(** The example of the specification: order [ORD-1]. *)
Lemma cart_checkout_success_witness :
  let f := cartAndCheckoutNode refHost 0 (checkoutState (Val apples))
             (successReply "ORD-1" "2 apples") in
  next f = Val "supervisor"
  /\ workflowContext f = Val "send_notification"
  /\ pendingProduct f = Null
  /\ cartData f = JNull
  /\ prop (notificationData f) "orderId" = JStr "ORD-1".
Proof.
  cbv zeta.
  apply (cart_checkout_success refHost 0 (checkoutState (Val apples))
           (successReply "ORD-1" "2 apples")); reflexivity.
Defined.

(** Two replies with [checkoutStatus: "success"] on which the claim fails as
    it is stated.  The first also says "item not found" while apples are
    pending: the node ends the turn, clears the workflow context, keeps the
    cart and prepares no notification.  The second has an empty order id:
    the notification carries [null]. *)
Lemma cart_checkout_success_counterexample :
  prop (safeParseJson refHost
          (cartContentStr (successReply "ORD-1" "apples: item not found in catalog")))
       "checkoutStatus" = JStr "success"
  /\ next (cartAndCheckoutNode refHost 0 (checkoutState (Val apples))
             (successReply "ORD-1" "apples: item not found in catalog")) = Val END
  /\ workflowContext (cartAndCheckoutNode refHost 0 (checkoutState (Val apples))
             (successReply "ORD-1" "apples: item not found in catalog")) = Null
  /\ cartData (cartAndCheckoutNode refHost 0 (checkoutState (Val apples))
             (successReply "ORD-1" "apples: item not found in catalog"))
     = obj [("total", JNum 5%float)]
  /\ notificationData (cartAndCheckoutNode refHost 0 (checkoutState (Val apples))
             (successReply "ORD-1" "apples: item not found in catalog")) = JUndefined
  /\ prop (safeParseJson refHost (cartContentStr (successReply "" "2 apples")))
          "orderId" = JStr ""
  /\ prop (notificationData
             (cartAndCheckoutNode refHost 0 (checkoutState Undefined)
                (successReply "" "2 apples"))) "orderId" = JNull.
Proof. vm_compute. repeat split. Qed.

(** ** Confidence values *)

(** The three constants of the planner, as the floats they denote. *)
Lemma sf_0_7 : Prim2SF 0.7 = S754_finite false 6305039478318694 (-53).
Proof. vm_compute. reflexivity. Qed.

Lemma sf_1 : Prim2SF 1 = S754_finite false 4503599627370496 (-52).
Proof. vm_compute. reflexivity. Qed.

Lemma SFcompare_refl (x : spec_float) :
  x <> S754_nan -> SFcompare x x = Some Eq.
Proof.
  destruct x as [s|s| |s m e]; intros Hx; try contradiction;
    destruct s; simpl; try reflexivity;
    rewrite Z.compare_refl, Pos.compare_refl; reflexivity.
Qed.

Section BelowThreshold.
Variable c : float.
Hypothesis Hlow : PrimFloat.ltb c 0.7 = true.

Lemma below_is_number : is_nan c = false.
Proof.
  unfold is_nan. rewrite FloatAxioms.eqb_spec. rewrite FloatAxioms.ltb_spec in Hlow.
  unfold SFeqb. unfold SFltb in Hlow.
  destruct (Prim2SF c) as [s|s| |s m e] eqn:Hc; try discriminate Hlow;
    rewrite SFcompare_refl by discriminate; reflexivity.
Qed.

Lemma below_one : PrimFloat.ltb c 1 = true.
Proof.
  rewrite FloatAxioms.ltb_spec, sf_1. rewrite FloatAxioms.ltb_spec, sf_0_7 in Hlow.
  destruct (Prim2SF c) as [s|s| |s m e]; try destruct s;
    unfold SFltb, SFcompare in *; try congruence.
  destruct (Z.compare_spec e (-53)); subst; try congruence; try reflexivity.
  destruct (Z.compare_spec e (-52)); subst; try reflexivity; lia.
Qed.

Lemma one_not_below : PrimFloat.ltb 1 c = false.
Proof.
  rewrite FloatAxioms.ltb_spec, sf_1. rewrite FloatAxioms.ltb_spec, sf_0_7 in Hlow.
  destruct (Prim2SF c) as [s|s| |s m e]; try destruct s;
    unfold SFltb, SFcompare in *; try congruence.
  destruct (Z.compare_spec e (-53)); subst; try congruence; try reflexivity.
  destruct (Z.compare_spec (-52) e); subst; try reflexivity; lia.
Qed.

Lemma min_one_below : math_min 1 c = c.
Proof.
  unfold math_min. rewrite below_is_number, one_not_below, below_one.
  reflexivity.
Qed.

(** The clamp of the planner leaves [c] or raises it to zero. *)
Lemma clamp_below : math_max 0 (math_min 1 c) = c \/ math_max 0 (math_min 1 c) = 0%float.
Proof.
  rewrite min_one_below. unfold math_max. rewrite below_is_number.
  change (is_nan 0 || false) with false. cbv iota.
  destruct (PrimFloat.ltb 0 c); [left; reflexivity|].
  destruct (PrimFloat.ltb c 0); [right; reflexivity|].
  right. reflexivity.
Qed.

Lemma clamp_below_threshold : PrimFloat.ltb (math_max 0 (math_min 1 c)) 0.7 = true.
Proof. destruct clamp_below as [-> | ->]; [exact Hlow | reflexivity]. Qed.

Lemma clamp_below_bound :
  PrimFloat.leb c 0.6 = true -> PrimFloat.leb (math_max 0 (math_min 1 c)) 0.6 = true.
Proof. intros H. destruct clamp_below as [-> | ->]; [exact H | reflexivity]. Qed.

Lemma clamp_is_number : is_nan (math_max 0 (math_min 1 c)) = false.
Proof. destruct clamp_below as [-> | ->]; [exact below_is_number | reflexivity]. Qed.
End BelowThreshold.

(** [Math.min(k, 0.6)] of a number is [k] or [0.6]. *)
Lemma min_bound_cases (k : float) :
  is_nan k = false -> math_min k 0.6 = k \/ math_min k 0.6 = 0.6%float.
Proof.
  intros Hk. unfold math_min. rewrite Hk.
  change (false || is_nan 0.6) with false. cbv iota.
  destruct (PrimFloat.ltb k 0.6); [left; reflexivity|].
  destruct (PrimFloat.ltb 0.6 k); [right; reflexivity|].
  destruct (PrimFloat.ltb (1 / k) 0); [left | right]; reflexivity.
Qed.

(** ** The planner's normalisation *)

Lemma prop_obj_here (k : string) (v : JValue) (l : list (string * JValue)) :
  prop (obj ((k, v) :: l)) k = v.
Proof. unfold prop, obj. simpl. rewrite lookup_insert_eq. reflexivity. Qed.

Lemma prop_obj_next (k k' : string) (v : JValue) (l : list (string * JValue)) :
  k <> k' -> prop (obj ((k', v) :: l)) k = prop (obj l) k.
Proof.
  intros Hk. unfold prop, obj. simpl.
  rewrite lookup_insert_ne by congruence. reflexivity.
Qed.

(** Reading a property of an object literal. *)
Ltac read_prop :=
  repeat first
    [ rewrite prop_obj_here
    | rewrite prop_obj_next by discriminate ].

(** [validateAndNormalizePlan] on a [direct_response]. *)
Lemma validate_direct_response (h : Host) (input : JValue) :
  prop input "action" = JStr "direct_response" ->
  validateAndNormalizePlan h input =
    if negb (truthy (normalizedTask h input))
       && String.eqb (normalizedReasoning h input) ""
    then
      Returns
        (false,
         planObject "delegate" (normalizedTask h input)
           (math_min (normalizedConfidence input) 0.6)
           "Converted to delegate because direct_response lacked content"
           (normalizedAutoApplyIntent input))
    else if PrimFloat.ltb (normalizedConfidence input) 0.7 then
      Returns
        (true,
         planObject "delegate" (normalizedTask h input) (normalizedConfidence input)
           ("Low confidence classification - delegating for safety. Original: "
            +:+ normalizedReasoning h input)
           (normalizedAutoApplyIntent input))
    else
      Returns
        (true,
         planObject "direct_response" (normalizedTask h input)
           (normalizedConfidence input) (normalizedReasoning h input)
           (normalizedAutoApplyIntent input)).
Proof.
  intros Haction.
  assert (Hobj : exists m, input = JObj m).
  { destruct input; try discriminate Haction. eauto. }
  destruct Hobj as [m ->].
  unfold validateAndNormalizePlan.
  cbn [truthy typeof_object negb orb].
  rewrite Haction. cbv zeta.
  change (toLowerCase "direct_response") with "direct_response".
  change (String.eqb "direct_response" ""
          || negb (str_in "direct_response" allowedActions)) with false.
  change (String.eqb "direct_response" "direct_response") with true.
  cbv iota. cbn [andb]. rewrite andb_true_r. reflexivity.
Qed.

Lemma prop_planObject (action : string) (task : JValue) (confidence : float)
    (reasoning : string) (autoApplyIntent : bool) :
  prop (planObject action task confidence reasoning autoApplyIntent) "action"
    = JStr action
  /\ prop (planObject action task confidence reasoning autoApplyIntent) "confidence"
    = JNum confidence.
Proof. unfold planObject. read_prop. split; reflexivity. Qed.

(** C7.  A planner output whose action is [direct_response] and whose
    confidence is a number below 0.7 is normalised to the action
    [delegate].  The resulting confidence is still below 0.7, and at most
    0.6 whenever the given one is (as for 0.5). *)
Theorem validate_demotes_direct_response (h : Host) (input : JValue) (c : float) :
  prop input "action" = JStr "direct_response" ->
  prop input "confidence" = JNum c ->
  PrimFloat.ltb c 0.7 = true ->
  exists (valid : bool) (plan : JValue) (c' : float),
    validateAndNormalizePlan h input = Returns (valid, plan)
    /\ prop plan "action" = JStr "delegate"
    /\ prop plan "confidence" = JNum c'
    /\ PrimFloat.ltb c' 0.7 = true
    /\ (PrimFloat.leb c 0.6 = true -> PrimFloat.leb c' 0.6 = true).
Proof.
  intros Haction Hconf Hlow.
  rewrite (validate_direct_response h input Haction).
  unfold normalizedConfidence. rewrite Hconf.
  rewrite (clamp_below_threshold c Hlow).
  set (k := math_max 0 (math_min 1 c)).
  destruct (negb (truthy (normalizedTask h input))
            && String.eqb (normalizedReasoning h input) "").
  - exists false. eexists. exists (math_min k 0.6). split; [reflexivity|].
    split; [apply prop_planObject|]. split; [apply prop_planObject|].
    destruct (min_bound_cases k (clamp_is_number c Hlow)) as [-> | ->].
    + split; [apply (clamp_below_threshold c Hlow) | apply (clamp_below_bound c Hlow)].
    + split; reflexivity.
  - exists true. eexists. exists k. split; [reflexivity|].
    split; [apply prop_planObject|]. split; [apply prop_planObject|].
    split; [apply (clamp_below_threshold c Hlow) | apply (clamp_below_bound c Hlow)].
Qed.

(** The example of the specification: [direct_response] at confidence 0.5
    with the task "hi" becomes [delegate], at confidence 0.5. *)
Lemma validate_demotes_direct_response_witness :
  (exists (valid : bool) (plan : JValue) (c' : float),
     validateAndNormalizePlan refHost hesitantPlan = Returns (valid, plan)
     /\ prop plan "action" = JStr "delegate"
     /\ prop plan "confidence" = JNum c'
     /\ PrimFloat.ltb c' 0.7 = true
     /\ (PrimFloat.leb 0.5 0.6 = true -> PrimFloat.leb c' 0.6 = true))
  /\ PrimFloat.leb 0.5 0.6 = true.
Proof.
  split; [|reflexivity].
  apply (validate_demotes_direct_response refHost hesitantPlan 0.5); reflexivity.
Defined.

Example validate_example :
  exists plan,
    validateAndNormalizePlan refHost hesitantPlan = Returns (true, plan)
    /\ prop plan "action" = JStr "delegate"
    /\ prop plan "confidence" = JNum 0.5
    /\ prop plan "task" = JStr "hi".
Proof. eexists. split; [vm_compute; reflexivity|]. repeat split. Qed.

(** ** The planner's fallbacks *)

(** The fallback plan of a failed parse goes through the defaults and the
    validation unchanged in action and confidence. *)
Lemma fallback_plan_normalised (h : Host) (text reasoning : string) :
  exists (plan final : JValue) (valid : bool),
    assignDefaults h (parseFallbackPlan text reasoning) = Returns plan
    /\ validateAndNormalizePlan h plan = Returns (valid, final)
    /\ prop final "action" = JStr "delegate"
    /\ prop final "confidence" = JNum 0.5.
Proof.
  eexists. eexists. eexists.
  split; [vm_compute; reflexivity|].
  split; [vm_compute; reflexivity|].
  split; vm_compute; reflexivity.
Qed.

(** C8.  When the language model call fails, or the text it returns cannot
    be parsed as JSON, the planner still returns a fragment, whose
    recommendation has the action [delegate] and the confidence 0.5. *)
Theorem planner_fallback (h : Host) (now : Z) (msgs : PlannerMessages)
    (st : State) (oracle : OracleOutcome) :
  oracleCalled now msgs ->
  (exists e, oracle = Failed e)
  \/ (exists r, oracle = Replied r
                /\ JSON_parse h (jsonText (plannerText h r)) = None) ->
  exists f,
    planner h now None msgs st oracle = Returns f
    /\ prop (plannerRecommendation f) "action" = JStr "delegate"
    /\ prop (plannerRecommendation f) "confidence" = JNum 0.5.
Proof.
  unfold oracleCalled, planner. intros Hcalled Horacle.
  destruct (plannerMessages now msgs) as [messages converted].
  cbn [fst] in Hcalled.
  destruct (List.filter has_content (slice_last 6 messages)) as [|m shown];
    [contradiction|].
  destruct Horacle as [[e ->] | (r & -> & Hparse)].
  - eexists. split; [reflexivity|]. cbn [plannerRecommendation].
    read_prop. split; reflexivity.
  - cbv zeta. unfold parsedPlan. rewrite Hparse.
    destruct (fallback_plan_normalised h (plannerText h r)
                "Could not parse JSON plan from planner LLM; delegating for safety.")
      as (plan & final & valid & -> & -> & Haction & Hconfidence).
    eexists. split; [reflexivity|]. cbn [plannerRecommendation]. auto.
Qed.

(** A failed call, and a reply in prose. *)
Lemma planner_fallback_witness :
  (exists f,
     planner refHost 0 None firstTurn emptyState (Failed (JStr "timeout")) = Returns f
     /\ prop (plannerRecommendation f) "action" = JStr "delegate"
     /\ prop (plannerRecommendation f) "confidence" = JNum 0.5)
  /\ (exists f,
        planner refHost 0 None firstTurn emptyState
          (modelSays "I think you should do this: action: delegate") = Returns f
        /\ prop (plannerRecommendation f) "action" = JStr "delegate"
        /\ prop (plannerRecommendation f) "confidence" = JNum 0.5).
Proof.
  split.
  - apply (planner_fallback refHost 0 firstTurn emptyState (Failed (JStr "timeout"))).
    + discriminate.
    + left. eexists. reflexivity.
  - apply (planner_fallback refHost 0 firstTurn emptyState
             (modelSays "I think you should do this: action: delegate")).
    + discriminate.
    + right. eexists. split; reflexivity.
Defined.

(** The same demotion through the whole planner: a reply that parses to an
    object with the action [direct_response] and a numeric confidence below
    0.7 yields a recommendation to delegate. *)
Lemma planner_demotes (h : Host) (now : Z) (msgs : PlannerMessages) (st : State)
    (r : JValue) (m : gmap string JValue) (c : float) :
  oracleCalled now msgs ->
  JSON_parse h (jsonText (plannerText h r)) = Some (JObj m) ->
  m !! "action" = Some (JStr "direct_response") ->
  m !! "confidence" = Some (JNum c) ->
  PrimFloat.ltb c 0.7 = true ->
  exists f,
    planner h now None msgs st (Replied r) = Returns f
    /\ prop (plannerRecommendation f) "action" = JStr "delegate".
Proof.
  unfold oracleCalled, planner. intros Hcalled Hparse Haction Hconf Hlow.
  destruct (plannerMessages now msgs) as [messages converted].
  cbn [fst] in Hcalled.
  destruct (List.filter has_content (slice_last 6 messages)) as [|m0 shown];
    [contradiction|].
  cbv zeta. unfold parsedPlan. rewrite Hparse. cbn [truthy].
  unfold assignDefaults. cbv zeta. unfold prop at 1 2 3.
  rewrite Haction, Hconf. cbn [default]. unfold js_or at 1 2.
  cbn [truthy negb String.eqb]. 
  change (negb (String.eqb "direct_response" "")) with true. cbv iota.
  set (k := math_max 0 (math_min 1 (to_number h (if truthy (JNum c) then JNum c else JNum 0.5)))).
  assert (Hk : PrimFloat.ltb k 0.7 = true).
  { subst k. cbn [truthy]. destruct (negb (PrimFloat.eqb c 0 || is_nan c));
      cbn [to_number]; [apply (clamp_below_threshold c Hlow) | reflexivity]. }
  match goal with
  | |- context [validateAndNormalizePlan h ?p] =>
      assert (Ha : prop p "action" = JStr "direct_response");
      [| assert (Hc : normalizedConfidence p = math_max 0 (math_min 1 k));
         [| rewrite (validate_direct_response h p Ha), Hc ] ]
  end.
  - unfold prop. rewrite lookup_insert_ne by discriminate.
    rewrite lookup_insert_eq. reflexivity.
  - unfold normalizedConfidence, prop. rewrite lookup_insert_ne by discriminate.
    rewrite lookup_insert_ne by discriminate.
    rewrite lookup_insert_eq. reflexivity.
  - rewrite (clamp_below_threshold k Hk).
    match goal with
    | |- context [if ?b then _ else _] => destruct b
    end; (eexists; split; [reflexivity|]); apply prop_planObject.
Qed.

(** ** Further routing examples of the specification *)

(** Complex-workflow detection. *)
Example detectComplexWorkflow_example :
  let r := detectComplexWorkflow "check deals on apples and add them to my cart" in
  isComplex r = true
  /\ workflowType r = Some "deals_to_cart"
  /\ includesCheckout r = false.
Proof. repeat split. Qed.

(** An answer of the routing model that names no agent resolves to the
    catalog. *)
Example supervisor_unknown_agent :
  exists f,
    supervisor refHost 0 0.7
      {| continuationIntent :=
           Returns {| isContinuation := false; continuationType := None;
                      targetAgent := None; confidence := 0.2; reasoning := None |};
         routingReply := Returns "shipping";
         extraction := Throws |}
      (applesState Undefined JUndefined "where is my parcel") = Returns f
    /\ next f = Val "catalog".
Proof. eexists. split; [vm_compute; reflexivity|]. reflexivity. Qed.

(** The notification hand-off is the supervisor's: under [send_notification]
    it routes to [notification_agent] whatever the oracles would say. *)
Lemma supervisor_notification_handoff (h : Host) (now : Z) (minConfidence : float)
    (oracles : SupervisorOracles) (st : State) :
  workflowContext st = Val "send_notification" ->
  exists f,
    supervisor h now minConfidence oracles st = Returns f
    /\ next f = Val "notification_agent"
    /\ workflowContext f = Val "send_notification".
Proof.
  intros Hctx. unfold supervisor.
  destruct (initialMessages now st) as [initial offset].
  rewrite Hctx.
  change (is_ctx "send_notification" (Val "send_notification")) with true.
  cbv iota. eexists. split; [reflexivity|]. split; reflexivity.
Qed.

(* ===================================================================== *)
(** * Further properties *)
(* ===================================================================== *)

(** ** The messages reducer over several merges *)

Lemma slice_last_all {A} (n : nat) (l : list A) : length l <= n -> slice_last n l = l.
Proof.
  intros H. unfold slice_last. replace (length l - n) with 0 by lia. reflexivity.
Qed.

(** Slicing twice, with new entries in between, is slicing once. *)
Lemma slice_last_app {A} (n : nat) (a b : list A) :
  slice_last n (slice_last n a ++ b) = slice_last n (a ++ b).
Proof.
  destruct (le_lt_dec (length a) n) as [Hle|Hlt].
  - rewrite (slice_last_all n a) by exact Hle. reflexivity.
  - unfold slice_last. rewrite !length_app, length_drop.
    replace (length a - (length a - n) + length b - n) with (length b) by lia.
    replace (length a + length b - n) with ((length a - n) + length b) by lia.
    rewrite <- drop_drop. rewrite (drop_app_le a b (length a - n)) by lia.
    reflexivity.
Qed.

Lemma last_slice_last {A} (n : nat) (l : list A) :
  0 < n -> last (slice_last n l) = last l.
Proof.
  intros Hn. unfold slice_last.
  destruct l as [|a l] using rev_ind; [reflexivity|].
  rewrite length_app. simpl length.
  rewrite drop_app_le by lia. rewrite !last_snoc. reflexivity.
Qed.

Lemma last_app_some {A} (a b : list A) (m : A) :
  last b = Some m -> last (a ++ b) = Some m.
Proof.
  intros H. destruct b as [|c b] using rev_ind; [discriminate|].
  rewrite last_snoc in H. rewrite app_assoc, last_snoc. exact H.
Qed.

Lemma last_nonempty {A} (l : list A) : l <> [] -> exists m, last l = Some m.
Proof.
  destruct l as [|a l] using rev_ind; [contradiction|].
  intros _. exists a. apply last_snoc.
Qed.

(** X1.  Merging message lists one after the other gives what merging them
    all at once gives: reducing [x] with [y] and the result with [z] is
    reducing [x ++ y] with [z].  In particular the reducer leaves its own
    output as it is when nothing new arrives. *)
Theorem messages_reducer_compose (x y z : list AnnotatedMessage) :
  messages_reducer (messages_reducer x y) z = messages_reducer (x ++ y) z
  /\ messages_reducer (messages_reducer x y) [] = messages_reducer x y.
Proof.
  assert (Hstep : forall w,
             messages_reducer (messages_reducer x y) w = messages_reducer (x ++ y) w).
  { intros w. destruct (messages_reducer_groups x y) as [HP HE].
    unfold messages_reducer at 1 3. cbv zeta.
    rewrite !(List.filter_app _ _ w), HP, HE, !slice_last_app, <- !List.filter_app.
    reflexivity. }
  split; [apply Hstep|].
  rewrite Hstep. unfold messages_reducer. rewrite app_nil_r. reflexivity.
Qed.

(** When old ++ new holds an ephemeral message, the last of them is the
    last message of the reduced list. *)
Lemma reducer_last_ephemeral (x y : list AnnotatedMessage) (m : AnnotatedMessage) :
  last (List.filter isEphemeral (x ++ y)) = Some m ->
  lastOf (messages_reducer x y) = Some m.
Proof.
  intros H. unfold messages_reducer, lastOf. cbv zeta. apply last_app_some.
  rewrite last_slice_last by lia. exact H.
Qed.

(** X2.  The last message of the reduced list, the one the nodes read as
    "the last message", is the last ephemeral message of old ++ new when
    there is one, whatever permanent messages came after it; it is the last
    permanent message only when old ++ new holds no ephemeral message. *)
Theorem messages_reducer_last (x y : list AnnotatedMessage) :
  lastOf (messages_reducer x y)
  = match last (List.filter isEphemeral (x ++ y)) with
    | Some m => Some m
    | None => last (List.filter isPermanent (x ++ y))
    end.
Proof.
  destruct (last (List.filter isEphemeral (x ++ y))) as [m|] eqn:He.
  - apply reducer_last_ephemeral, He.
  - apply last_None in He. unfold messages_reducer, lastOf. cbv zeta.
    rewrite He. unfold slice_last at 2. cbn [length Nat.sub drop].
    rewrite app_nil_r. apply last_slice_last. lia.
Qed.

(** ** Numbers *)

Lemma SFcompare_antisym (x y : spec_float) :
  SFcompare y x = option_map CompOpp (SFcompare x y).
Proof.
  destruct x as [sx|sx| |sx mx ex], y as [sy|sy| |sy my ey];
    try destruct sx; try destruct sy; try reflexivity;
    unfold SFcompare, option_map; f_equal;
    rewrite (Z.compare_antisym ex ey);
    destruct (ex ?= ey)%Z; simpl; try reflexivity;
    change (Pos.compare_cont Eq my mx) with (my ?= mx)%positive;
    change (Pos.compare_cont Eq mx my) with (mx ?= my)%positive;
    rewrite (Pos.compare_antisym mx my);
    destruct (mx ?= my)%positive; reflexivity.
Qed.

Lemma number_not_nan (a : float) : is_nan a = false -> Prim2SF a <> S754_nan.
Proof.
  unfold is_nan. rewrite FloatAxioms.eqb_spec. intros H Hn. rewrite Hn in H.
  discriminate H.
Qed.

Lemma nan_spec (c : float) : is_nan c = true -> Prim2SF c = S754_nan.
Proof.
  unfold is_nan. rewrite FloatAxioms.eqb_spec. unfold SFeqb. intros H.
  destruct (Prim2SF c) as [s|s| |s m e] eqn:E; try reflexivity;
    rewrite SFcompare_refl in H by discriminate; discriminate H.
Qed.

Lemma SFcompare_numbers (x y : spec_float) :
  x <> S754_nan -> y <> S754_nan -> exists c, SFcompare x y = Some c.
Proof.
  destruct x as [sx|sx| |sx mx ex], y as [sy|sy| |sy my ey]; intros Hx Hy;
    try contradiction; simpl; eexists; reflexivity.
Qed.

Lemma float_ltb_leb (a b : float) :
  PrimFloat.ltb a b = true -> PrimFloat.leb a b = true.
Proof.
  rewrite FloatAxioms.ltb_spec, FloatAxioms.leb_spec. unfold SFltb, SFleb.
  destruct (SFcompare (Prim2SF a) (Prim2SF b)) as [[| |]|]; congruence.
Qed.

Lemma float_leb_refl (a : float) : is_nan a = false -> PrimFloat.leb a a = true.
Proof.
  intros Ha. rewrite FloatAxioms.leb_spec. unfold SFleb.
  rewrite SFcompare_refl by (apply number_not_nan, Ha). reflexivity.
Qed.

(** Two numbers neither of which is below the other compare as equal. *)
Lemma tie_leb (a b : float) :
  is_nan a = false -> is_nan b = false ->
  PrimFloat.ltb a b = false -> PrimFloat.ltb b a = false ->
  PrimFloat.leb a b = true /\ PrimFloat.leb b a = true.
Proof.
  intros Ha Hb. rewrite !FloatAxioms.ltb_spec, !FloatAxioms.leb_spec.
  unfold SFltb, SFleb. rewrite (SFcompare_antisym (Prim2SF a) (Prim2SF b)).
  destruct (SFcompare_numbers _ _ (number_not_nan a Ha) (number_not_nan b Hb))
    as [c ->].
  destruct c; simpl; intros; split; congruence.
Qed.

(** [Math.min] of two numbers is one of them, and not above the other. *)
Lemma math_min_cases (a b : float) :
  is_nan a = false -> is_nan b = false ->
  (math_min a b = a /\ PrimFloat.leb a b = true)
  \/ (math_min a b = b /\ PrimFloat.leb b a = true).
Proof.
  intros Ha Hb. unfold math_min. rewrite Ha, Hb. cbv [orb].
  destruct (PrimFloat.ltb a b) eqn:Hab;
    [left; split; [reflexivity | apply float_ltb_leb, Hab]|].
  destruct (PrimFloat.ltb b a) eqn:Hba;
    [right; split; [reflexivity | apply float_ltb_leb, Hba]|].
  destruct (tie_leb a b Ha Hb Hab Hba) as [H1 H2].
  destruct (PrimFloat.ltb (1 / a) 0); [left | right]; split; auto.
Qed.

Lemma math_max_cases (a b : float) :
  is_nan a = false -> is_nan b = false ->
  (math_max a b = a /\ PrimFloat.leb b a = true)
  \/ (math_max a b = b /\ PrimFloat.leb a b = true).
Proof.
  intros Ha Hb. unfold math_max. rewrite Ha, Hb. cbv [orb].
  destruct (PrimFloat.ltb a b) eqn:Hab;
    [right; split; [reflexivity | apply float_ltb_leb, Hab]|].
  destruct (PrimFloat.ltb b a) eqn:Hba;
    [left; split; [reflexivity | apply float_ltb_leb, Hba]|].
  destruct (tie_leb a b Ha Hb Hab Hba) as [H1 H2].
  destruct (PrimFloat.ltb (1 / a) 0); [right | left]; split; auto.
Qed.

Lemma math_min_nan (a b : float) :
  is_nan a || is_nan b = true -> is_nan (math_min a b) = true.
Proof. intros H. unfold math_min. rewrite H. reflexivity. Qed.

Lemma math_max_nan (a b : float) :
  is_nan a || is_nan b = true -> is_nan (math_max a b) = true.
Proof. intros H. unfold math_max. rewrite H. reflexivity. Qed.

(** [Math.max(lo, Math.min(n, hi))] of a number lies between the bounds. *)
Lemma clamp_range (lo hi n : float) :
  is_nan lo = false -> is_nan hi = false -> is_nan n = false ->
  PrimFloat.leb lo hi = true ->
  is_nan (math_max lo (math_min n hi)) = false
  /\ PrimFloat.leb lo (math_max lo (math_min n hi)) = true
  /\ PrimFloat.leb (math_max lo (math_min n hi)) hi = true.
Proof.
  intros Hlo Hhi Hn Hle.
  destruct (math_min_cases n hi Hn Hhi) as [[-> H1] | [-> H1]].
  - destruct (math_max_cases lo n Hlo Hn) as [[-> H2] | [-> H2]];
      auto using float_leb_refl.
  - destruct (math_max_cases lo hi Hlo Hhi) as [[-> H2] | [-> H2]];
      auto using float_leb_refl.
Qed.

(** The planner's clamp, [Math.max(0, Math.min(1, c))]. *)
Lemma clamp_unit (c : float) :
  is_nan c = false ->
  is_nan (math_max 0 (math_min 1 c)) = false
  /\ unitInterval (math_max 0 (math_min 1 c)).
Proof.
  intros Hc. unfold unitInterval.
  destruct (math_min_cases 1 c eq_refl Hc) as [[-> H1] | [-> H1]].
  - destruct (math_max_cases 0 1 eq_refl eq_refl) as [[-> H2] | [-> H2]];
      repeat split; auto.
  - destruct (math_max_cases 0 c eq_refl Hc) as [[-> H2] | [-> H2]];
      repeat split; auto.
Qed.

Lemma clamp_nan (c : float) :
  is_nan c = true -> is_nan (math_max 0 (math_min 1 c)) = true.
Proof.
  intros H. apply math_max_nan, orb_true_iff. right.
  apply math_min_nan, orb_true_iff. right. exact H.
Qed.

Lemma nan_not_below (c k : float) : is_nan c = true -> PrimFloat.ltb c k = false.
Proof.
  intros H. rewrite FloatAxioms.ltb_spec, (nan_spec c H). reflexivity.
Qed.

(** X3.  Whatever the old and the new value are, the delegation depth
    after the reducer is a number between 0 and 100, unless the value it is
    computed from (the new one, else the old one) is not a number; an
    explicit [null] resets it to 0. *)
Theorem delegationDepth_reducer_bounds (x y : Opt float) :
  (exists d,
     delegationDepth_reducer x y = Val d
     /\ (is_nan d = true
         \/ (PrimFloat.leb 0 d = true /\ PrimFloat.leb d 100 = true)))
  /\ delegationDepth_reducer x Null = Val 0%float.
Proof.
  split; [|reflexivity].
  unfold delegationDepth_reducer.
  destruct y as [| |n];
    [| exists 0%float; split; [reflexivity | right; split; reflexivity] |];
    cbv zeta; eexists; (split; [reflexivity|]).
  - set (n := match x with Val f => f | _ => 0%float end).
    destruct (is_nan n) eqn:Hn.
    + left. apply math_max_nan, orb_true_iff. right.
      apply math_min_nan, orb_true_iff. left. exact Hn.
    + right. apply (clamp_range 0 100 n); auto.
  - destruct (is_nan n) eqn:Hn.
    + left. apply math_max_nan, orb_true_iff. right.
      apply math_min_nan, orb_true_iff. left. exact Hn.
    + right. apply (clamp_range 0 100 n); auto.
Qed.

(** ** The deal data reducer *)

Lemma prop_lookup (m : gmap string JValue) (k : string) (v : JValue) :
  m !! k = Some v -> prop (JObj m) k = v.
Proof. intros H. unfold prop. rewrite H. reflexivity. Qed.

(** X4.  Merging two deal data objects whose histories can be read: the
    result has the old history followed by the new one, and under every
    other key the new value where the new object has the key, the old value
    otherwise. *)
Theorem dealData_reducer_merges (mx my : gmap string JValue) (hx hy : list JValue) :
  historyOf (JObj mx) = Returns hx ->
  historyOf (JObj my) = Returns hy ->
  exists m,
    dealData_reducer (JObj mx) (JObj my) = Returns (JObj m)
    /\ m !! "history" = Some (JArr (hx ++ hy))
    /\ forall k, k <> "history" ->
         m !! k = match my !! k with Some v => Some v | None => mx !! k end.
Proof.
  unfold historyOf. intros Hx Hy. unfold dealData_reducer.
  cbn [truthy negb]. rewrite Hx, Hy.
  eexists. split; [reflexivity|]. split; [apply lookup_insert_eq|].
  intros k Hk. rewrite lookup_insert_ne by congruence.
  unfold spread2, spread. rewrite lookup_union.
  destruct (my !! k), (mx !! k); reflexivity.
Qed.

Lemma dealData_reducer_merges_witness :
  exists m,
    dealData_reducer (JObj offeredDeal) (JObj appliedDeal) = Returns (JObj m)
    /\ m !! "history" = Some (JArr ([JStr "offer"] ++ [JStr "applied"]))
    /\ forall k, k <> "history" ->
         m !! k = match appliedDeal !! k with
                  | Some v => Some v
                  | None => offeredDeal !! k
                  end.
Proof.
  apply (dealData_reducer_merges offeredDeal appliedDeal
           [JStr "offer"] [JStr "applied"]); reflexivity.
Defined.

(** X5.  The deal data reducer throws when it merges two objects one of
    which has a [history] that is truthy and cannot be iterated (a number,
    [true], an object): the array spread over it fails, and with it the
    merge of the fragment. *)
Theorem dealData_reducer_throws (mx my : gmap string JValue) (v : JValue) :
  (mx !! "history" = Some v \/ my !! "history" = Some v) ->
  truthy v = true -> iterate v = Throws ->
  dealData_reducer (JObj mx) (JObj my) = Throws.
Proof.
  intros Hh Hv Hi. unfold dealData_reducer. cbn [truthy negb].
  assert (Hor : iterate (js_or v (JArr [])) = Throws).
  { unfold js_or. rewrite Hv. exact Hi. }
  destruct Hh as [Hh | Hh]; rewrite (prop_lookup _ _ _ Hh), Hor; [reflexivity|].
  destruct (iterate (js_or (prop (JObj mx) "history") (JArr []))); reflexivity.
Qed.

Lemma dealData_reducer_throws_witness :
  dealData_reducer (JObj offeredDeal) (JObj countedDeal) = Throws.
Proof.
  apply (dealData_reducer_throws offeredDeal countedDeal (JNum 2%float));
    [right; reflexivity | reflexivity | reflexivity].
Defined.

(** X6.  A node that hands the deal data of the state back unchanged, as
    the catalog node does, doubles its history: after the merge the history
    is the old one twice. *)
Theorem passthrough_doubles_history (now now' : Z) (st : State) (result : AgentResult)
    (m : gmap string JValue) (hx : list JValue) :
  dealData st = JObj m -> m !! "history" = Some (JArr hx) ->
  exists st',
    merge now' st (catalogNode now st result) = Returns st'
    /\ prop (dealData st') "history" = JArr (hx ++ hx).
Proof.
  intros Hd Hh. unfold merge, catalogNode. cbn [messages dealData].
  rewrite mapM_id_Some, Hd. unfold dealData_reducer. cbn [truthy negb].
  rewrite (prop_lookup _ _ _ Hh). unfold js_or. cbn [truthy iterate].
  eexists. split; [reflexivity|]. cbn [dealData].
  apply prop_lookup, lookup_insert_eq.
Qed.

Lemma passthrough_doubles_history_witness :
  exists st',
    merge 1 (applesState Undefined (JObj offeredDeal) "any pears?")
      (catalogNode 0 (applesState Undefined (JObj offeredDeal) "any pears?")
         (agentSays "We have pears."))
    = Returns st'
    /\ prop (dealData st') "history" = JArr ([JStr "offer"] ++ [JStr "offer"]).
Proof.
  apply (passthrough_doubles_history 0 1
           (applesState Undefined (JObj offeredDeal) "any pears?")
           (agentSays "We have pears.") offeredDeal [JStr "offer"]); reflexivity.
Defined.

(** ** The plans the planner hands on *)

Lemma str_in_allowed (a : string) :
  str_in a allowedActions = true -> a = "direct_response" \/ a = "delegate".
Proof.
  unfold str_in, allowedActions. cbn [existsb]. rewrite orb_false_r.
  intros H. apply orb_true_iff in H.
  destruct H as [H|H]; apply String.eqb_eq in H; auto.
Qed.

(** Every plan [validateAndNormalizePlan] returns has one of six shapes. *)
Lemma validate_shapes (h : Host) (input : JValue) (valid : bool) (plan : JValue) :
  validateAndNormalizePlan h input = Returns (valid, plan) -> NormalPlan h input plan.
Proof.
  unfold validateAndNormalizePlan.
  destruct (negb (truthy input) || negb (typeof_object input)).
  { destruct input; intros H; try discriminate H; injection H as _ <-;
      apply plan_bad_format. }
  cbv zeta.
  set (rawAction :=
         match prop input "action" with JStr a => toLowerCase a | _ => "" end).
  destruct (String.eqb rawAction "") eqn:He; cbn [orb].
  { intros H; injection H as _ <-. apply plan_bad_action. }
  destruct (str_in rawAction allowedActions) eqn:Hin; cbn [negb].
  2:{ intros H; injection H as _ <-. apply plan_bad_action. }
  destruct (str_in_allowed _ Hin) as [-> | ->].
  - change (String.eqb "direct_response" "direct_response") with true.
    cbn [andb]. rewrite andb_true_r.
    destruct (negb (truthy (normalizedTask h input))
              && String.eqb (normalizedReasoning h input) "") eqn:Hc.
    { intros H; injection H as _ <-. apply plan_no_content. }
    destruct (PrimFloat.ltb (normalizedConfidence input) 0.7) eqn:Hl;
      intros H; injection H as _ <-.
    + apply plan_low_confidence, Hl.
    + apply plan_direct; assumption.
  - change (String.eqb "delegate" "direct_response") with false.
    cbn [andb]. rewrite andb_false_r.
    intros H; injection H as _ <-. apply plan_delegate.
Qed.

Lemma planObject_action (action : string) (task : JValue) (confidence : float)
    (reasoning : string) (autoApplyIntent : bool) :
  prop (planObject action task confidence reasoning autoApplyIntent) "action"
  = JStr action.
Proof. unfold planObject. read_prop. reflexivity. Qed.

Lemma planObject_confidence (action : string) (task : JValue) (confidence : float)
    (reasoning : string) (autoApplyIntent : bool) :
  prop (planObject action task confidence reasoning autoApplyIntent) "confidence"
  = JNum confidence.
Proof. unfold planObject. read_prop. reflexivity. Qed.

Lemma planObject_text (action : string) (task : JValue) (confidence : float)
    (reasoning : string) (autoApplyIntent : bool) :
  prop (planObject action task confidence reasoning autoApplyIntent) "task" = task
  /\ prop (planObject action task confidence reasoning autoApplyIntent) "reasoning"
     = JStr reasoning.
Proof. unfold planObject. read_prop. split; reflexivity. Qed.

Lemma planObject_untargeted (action : string) (task : JValue) (confidence : float)
    (reasoning : string) (autoApplyIntent : bool) :
  prop (planObject action task confidence reasoning autoApplyIntent) "targetAgent"
  = JUndefined.
Proof. unfold planObject. read_prop. reflexivity. Qed.

Lemma normal_plan_action (h : Host) (input plan : JValue) :
  NormalPlan h input plan ->
  prop plan "action" = JStr "delegate" \/ prop plan "action" = JStr "direct_response".
Proof.
  intros H. destruct H.
  - left. read_prop. reflexivity.
  - left. unfold invalidActionPlan. read_prop. reflexivity.
  - left. exact (planObject_action _ _ _ _ _).
  - left. exact (planObject_action _ _ _ _ _).
  - left. exact (planObject_action _ _ _ _ _).
  - right. exact (planObject_action _ _ _ _ _).
Qed.

Lemma normal_plan_untargeted (h : Host) (input plan : JValue) :
  NormalPlan h input plan -> prop plan "targetAgent" = JUndefined.
Proof.
  intros H. destruct H; try exact (planObject_untargeted _ _ _ _ _);
    unfold invalidActionPlan; read_prop; reflexivity.
Qed.

(** A normalised plan that answers directly has something to say, and a
    confidence that is not below the threshold. *)
Lemma normal_plan_direct (h : Host) (input plan : JValue) :
  NormalPlan h input plan ->
  prop plan "action" = JStr "direct_response" ->
  exists c,
    prop plan "confidence" = JNum c
    /\ PrimFloat.ltb c 0.7 = false
    /\ truthy (js_or (prop plan "task") (prop plan "reasoning")) = true.
Proof.
  intros H Hd. destruct H as [task| | |Hl| |Hc Hl].
  - revert Hd. read_prop. discriminate.
  - revert Hd. unfold invalidActionPlan. read_prop. discriminate.
  - rewrite planObject_action in Hd. discriminate Hd.
  - rewrite planObject_action in Hd. discriminate Hd.
  - rewrite planObject_action in Hd. discriminate Hd.
  - exists (normalizedConfidence input).
    split; [apply planObject_confidence|]. split; [exact Hl|].
    destruct (planObject_text "direct_response" (normalizedTask h input)
                (normalizedConfidence input) (normalizedReasoning h input)
                (normalizedAutoApplyIntent input)) as [-> ->].
    unfold js_or. destruct (truthy (normalizedTask h input)) eqn:Ht; [exact Ht|].
    cbn [negb andb] in Hc. cbn [truthy]. rewrite Hc. reflexivity.
Qed.

(** X7.  Whatever the model returned, the plan that leaves
    [validateAndNormalizePlan] has the action [delegate] or
    [direct_response]; and when it is [direct_response], its confidence is
    not below 0.7 and its task or its reasoning is a text to answer with. *)
Theorem validate_plan_invariant (h : Host) (input : JValue) (valid : bool)
    (plan : JValue) :
  validateAndNormalizePlan h input = Returns (valid, plan) ->
  (prop plan "action" = JStr "delegate" \/ prop plan "action" = JStr "direct_response")
  /\ (prop plan "action" = JStr "direct_response" ->
      exists c,
        prop plan "confidence" = JNum c
        /\ PrimFloat.ltb c 0.7 = false
        /\ truthy (js_or (prop plan "task") (prop plan "reasoning")) = true).
Proof.
  intros H. apply validate_shapes in H. split.
  - exact (normal_plan_action h input plan H).
  - exact (normal_plan_direct h input plan H).
Qed.

Lemma validate_plan_invariant_witness :
  (prop normalGreeting "action" = JStr "delegate"
   \/ prop normalGreeting "action" = JStr "direct_response")
  /\ (prop normalGreeting "action" = JStr "direct_response" ->
      exists c,
        prop normalGreeting "confidence" = JNum c
        /\ PrimFloat.ltb c 0.7 = false
        /\ truthy (js_or (prop normalGreeting "task")
                         (prop normalGreeting "reasoning")) = true).
Proof.
  apply (validate_plan_invariant refHost greetingPlan true normalGreeting).
  vm_compute. reflexivity.
Defined.

Lemma normalizedConfidence_range (input : JValue) :
  is_nan (normalizedConfidence input) = true
  \/ (is_nan (normalizedConfidence input) = false
      /\ unitInterval (normalizedConfidence input)).
Proof.
  unfold normalizedConfidence.
  destruct (prop input "confidence") as [| | |c| | |];
    try (right; split; [|split]; reflexivity).
  destruct (is_nan c) eqn:Hc.
  - left. apply clamp_nan, Hc.
  - right. apply clamp_unit, Hc.
Qed.

(** X8.  The confidence of every plan [validateAndNormalizePlan] returns is
    a number between 0 and 1, or not a number at all (which happens only
    when the confidence it was given is NaN). *)
Theorem validate_confidence_range (h : Host) (input : JValue) (valid : bool)
    (plan : JValue) :
  validateAndNormalizePlan h input = Returns (valid, plan) ->
  exists c,
    prop plan "confidence" = JNum c /\ (is_nan c = true \/ unitInterval c).
Proof.
  intros H. apply validate_shapes in H.
  destruct H as [task| | |Hl| |Hc Hl].
  - exists 0.5%float. split; [read_prop; reflexivity|]. right. split; reflexivity.
  - exists 0.5%float. split; [unfold invalidActionPlan; read_prop; reflexivity|].
    right. split; reflexivity.
  - eexists. split; [apply planObject_confidence|].
    destruct (normalizedConfidence_range input) as [Hn | [Hn [H0 H1]]].
    + left. apply math_min_nan, orb_true_iff. left. exact Hn.
    + right. destruct (math_min_cases _ 0.6 Hn eq_refl) as [[-> _] | [-> _]];
        split; auto; reflexivity.
  - eexists. split; [apply planObject_confidence|].
    destruct (normalizedConfidence_range input) as [Hn | [_ Hr]]; auto.
  - eexists. split; [apply planObject_confidence|].
    destruct (normalizedConfidence_range input) as [Hn | [_ Hr]]; auto.
  - eexists. split; [apply planObject_confidence|].
    destruct (normalizedConfidence_range input) as [Hn | [_ Hr]]; auto.
Qed.

Lemma validate_confidence_range_witness :
  exists c,
    prop (planObject "delegate" JUndefined 1 "sure" false) "confidence" = JNum c
    /\ (is_nan c = true \/ unitInterval c).
Proof.
  apply (validate_confidence_range refHost overconfidentPlan true
           (planObject "delegate" JUndefined 1 "sure" false)).
  vm_compute. reflexivity.
Defined.

(** X9.  The recommendation the planner computes never names a target
    agent: the normalisation keeps the action, the task, the confidence, the
    reasoning and the auto-apply flag, and drops a [targetAgent] the model
    gave. *)
Theorem planner_names_no_agent (h : Host) (now : Z) (msgs : PlannerMessages)
    (st : State) (oracle : OracleOutcome) (f : Fragment) :
  planner h now None msgs st oracle = Returns f ->
  prop (plannerRecommendation f) "targetAgent" = JUndefined.
Proof.
  unfold planner. destruct (plannerMessages now msgs) as [shown converted].
  destruct (List.filter has_content (slice_last 6 shown)) as [|m0 rest].
  { intros [= <-]. reflexivity. }
  destruct oracle as [response|errorMessage].
  - cbv zeta.
    destruct (assignDefaults h (parsedPlan h (plannerText h response))) as [plan|];
      [|discriminate].
    destruct (validateAndNormalizePlan h plan) as [[valid final]|] eqn:Hv;
      [|discriminate].
    intros [= <-]. cbn [plannerRecommendation].
    apply (normal_plan_untargeted h plan), (validate_shapes h plan valid), Hv.
  - intros [= <-]. cbn [plannerRecommendation]. read_prop. reflexivity.
Qed.

Lemma planner_names_no_agent_witness :
  prop (plannerRecommendation
          (returned (catalogNode 0 emptyState (agentSays "none"))
             (planner refHost 0 None firstTurn emptyState targetedReply)))
       "targetAgent" = JUndefined.
Proof.
  apply (planner_names_no_agent refHost 0 firstTurn emptyState targetedReply).
  vm_compute. reflexivity.
Defined.

(** X10.  A confidence the model gives as a text that is no number, with a
    [direct_response] that has a task, goes through the planner as NaN: NaN
    is not below 0.7, so the plan is not demoted, and the recommendation is
    a [direct_response] whose confidence is not a number. *)
Theorem planner_keeps_unreadable_confidence (h : Host) (now : Z)
    (msgs : PlannerMessages) (st : State) (r : JValue) (m : gmap string JValue)
    (v : JValue) (t : string) :
  oracleCalled now msgs ->
  JSON_parse h (jsonText (plannerText h r)) = Some (JObj m) ->
  m !! "action" = Some (JStr "direct_response") ->
  m !! "task" = Some (JStr t) -> t <> "" ->
  m !! "confidence" = Some v -> truthy v = true ->
  is_nan (to_number h v) = true ->
  exists f c,
    planner h now None msgs st (Replied r) = Returns f
    /\ prop (plannerRecommendation f) "action" = JStr "direct_response"
    /\ prop (plannerRecommendation f) "confidence" = JNum c
    /\ is_nan c = true.
Proof.
  unfold oracleCalled, planner. intros Hcalled Hparse Haction Htask Ht Hconf Hv Hnan.
  destruct (plannerMessages now msgs) as [messages converted].
  cbn [fst] in Hcalled.
  destruct (List.filter has_content (slice_last 6 messages)) as [|m0 shown];
    [contradiction|].
  cbv zeta. unfold parsedPlan. rewrite Hparse. cbn [truthy].
  unfold assignDefaults. cbv zeta.
  rewrite (prop_lookup _ _ _ Haction), (prop_lookup _ _ _ Hconf).
  unfold js_or. rewrite Hv. cbn [truthy].
  change (negb (String.eqb "direct_response" "")) with true. cbv iota.
  set (k := math_max 0 (math_min 1 (to_number h v))).
  assert (Hk : is_nan k = true) by (apply clamp_nan, Hnan).
  match goal with
  | |- context [validateAndNormalizePlan h ?p] =>
      assert (Ha : prop p "action" = JStr "direct_response");
      [| assert (Hc : normalizedConfidence p = math_max 0 (math_min 1 k));
         [| assert (Htk : normalizedTask h p = JStr t);
            [| rewrite (validate_direct_response h p Ha), Hc, Htk ] ] ]
  end.
  - unfold prop. rewrite lookup_insert_ne by discriminate.
    rewrite lookup_insert_eq. reflexivity.
  - unfold normalizedConfidence, prop. rewrite lookup_insert_ne by discriminate.
    rewrite lookup_insert_ne by discriminate.
    rewrite lookup_insert_eq. reflexivity.
  - unfold normalizedTask, prop. rewrite !lookup_insert_ne by discriminate.
    rewrite Htask. reflexivity.
  - cbn [truthy negb]. apply String.eqb_neq in Ht. rewrite Ht. cbn [negb andb].
    rewrite (nan_not_below _ 0.7 (clamp_nan k Hk)).
    eexists. eexists. split; [reflexivity|]. cbn [plannerRecommendation].
    split; [apply planObject_action|]. split; [apply planObject_confidence|].
    apply clamp_nan, Hk.
Qed.

Lemma planner_keeps_unreadable_confidence_witness :
  exists f c,
    planner refHost 0 None firstTurn emptyState (Replied vagueReply) = Returns f
    /\ prop (plannerRecommendation f) "action" = JStr "direct_response"
    /\ prop (plannerRecommendation f) "confidence" = JNum c
    /\ is_nan c = true.
Proof.
  apply (planner_keeps_unreadable_confidence refHost 0 firstTurn emptyState vagueReply
           (list_to_map [ ("action", JStr "direct_response"); ("task", JStr "Hello!");
                          ("confidence", JStr "high") ])
           (JStr "high") "Hello!").
  - vm_compute. discriminate.
  - vm_compute. reflexivity.
  - reflexivity.
  - reflexivity.
  - discriminate.
  - reflexivity.
  - reflexivity.
  - vm_compute. reflexivity.
Defined.

(** ** Where the supervisor sends the turn *)

(** Case analysis on the scrutinees of a branching term, innermost first. *)
Ltac case_scrutinees :=
  repeat match goal with
         | |- context [match ?x with _ => _ end] =>
             lazymatch x with
             | context [match _ with _ => _ end] => fail
             | _ => destruct x eqn:?
             end
         end.

Ltac case_scrutinees_in H :=
  repeat match type of H with
         | context [match ?x with _ => _ end] =>
             lazymatch x with
             | context [match _ with _ => _ end] => fail
             | _ => destruct x eqn:?
             end
         end.

(** Case analysis on the decision the supervisor takes from the planner
    recommendation, before it asks for the continuation intent. *)
Ltac split_planned H :=
  match goal with
  | |- context [match ?p with
                | Some _ => _
                | None =>
                    match continuationIntent _ with Returns _ => _ | Throws => _ end
                end] =>
      destruct p eqn:H
  end.





(** X12.  A planner recommendation to delegate that names a target agent,
    with a confidence above 0.7, is followed as it is: the supervisor returns
    that name as [next], whether or not it is one of the agents of the graph
    (the test against the list of valid agents changes nothing).  Stated
    without a notification to send and without a pending product, where no
    context overrides the target. *)
Theorem supervisor_follows_planner_target (h : Host) (now : Z) (minConfidence : float)
    (oracles : SupervisorOracles) (st : State) (target : string) :
  prop (plannerRecommendation st) "action" = JStr "delegate" ->
  prop (plannerRecommendation st) "targetAgent" = JStr target ->
  target <> "" -> target <> "supervisor" ->
  confident h (prop (plannerRecommendation st) "confidence") = true ->
  is_ctx "send_notification" (workflowContext st) = false ->
  present (pendingProduct st) = false ->
  exists f,
    supervisor h now minConfidence oracles st = Returns f
    /\ next f = Val target
    /\ workflowContext f = workflowContext st.
Proof.
  intros Haction Htarget Hne Hsup Hconf Hnotif Hpending.
  assert (Htruthy : truthy (plannerRecommendation st) = true).
  { destruct (plannerRecommendation st); try discriminate Haction. reflexivity. }
  unfold supervisor.
  destruct (initialMessages now st) as [initial offset].
  rewrite Hnotif, Hpending, !andb_false_r. cbv zeta.
  rewrite Htruthy, Haction, Htarget, Hconf.
  apply String.eqb_neq in Hne, Hsup. rewrite Hne, Hsup, andb_false_r.
  cbn [negb is_str].
  change (String.eqb "delegate" "direct_response") with false.
  change (String.eqb "delegate" "delegate") with true. cbv iota.
  rewrite orb_true_r.
  destruct (str_in target plannerAgents && true);
    (eexists; split; [reflexivity|]); split; reflexivity.
Qed.

Lemma supervisor_follows_planner_target_witness :
  exists f,
    supervisor refHost 0 0.7 noOracles shippingState = Returns f
    /\ next f = Val "shipping"
    /\ workflowContext f = workflowContext shippingState.
Proof.
  apply (supervisor_follows_planner_target refHost 0 0.7 noOracles shippingState
           "shipping"); try (vm_compute; reflexivity); discriminate.
Defined.



(** X14.  When the state holds a normalised plan that answers directly, the
    supervisor ends the turn with the plan's task, or its reasoning when it
    has no task, as the reply; that text is never empty, so the default
    greeting of the supervisor is never used for a plan of the planner. *)
Theorem direct_response_has_text (h : Host) (now : Z) (minConfidence : float)
    (oracles : SupervisorOracles) (st : State) (input : JValue) (valid : bool) :
  validateAndNormalizePlan h input = Returns (valid, plannerRecommendation st) ->
  prop (plannerRecommendation st) "action" = JStr "direct_response" ->
  is_ctx "send_notification" (workflowContext st) = false ->
  is_ctx "awaiting_deal_confirmation" (workflowContext st)
    && present (pendingProduct st) = false ->
  exists f reply,
    supervisor h now minConfidence oracles st = Returns f
    /\ next f = Val END
    /\ lastOf (messages f) = Some (Some reply)
    /\ content (message reply)
       = js_or (prop (plannerRecommendation st) "task")
               (prop (plannerRecommendation st) "reasoning")
    /\ truthy (content (message reply)) = true.
Proof.
  intros Hv Haction Hnotif Hawait.
  apply validate_shapes in Hv.
  destruct (normal_plan_direct h input _ Hv Haction) as (c & _ & _ & Htext).
  assert (Htruthy : truthy (plannerRecommendation st) = true).
  { destruct (plannerRecommendation st); try discriminate Haction. reflexivity. }
  unfold supervisor.
  destruct (initialMessages now st) as [initial offset].
  rewrite Hnotif, Hawait. cbv zeta.
  rewrite Htruthy, Haction. cbn [negb is_str].
  change (String.eqb "direct_response" "direct_response") with true. cbv iota.
  eexists. eexists. split; [reflexivity|]. split; [reflexivity|].
  split; [apply last_snoc|]. cbn [message content aiMessage].
  assert (Hor : forall b,
             js_or (js_or (prop (plannerRecommendation st) "task")
                          (prop (plannerRecommendation st) "reasoning")) b
             = js_or (prop (plannerRecommendation st) "task")
                     (prop (plannerRecommendation st) "reasoning")).
  { intros b. unfold js_or at 1. rewrite Htext. reflexivity. }
  rewrite Hor. split; [reflexivity | exact Htext].
Qed.

Lemma direct_response_has_text_witness :
  exists f reply,
    supervisor refHost 0 0.7 noOracles (withRecommendation normalGreeting emptyState)
    = Returns f
    /\ next f = Val END
    /\ lastOf (messages f) = Some (Some reply)
    /\ content (message reply)
       = js_or (prop normalGreeting "task") (prop normalGreeting "reasoning")
    /\ truthy (content (message reply)) = true.
Proof.
  apply (direct_response_has_text refHost 0 0.7 noOracles
           (withRecommendation normalGreeting emptyState) greetingPlan true);
    vm_compute; reflexivity.
Defined.

(** ** What the supervisor leaves as the last message *)

Lemma initial_ephemeral (now : Z) (st : State) :
  exists m rest,
    fst (initialMessages now st) = m :: rest /\ isEphemeral m = true.
Proof.
  unfold initialMessages. destruct (agentCompletion st); eexists; eexists;
    (split; [reflexivity|]); reflexivity.
Qed.

(** Every fragment of the supervisor starts with its progress messages. *)
Lemma supervisor_messages_prefix (h : Host) (now : Z) (minConfidence : float)
    (oracles : SupervisorOracles) (st : State) (f : Fragment) :
  supervisor h now minConfidence oracles st = Returns f ->
  exists rest, messages f = (Some <$> fst (initialMessages now st)) ++ rest.
Proof.
  unfold supervisor. destruct (initialMessages now st) as [initial offset].
  cbn [fst]. cbv zeta.
  destruct (is_ctx "send_notification" (workflowContext st)).
  { intros [= <-]; eexists; reflexivity. }
  destruct (is_ctx "awaiting_deal_confirmation" (workflowContext st)
            && present (pendingProduct st)).
  { destruct (hasAffirmative _); intros [= <-]; eexists; reflexivity. }
  split_planned Hplanned.
  - intros [= <-]. case_scrutinees_in Hplanned; try discriminate Hplanned;
      injection Hplanned as <-; eexists; reflexivity.
  - clear Hplanned. case_scrutinees; intros [= <-]; eexists; reflexivity.
Qed.

Lemma mapM_id_prefix {A} (l : list A) (rest : list (option A)) (new : list A) :
  mapM id ((Some <$> l) ++ rest) = Some new -> exists rest', new = l ++ rest'.
Proof.
  revert new. induction l as [|a l IH]; intros new H; [exists new; reflexivity|].
  cbn in H. destruct (mapM id ((Some <$> l) ++ rest)) as [k|] eqn:Hk;
    [|discriminate H].
  injection H as <-. destruct (IH k eq_refl) as [rest' ->].
  exists rest'. reflexivity.
Qed.

(** X15.  After a supervisor turn has been merged, the last message of the
    state is an ephemeral progress message, not the message of the user: the
    supervisor always emits progress messages, and the reducer puts the
    ephemeral messages after the permanent ones.  A node that reads "the
    last message" after the supervisor reads a progress update. *)
Theorem supervisor_leaves_progress_last (h : Host) (now now' : Z)
    (minConfidence : float) (oracles : SupervisorOracles) (st st' : State)
    (f : Fragment) :
  supervisor h now minConfidence oracles st = Returns f ->
  merge now' st f = Returns st' ->
  exists m, lastOf (messages st') = Some m /\ isEphemeral m = true.
Proof.
  intros Hs Hm. destruct (supervisor_messages_prefix _ _ _ _ _ _ Hs) as [rest Hf].
  destruct (initial_ephemeral now st) as (p & more & Hinit & Hp).
  unfold merge in Hm. rewrite Hf in Hm.
  destruct (mapM id _) as [new|] eqn:Hnew; [|discriminate Hm].
  destruct (dealData_reducer _ _); [|discriminate Hm].
  injection Hm as <-. cbn [messages].
  destruct (mapM_id_prefix _ _ _ Hnew) as [rest' ->]. rewrite Hinit.
  destruct (last_nonempty
              (List.filter isEphemeral (messages st ++ (p :: more) ++ rest')))
    as [m Hlast].
  { rewrite !List.filter_app. cbn [List.filter app]. rewrite Hp.
    intros H. apply app_eq_nil in H. destruct H as [_ H]. discriminate H. }
  exists m. split; [apply (reducer_last_ephemeral _ _ _ Hlast)|].
  pose proof (filter_satisfies isEphemeral (messages st ++ (p :: more) ++ rest'))
    as HF.
  apply last_Some in Hlast. destruct Hlast as [l' Hl]. rewrite Hl in HF.
  apply Forall_app in HF. destruct HF as [_ HF]. inversion HF; assumption.
Qed.

Lemma supervisor_leaves_progress_last_witness :
  exists m,
    lastOf (messages
              (returned emptyState
                 (merge 1 (awaitingState "yes please")
                    (returned (catalogNode 0 emptyState (agentSays "none"))
                       (supervisor refHost 0 0.7 noOracles
                          (awaitingState "yes please"))))))
    = Some m
    /\ isEphemeral m = true.
Proof.
  apply (supervisor_leaves_progress_last refHost 0 1 0.7 noOracles
           (awaitingState "yes please") _
           (returned (catalogNode 0 emptyState (agentSays "none"))
              (supervisor refHost 0 0.7 noOracles (awaitingState "yes please"))));
    vm_compute; reflexivity.
Defined.

(** ** After the notification *)

(** The fragment of the notification agent, whatever the delivery did. *)
Lemma notificationAgent_reply (now : Z) (st : State) (send : Outcome PushResult) :
  exists text,
    notificationAgent now st send =
      {| messages :=
           [Some (annotateMessage now (aiMessage (JStr text)) assistant
                    (Some "notification_agent"))];
         next := Val END;
         userId := userId st;
         conversationId := conversationId st;
         cartData := JUndefined;
         workflowContext := Undefined;
         dealData := JUndefined;
         delegationDepth := Undefined;
         pendingProduct := Undefined;
         notificationData := JNull;
         plannerRecommendation := JUndefined |}.
Proof.
  unfold notificationAgent.
  destruct (negb (truthy (notificationData st))); [eexists; reflexivity|].
  destruct send as [r|]; [|eexists; reflexivity].
  destruct (truthy (ok r) && is_one (status r)); eexists; reflexivity.
Qed.

(** X16.  Once the workflow context is [send_notification], it stays: the
    notification agent clears the notification data and ends the turn, but
    its fragment leaves the context alone, so after the merge the state is
    still in [send_notification], and the supervisor's next turn goes to the
    notification agent again, whatever the user wrote and whatever the
    delivery did. *)
Theorem notification_context_sticks (h : Host) (now now' now'' : Z)
    (minConfidence : float) (oracles : SupervisorOracles) (st : State)
    (send : Outcome PushResult) :
  workflowContext st = Val "send_notification" ->
  exists st',
    merge now' st (notificationAgent now st send) = Returns st'
    /\ notificationData st' = JNull
    /\ workflowContext st' = Val "send_notification"
    /\ exists f,
        supervisor h now'' minConfidence oracles st' = Returns f
        /\ next f = Val "notification_agent".
Proof.
  intros Hctx. destruct (notificationAgent_reply now st send) as [text ->].
  unfold merge. cbn [messages dealData mapM id mbind option_bind mret option_ret].
  change (dealData_reducer (dealData st) JUndefined) with (Returns (dealData st)).
  eexists. split; [reflexivity|]. cbn [notificationData workflowContext].
  split; [reflexivity|]. split; [exact Hctx|].
  match goal with
  | |- context [supervisor h now'' minConfidence oracles ?s] =>
      destruct (supervisor_notification_handoff h now'' minConfidence oracles s Hctx)
        as (f & Hf & Hn & _)
  end.
  exists f. split; [exact Hf | exact Hn].
Qed.

Lemma notification_context_sticks_witness :
  exists st',
    merge 1 notifyState (notificationAgent 0 notifyState Throws) = Returns st'
    /\ notificationData st' = JNull
    /\ workflowContext st' = Val "send_notification"
    /\ exists f,
        supervisor refHost 2 0.7 noOracles st' = Returns f
        /\ next f = Val "notification_agent".
Proof.
  apply (notification_context_sticks refHost 0 1 2 0.7 noOracles notifyState Throws).
  reflexivity.
Defined.

(** ** Substrings and tokens *)

Lemma append_cons (c : ascii) (a b : string) :
  String c a +:+ b = String c (a +:+ b).
Proof. reflexivity. Qed.

Lemma string_append_assoc (a b c : string) : (a +:+ b) +:+ c = a +:+ (b +:+ c).
Proof.
  induction a as [|x a IH]; [reflexivity|].
  rewrite !append_cons, IH. reflexivity.
Qed.

Lemma string_append_nil_r (a : string) : a +:+ "" = a.
Proof.
  induction a as [|x a IH]; [reflexivity|]. rewrite append_cons, IH. reflexivity.
Qed.

Lemma string_prefix_cons (a b : ascii) (s t : string) :
  String.prefix (String a s) (String b t) = true ->
  a = b /\ String.prefix s t = true.
Proof.
  simpl. destruct (ascii_dec a b) as [->|]; [auto | discriminate].
Qed.

Lemma string_prefix_app (p b : string) : String.prefix p (p +:+ b) = true.
Proof.
  induction p as [|c p IH]; [destruct b; reflexivity|].
  rewrite append_cons. simpl. destruct (ascii_dec c c); [exact IH | contradiction].
Qed.

Lemma string_prefix_split (p s : string) :
  String.prefix p s = true -> exists b, s = p +:+ b.
Proof.
  revert s. induction p as [|c p IH]; intros s H; [exists s; reflexivity|].
  destruct s as [|d s]; [discriminate H|].
  apply string_prefix_cons in H. destruct H as [-> H].
  destruct (IH s H) as [b ->]. exists b. reflexivity.
Qed.

Lemma includes_cons (c : ascii) (s p : string) :
  includes (String c s) p = String.prefix p (String c s) || includes s p.
Proof. reflexivity. Qed.

Lemma includes_nil (p : string) : includes "" p = String.prefix p "" || false.
Proof. reflexivity. Qed.

(** [s.includes(p)] holds exactly when [p] occurs in [s]. *)
Lemma includes_occurs (s p : string) :
  includes s p = true <-> exists a b, s = a +:+ p +:+ b.
Proof.
  split.
  - induction s as [|c s IH]; intros H.
    + rewrite includes_nil, orb_false_r in H.
      destruct (string_prefix_split _ _ H) as [b Hb]. exists "", b. exact Hb.
    + rewrite includes_cons in H. apply orb_true_iff in H. destruct H as [H|H].
      * destruct (string_prefix_split _ _ H) as [b Hb]. exists "", b. exact Hb.
      * destruct (IH H) as (a & b & ->). exists (String c a), b. reflexivity.
  - intros (a & b & ->). induction a as [|c a IH].
    + change ("" +:+ p +:+ b) with (p +:+ b).
      destruct (p +:+ b) eqn:E.
      * rewrite includes_nil, <- E, string_prefix_app. reflexivity.
      * rewrite includes_cons, <- E, string_prefix_app. reflexivity.
    + rewrite append_cons, includes_cons, IH. apply orb_true_r.
Qed.

Lemma includes_inside (a s b p : string) :
  includes s p = true -> includes (a +:+ s +:+ b) p = true.
Proof.
  intros H. apply includes_occurs in H. destruct H as (x & y & ->).
  apply includes_occurs. exists (a +:+ x), (y +:+ b).
  rewrite !string_append_assoc. reflexivity.
Qed.

Lemma list_of_append (a b : string) :
  list_ascii_of_string (a +:+ b) = list_ascii_of_string a ++ list_ascii_of_string b.
Proof.
  induction a as [|c a IH]; [reflexivity|].
  rewrite append_cons. simpl. rewrite IH. reflexivity.
Qed.

Lemma string_of_app (x y : list ascii) :
  string_of_list_ascii (x ++ y) = string_of_list_ascii x +:+ string_of_list_ascii y.
Proof.
  induction x as [|c x IH]; [reflexivity|].
  simpl. rewrite IH. reflexivity.
Qed.

(** The token being read when the splitting starts is the first one it
    yields. *)
Lemma first_token (b cur : list ascii) :
  exists more rest,
    split_ws_go b cur false = string_of_list_ascii (rev cur ++ more) :: rest.
Proof.
  revert cur. induction b as [|c b IH]; intros cur; simpl.
  - exists [], []. rewrite app_nil_r. reflexivity.
  - destruct (is_ws c).
    + exists [], (split_ws_go b [] true). rewrite app_nil_r. reflexivity.
    + destruct (IH (c :: cur)) as (more & rest & ->).
      exists (c :: more), rest. simpl. rewrite <- app_assoc. reflexivity.
Qed.

Lemma solid_token (p b cur : list ascii) (skipping : bool) :
  solid p -> p <> [] ->
  exists more rest,
    split_ws_go (p ++ b) cur skipping
    = string_of_list_ascii (rev cur ++ p ++ more) :: rest.
Proof.
  intros Hp. revert cur skipping.
  induction Hp as [|c p Hc Hp IH]; intros cur sk Hne; [contradiction|].
  simpl. rewrite Hc. destruct p as [|d p].
  - cbn [app]. destruct (first_token b (c :: cur)) as (more & rest & ->).
    exists more, rest. simpl. rewrite <- app_assoc. reflexivity.
  - destruct (IH (c :: cur) false ltac:(discriminate)) as (more & rest & ->).
    exists more, rest. simpl. rewrite <- !app_assoc. reflexivity.
Qed.

(** A run of characters without white space lies within one token. *)
Lemma token_around (a p b cur : list ascii) (skipping : bool) :
  solid p -> p <> [] ->
  exists x y,
    In (string_of_list_ascii (x ++ p ++ y)) (split_ws_go (a ++ p ++ b) cur skipping).
Proof.
  intros Hp Hne. revert cur skipping. induction a as [|c a IH]; intros cur sk.
  - cbn [app]. destruct (solid_token p b cur sk Hp Hne) as (more & rest & ->).
    exists (rev cur), more. left. reflexivity.
  - simpl. destruct (is_ws c).
    + destruct sk.
      * apply IH.
      * destruct (IH [] true) as (x & y & H). exists x, y. right. exact H.
    + apply IH.
Qed.

Lemma drop_ws_keeps (a p b : list ascii) :
  solid p -> p <> [] -> exists a', drop_ws (a ++ p ++ b) = a' ++ p ++ b.
Proof.
  intros Hp Hne. induction a as [|c a IH].
  - exists []. destruct Hp as [|d p Hd Hp]; [contradiction|].
    cbn [app drop_ws]. rewrite Hd. reflexivity.
  - simpl. destruct (is_ws c); [exact IH|]. exists (c :: a). reflexivity.
Qed.

Lemma trim_keeps (a p b : list ascii) :
  solid p -> p <> [] ->
  exists a' b',
    list_ascii_of_string (trim (string_of_list_ascii (a ++ p ++ b))) = a' ++ p ++ b'.
Proof.
  intros Hp Hne. unfold trim.
  rewrite !list_ascii_of_string_of_list_ascii.
  destruct (drop_ws_keeps a p b Hp Hne) as [a' ->].
  rewrite !rev_app_distr, <- app_assoc.
  destruct (drop_ws_keeps (rev b) (rev p) (rev a')) as [b' ->].
  { apply Forall_rev, Hp. }
  { intros H. apply Hne. rewrite <- (rev_involutive p), H. reflexivity. }
  exists a', (rev b'). rewrite !rev_app_distr, !rev_involutive, <- app_assoc.
  reflexivity.
Qed.

(** A pattern without white space that occurs in a text occurs in one of
    the tokens of the trimmed text. *)
Lemma occurs_in_token (s p : string) :
  solid (list_ascii_of_string p) -> p <> "" ->
  includes s p = true ->
  exists word, In word (split_ws (trim s)) /\ includes word p = true.
Proof.
  intros Hp Hne H. apply includes_occurs in H. destruct H as (a & b & ->).
  assert (Hne' : list_ascii_of_string p <> []).
  { destruct p; [contradiction | discriminate]. }
  destruct (trim_keeps (list_ascii_of_string a) (list_ascii_of_string p)
              (list_ascii_of_string b) Hp Hne') as (a' & b' & Ht).
  rewrite <- !list_of_append, string_of_list_ascii_of_string in Ht.
  unfold split_ws. rewrite Ht.
  destruct (token_around a' (list_ascii_of_string p) b' [] false Hp Hne')
    as (x & y & Hin).
  eexists. split; [exact Hin|].
  rewrite !string_of_app, string_of_list_ascii_of_string.
  apply includes_occurs. eexists. eexists. reflexivity.
Qed.

(** ** Lower case and white space *)

Lemma lower_ascii_idem (c : ascii) : lower_ascii (lower_ascii c) = lower_ascii c.
Proof. destruct c as [[] [] [] [] [] [] [] []]; reflexivity. Qed.

Lemma lower_ascii_ws (c : ascii) : is_ws (lower_ascii c) = is_ws c.
Proof. destruct c as [[] [] [] [] [] [] [] []]; reflexivity. Qed.

Lemma toLowerCase_idem (s : string) : toLowerCase (toLowerCase s) = toLowerCase s.
Proof.
  induction s as [|c s IH]; [reflexivity|].
  simpl. rewrite lower_ascii_idem, IH. reflexivity.
Qed.

Lemma lower_ws (c : ascii) : is_ws c = true -> lower_ascii c = c.
Proof. destruct c as [[] [] [] [] [] [] [] []]; (reflexivity || discriminate). Qed.

Lemma toLowerCase_blank (text : string) : blank text -> toLowerCase text = text.
Proof.
  unfold blank. induction text as [|c s IH]; [reflexivity|].
  simpl. intros H. inversion H as [|? ? Hc Hs]; subst.
  rewrite (lower_ws c Hc), (IH Hs). reflexivity.
Qed.

Lemma drop_ws_blank (l : list ascii) :
  Forall (fun c => is_ws c = true) l -> drop_ws l = [].
Proof. induction 1 as [|c l Hc _ IH]; simpl; [reflexivity | rewrite Hc; exact IH]. Qed.

Lemma trim_blank (text : string) : blank text -> trim text = "".
Proof. intros H. unfold trim. rewrite (drop_ws_blank _ H). reflexivity. Qed.

(** ** What counts as a confirmation *)

Lemma patterns_solid :
  Forall (fun p => solid (list_ascii_of_string p) /\ p <> "") affirmativePatterns.
Proof.
  unfold affirmativePatterns, solid.
  repeat (constructor; [split; [repeat constructor | discriminate]|]).
  constructor.
Qed.

(** X17.  The affirmative test of the supervisor is looser than a match of
    words: a message confirms as soon as its lower-cased text contains one
    of the twelve patterns anywhere, inside a word and after a "no" as well,
    and a message that is empty or white space only confirms too. *)
Theorem hasAffirmative_loose (text : string) :
  blank text
  \/ (exists pattern,
        In pattern affirmativePatterns
        /\ includes (toLowerCase text) pattern = true) ->
  hasAffirmative text = true.
Proof.
  intros [Hblank | (pattern & Hin & Hinc)]; apply hasAffirmative_spec.
  - exists "yes", "".
    rewrite (toLowerCase_blank _ Hblank), (trim_blank _ Hblank).
    split; [simpl; tauto|]. split; [left; reflexivity | right; reflexivity].
  - pose proof patterns_solid as Hs. rewrite List.Forall_forall in Hs.
    destruct (Hs pattern Hin) as [Hsolid Hne].
    destruct (occurs_in_token _ _ Hsolid Hne Hinc) as (word & Hw & Hi).
    exists pattern, word. auto.
Qed.

Lemma hasAffirmative_loose_witness : hasAffirmative "No, I am good" = true.
Proof.
  apply (hasAffirmative_loose "No, I am good"). right. exists "good".
  split; [simpl; tauto | vm_compute; reflexivity].
Defined.

(** ** Complex workflows *)

(** X18.  [detectComplexWorkflow] flags a message as complex only when it
    mentions a deal word (deal, promotion, discount, sale) together with an
    action word (add, cart, buy, purchase); the checkout flag is set only on
    a complex workflow; a workflow type is given exactly for the complex
    ones; and the result does not depend on the case of the letters. *)
Theorem detectComplexWorkflow_sound (messageContent : string) :
  (isComplex (detectComplexWorkflow messageContent) = true ->
     (mentions messageContent "deal" || mentions messageContent "promotion"
      || mentions messageContent "discount" || mentions messageContent "sale") = true
     /\ (mentions messageContent "add" || mentions messageContent "cart"
         || mentions messageContent "buy" || mentions messageContent "purchase") = true)
  /\ (includesCheckout (detectComplexWorkflow messageContent) = true ->
      isComplex (detectComplexWorkflow messageContent) = true)
  /\ (workflowType (detectComplexWorkflow messageContent) = None <->
      isComplex (detectComplexWorkflow messageContent) = false)
  /\ detectComplexWorkflow (toLowerCase messageContent)
     = detectComplexWorkflow messageContent.
Proof.
  unfold mentions.
  split; [|split; [|split]].
  - unfold detectComplexWorkflow. cbv zeta.
    set (has := includes (toLowerCase messageContent)).
    destruct ((has "check" || has "find" || has "look")
              && (has "deal" || has "promotion" || has "discount" || has "sale")
              && (has "add" && has "cart")) eqn:E1.
    { intros _. apply andb_true_iff in E1. destruct E1 as [E1 E2].
      apply andb_true_iff in E1. destruct E1 as [_ E1].
      apply andb_true_iff in E2. destruct E2 as [E2 _].
      split; [exact E1|]. rewrite E2. reflexivity. }
    destruct (has "if"
              && (has "deal" || has "discount" || has "sale" || has "promotion")
              && (has "add" || has "buy" || has "purchase")) eqn:E2.
    { intros _. apply andb_true_iff in E2. destruct E2 as [E2 E3].
      apply andb_true_iff in E2. destruct E2 as [_ E2].
      split.
      - destruct (has "deal"), (has "promotion"), (has "discount"), (has "sale");
          try reflexivity; discriminate E2.
      - destruct (has "add"), (has "cart"), (has "buy"), (has "purchase");
          try reflexivity; discriminate E3. }
    destruct (has " and "
              && ((has "deal" || has "promotion" || has "discount")
                  && (has "add" || has "cart"))) eqn:E3.
    { intros _. apply andb_true_iff in E3. destruct E3 as [_ E3].
      apply andb_true_iff in E3. destruct E3 as [E3 E4].
      split.
      - rewrite E3. reflexivity.
      - destruct (has "add"), (has "cart"); try reflexivity; discriminate E4. }
    discriminate.
  - unfold detectComplexWorkflow. cbv zeta. case_tests; auto.
  - unfold detectComplexWorkflow. cbv zeta.
    repeat match goal with
           | |- context [if ?b then {| isComplex := _; workflowType := _;
                                       reason := _; includesCheckout := _ |}
                         else _] => destruct b
           end; cbn [workflowType isComplex]; split; congruence.
  - unfold detectComplexWorkflow. rewrite toLowerCase_idem. reflexivity.
Qed.

(** ** A failed checkout *)




(** ** JSON inside a reply *)

Lemma from_first_open_skips (pre rest : list ascii) :
  Forall (fun d => d <> brace_open) pre ->
  from_first_open (pre ++ brace_open :: rest) = Some (brace_open :: rest).
Proof.
  induction 1 as [|c pre Hc _ IH]; [reflexivity|].
  simpl. destruct (Ascii.eqb_spec c brace_open); [contradiction | exact IH].
Qed.

Lemma upto_last_close_none (post : list ascii) :
  Forall (fun d => d <> brace_close) post -> upto_last_close post = None.
Proof.
  induction 1 as [|c post Hc _ IH]; [reflexivity|].
  simpl. rewrite IH.
  destruct (Ascii.eqb_spec c brace_close); [contradiction | reflexivity].
Qed.

Lemma upto_last_close_reaches (mid post : list ascii) :
  Forall (fun d => d <> brace_close) post ->
  upto_last_close (mid ++ brace_close :: post) = Some (mid ++ [brace_close]).
Proof.
  intros Hpost. induction mid as [|c mid IH].
  - simpl. rewrite (upto_last_close_none post Hpost). reflexivity.
  - simpl. rewrite IH. reflexivity.
Qed.

(** The block the pattern [/\{[\s\S]*\}/] matches in a text with one pair of
    outer braces. *)
Lemma braceBlock_embedded (pre mid post : string) :
  lacks brace_open pre -> lacks brace_close post ->
  braceBlock (pre +:+ "{" +:+ mid +:+ "}" +:+ post) = Some ("{" +:+ mid +:+ "}").
Proof.
  unfold lacks, braceBlock. intros Hpre Hpost.
  rewrite !list_of_append.
  change (list_ascii_of_string "{") with [brace_open].
  change (list_ascii_of_string "}") with [brace_close].
  cbn [app]. rewrite (from_first_open_skips _ _ Hpre).
  rewrite (upto_last_close_reaches _ _ Hpost).
  f_equal. cbn [string_of_list_ascii]. rewrite string_of_app.
  rewrite string_of_list_ascii_of_string. reflexivity.
Qed.

(** X20.  [safeParseJson] reads a JSON object out of the prose around it:
    for a text that is not JSON as a whole, with no opening brace before the
    object and no closing brace after it, the result is what the parser
    makes of the object alone, and [null] when the parser rejects that
    too. *)
Theorem safeParseJson_embedded (h : Host) (pre mid post : string) :
  lacks brace_open pre -> lacks brace_close post ->
  JSON_parse h (pre +:+ "{" +:+ mid +:+ "}" +:+ post) = None ->
  safeParseJson h (pre +:+ "{" +:+ mid +:+ "}" +:+ post)
  = default JNull (JSON_parse h ("{" +:+ mid +:+ "}")).
Proof.
  intros Hpre Hpost Hparse. unfold safeParseJson.
  rewrite Hparse, (braceBlock_embedded pre mid post Hpre Hpost).
  destruct (String.eqb_spec (pre +:+ "{" +:+ mid +:+ "}" +:+ post) "") as [E|_].
  - exfalso. apply (f_equal list_ascii_of_string) in E.
    rewrite list_of_append in E. destruct (list_ascii_of_string pre); discriminate E.
  - destruct (JSON_parse h ("{" +:+ mid +:+ "}")); reflexivity.
Qed.

Lemma safeParseJson_embedded_witness :
  safeParseJson refHost
    ("Done: " +:+ "{" +:+ (quoted "checkoutStatus" +:+ ":" +:+ quoted "success")
     +:+ "}" +:+ " Thanks!")
  = default JNull
      (JSON_parse refHost
         ("{" +:+ (quoted "checkoutStatus" +:+ ":" +:+ quoted "success") +:+ "}")).
Proof.
  apply (safeParseJson_embedded refHost "Done: "
           (quoted "checkoutStatus" +:+ ":" +:+ quoted "success") " Thanks!").
  - unfold lacks. vm_compute. repeat constructor; discriminate.
  - unfold lacks. vm_compute. repeat constructor; discriminate.
  - vm_compute. reflexivity.
Defined.

(** ** The edge out of the planner *)

(** X21.  [routePlanner] ends the turn or goes to the supervisor, for every
    state, delegation and tool call: the [tools] entry of the edge's path
    map is never taken, and no specialist is reached from the planner. *)
Theorem routePlanner_never_tools (delegation : JValue)
    (toolCalls : option (list string)) (st : State) :
  (fst (routePlanner delegation toolCalls st) = END
   \/ fst (routePlanner delegation toolCalls st) = "supervisor")
  /\ In "tools" plannerPathMap
  /\ fst (routePlanner delegation toolCalls st) <> "tools".
Proof.
  assert (H : fst (routePlanner delegation toolCalls st) = END
              \/ fst (routePlanner delegation toolCalls st) = "supervisor").
  { unfold routePlanner. destruct (lastOf (messages st)) as [m|]; [|left; reflexivity].
    cbv zeta. destruct (truthy _).
    - destruct (is_str "direct_response" _); [left; reflexivity|].
      destruct (is_str "delegate" _); right; reflexivity.
    - destruct toolCalls as [[|name rest]|]; try (left; reflexivity).
      destruct (String.eqb name "direct_response"); [left; reflexivity|].
      destruct (String.eqb name "delegate_to_agent"); [right; reflexivity|].
      destruct (String.eqb name "generate_plan"); [right | left]; reflexivity. }
  split; [exact H|]. split; [simpl; tauto|].
  destruct H as [-> | ->]; discriminate.
Qed.

(** The messages the planner returns for a state of annotated messages:
    its own message, with the plan attached. *)
Lemma planner_annotated_messages (h : Host) (now : Z) (l : list AnnotatedMessage)
    (st : State) (oracle : OracleOutcome) (f : Fragment) :
  planner h now None (AnnotatedMessages l) st oracle = Returns f ->
  exists plan,
    messages f = [Some (plannerMessage h now plan)]
    /\ (prop plan "action" = JStr "delegate"
        \/ prop plan "action" = JStr "direct_response").
Proof.
  unfold planner. cbn [plannerMessages].
  destruct (List.filter has_content (slice_last 6 l)) as [|m0 shown].
  { intros [= <-]. eexists. split; [reflexivity|]. left. read_prop. reflexivity. }
  destruct oracle as [response|errorMessage].
  - cbv zeta.
    destruct (assignDefaults h (parsedPlan h (plannerText h response))) as [plan|];
      [|discriminate].
    destruct (validateAndNormalizePlan h plan) as [[valid final]|] eqn:Hv;
      [|discriminate].
    intros [= <-]. exists final. split; [reflexivity|].
    apply (normal_plan_action h plan), (validate_shapes h plan valid), Hv.
  - intros [= <-]. eexists. split; [reflexivity|]. left. read_prop. reflexivity.
Qed.

Lemma routePlanner_on_plan (delegation : JValue) (toolCalls : option (list string))
    (st : State) (m : AnnotatedMessage) :
  lastOf (messages st) = Some m ->
  (prop (planningRecommendation m) "action" = JStr "delegate"
   \/ prop (planningRecommendation m) "action" = JStr "direct_response") ->
  fst (routePlanner delegation toolCalls st)
  = if is_str "direct_response" (prop (planningRecommendation m) "action")
    then END else "supervisor".
Proof.
  intros Hlast Haction. unfold routePlanner. rewrite Hlast. cbv zeta.
  assert (Ht : truthy (planningRecommendation m) = true).
  { destruct (planningRecommendation m); destruct Haction as [H|H];
      try discriminate H; reflexivity. }
  assert (Hor : js_or (planningRecommendation m) delegation
                = planningRecommendation m).
  { unfold js_or. rewrite Ht. reflexivity. }
  rewrite Hor, Ht.
  destruct Haction as [-> | ->]; reflexivity.
Qed.

(** X22.  A first turn: when the state holds permanent messages only and
    the planner's fragment has been merged, the last message of the state is
    the planner's message, and [routePlanner] follows the plan attached to
    it: it ends the turn for a [direct_response] and goes to the supervisor
    otherwise.  (The supervisor then reads the planner's message, the plan
    as JSON, as "the last message".) *)
Theorem planner_then_route (h : Host) (now now' : Z) (st st' : State)
    (oracle : OracleOutcome) (f : Fragment) (delegation : JValue)
    (toolCalls : option (list string)) :
  Forall (fun m => isPermanent m = true) (messages st) ->
  planner h now None (AnnotatedMessages (messages st)) st oracle = Returns f ->
  merge now' st f = Returns st' ->
  exists m,
    lastOf (messages st') = Some m
    /\ agent m = Some "planner"
    /\ fst (routePlanner delegation toolCalls st')
       = if is_str "direct_response" (prop (planningRecommendation m) "action")
         then END else "supervisor".
Proof.
  intros Hperm Hp Hm.
  destruct (planner_annotated_messages _ _ _ _ _ _ Hp) as (plan & Hmsgs & Haction).
  unfold merge in Hm. rewrite Hmsgs in Hm.
  cbn [mapM id mbind option_bind mret option_ret] in Hm.
  destruct (dealData_reducer _ _); [|discriminate Hm]. injection Hm as <-.
  assert (Hlast : lastOf (messages_reducer (messages st) [plannerMessage h now plan])
                  = Some (plannerMessage h now plan)).
  { unfold messages_reducer, lastOf. cbv zeta.
    rewrite !List.filter_app.
    cbn [List.filter isEphemeral isPermanent plannerMessage progress].
    rewrite (filter_all _ _ Hperm), (filter_none _ _ (permanent_not_ephemeral _ Hperm)).
    cbn [app]. unfold slice_last at 2. cbn [length Nat.sub drop]. rewrite app_nil_r.
    rewrite last_slice_last by lia. apply last_snoc. }
  exists (plannerMessage h now plan). split; [exact Hlast|]. split; [reflexivity|].
  apply routePlanner_on_plan; [exact Hlast | exact Haction].
Qed.

Lemma planner_then_route_witness :
  exists m,
    lastOf (messages plannedState) = Some m
    /\ agent m = Some "planner"
    /\ fst (routePlanner JUndefined None plannedState)
       = if is_str "direct_response" (prop (planningRecommendation m) "action")
         then END else "supervisor".
Proof.
  apply (planner_then_route refHost 0 1 (applesState Undefined JUndefined "find apples")
           plannedState targetedReply
           (returned (catalogNode 0 emptyState (agentSays "none"))
              (planner refHost 0 None
                 (AnnotatedMessages
                    (messages (applesState Undefined JUndefined "find apples")))
                 (applesState Undefined JUndefined "find apples") targetedReply))).
  - vm_compute. repeat constructor.
  - vm_compute. reflexivity.
  - vm_compute. reflexivity.
Defined.

(** X23.  A later turn: when the state still holds an ephemeral progress
    message (the supervisor leaves up to five), then after the planner's
    fragment has been merged the last message of the state is that progress
    message, not the planner's; it carries no plan and no tool call, and
    [routePlanner] ends the turn, whatever the planner recommended. *)
Theorem routePlanner_ends_on_progress (h : Host) (now now' : Z) (st st' : State)
    (oracle : OracleOutcome) (f : Fragment) (p : AnnotatedMessage) :
  last (List.filter isEphemeral (messages st)) = Some p ->
  planningRecommendation p = JUndefined ->
  planner h now None (AnnotatedMessages (messages st)) st oracle = Returns f ->
  merge now' st f = Returns st' ->
  lastOf (messages st') = Some p
  /\ fst (routePlanner JUndefined None st') = END
  /\ fst (routePlanner JUndefined (Some []) st') = END.
Proof.
  intros Hp Hrec Hplan Hm.
  destruct (planner_annotated_messages _ _ _ _ _ _ Hplan) as (plan & Hmsgs & _).
  unfold merge in Hm. rewrite Hmsgs in Hm.
  cbn [mapM id mbind option_bind mret option_ret] in Hm.
  destruct (dealData_reducer _ _); [|discriminate Hm]. injection Hm as <-.
  cbn [messages].
  assert (Hlast : lastOf (messages_reducer (messages st) [plannerMessage h now plan])
                  = Some p).
  { apply reducer_last_ephemeral. rewrite List.filter_app.
    cbn [List.filter isEphemeral plannerMessage progress]. rewrite app_nil_r.
    exact Hp. }
  split; [exact Hlast|].
  unfold routePlanner. cbn [messages]. rewrite Hlast. cbv zeta. rewrite Hrec.
  split; reflexivity.
Qed.

Lemma routePlanner_ends_on_progress_witness :
  lastOf (messages replannedState)
  = Some (createProgressMessage 0 "Searching our catalog..." "supervisor")
  /\ fst (routePlanner JUndefined None replannedState) = END
  /\ fst (routePlanner JUndefined (Some []) replannedState) = END.
Proof.
  apply (routePlanner_ends_on_progress refHost 5 6 secondTurn replannedState
           targetedReply
           (returned (catalogNode 0 emptyState (agentSays "none"))
              (planner refHost 5 None (AnnotatedMessages (messages secondTurn))
                 secondTurn targetedReply))).
  - vm_compute. reflexivity.
  - reflexivity.
  - vm_compute. reflexivity.
  - vm_compute. reflexivity.
Defined.

(** ** The context sent to a specialist *)

Lemma same_content_eq (a b : option string) : same_content a b = true <-> a = b.
Proof.
  destruct a as [s|], b as [t|]; simpl; try (split; congruence).
  rewrite String.eqb_eq. split; congruence.
Qed.

Lemma seen_spec (c : option string) (seen : list (option string)) :
  existsb (same_content c) seen = true <-> In c seen.
Proof.
  rewrite existsb_exists. split.
  - intros (d & Hd & He). apply same_content_eq in He. subst. exact Hd.
  - intros H. exists c. split; [exact H | apply same_content_eq; reflexivity].
Qed.

Lemma dedupeNewest_sublist (h : Host) (l : list AnnotatedMessage)
    (seen : list (option string)) :
  dedupeNewest h l seen `sublist_of` l.
Proof.
  revert seen. induction l as [|m l IH]; intros seen; simpl; [constructor|].
  destruct (existsb _ seen); [apply sublist_cons | apply sublist_skip]; apply IH.
Qed.

(** The messages the loop keeps have contents that differ from one another
    and from those seen before. *)
Lemma dedupeNewest_distinct (h : Host) (l : list AnnotatedMessage)
    (seen : list (option string)) :
  List.NoDup (contextContent h <$> dedupeNewest h l seen)
  /\ forall m, In m (dedupeNewest h l seen) -> ~ In (contextContent h m) seen.
Proof.
  revert seen. induction l as [|m l IH]; intros seen; simpl.
  - split; [constructor | intros m []].
  - destruct (existsb (same_content (contextContent h m)) seen) eqn:E; [apply IH|].
    destruct (IH (contextContent h m :: seen)) as [Hnd Hout].
    assert (Hm : ~ In (contextContent h m) seen).
    { intros Hin. apply seen_spec in Hin. congruence. }
    split.
    + rewrite fmap_cons. constructor; [|exact Hnd].
      intros Hin. apply in_map_iff in Hin. destruct Hin as (m' & He & Hm').
      apply (Hout m' Hm'). left. symmetry. exact He.
    + intros m' [<- | Hm']; [exact Hm|].
      intros Hin. apply (Hout m' Hm'). right. exact Hin.
Qed.

(** The most recent message is always kept. *)
Lemma dedupeNewest_first (h : Host) (l : list AnnotatedMessage) (m : AnnotatedMessage) :
  last l = Some m -> last (rev (dedupeNewest h (rev l) [])) = Some m.
Proof.
  intros H. apply last_Some in H. destruct H as [l' ->].
  rewrite rev_app_distr. cbn [rev app dedupeNewest existsb].
  cbn [rev]. apply last_snoc.
Qed.

Lemma sublist_rev {A} (l k : list A) : l `sublist_of` k -> rev l `sublist_of` rev k.
Proof.
  induction 1 as [|x l k _ IH|x l k _ IH]; simpl.
  - constructor.
  - apply sublist_app; [exact IH | reflexivity].
  - apply sublist_inserts_r. exact IH.
Qed.

Lemma sublist_all {A} (P : A -> Prop) (l k : list A) :
  l `sublist_of` k -> Forall P k -> Forall P l.
Proof.
  intros Hs Hk. rewrite Forall_forall in *. intros x Hx.
  apply Hk. eapply elem_of_sublist; eassumption.
Qed.

Lemma fmap_rev {A B} (f : A -> B) (l : list A) : f <$> rev l = rev (f <$> l).
Proof.
  induction l as [|a l IH]; [reflexivity|].
  simpl. rewrite fmap_app, IH. reflexivity.
Qed.

Lemma slice_from_end_sublist {A} (n : nat) (l : list A) :
  slice_from_end n l `sublist_of` l.
Proof. destruct n; [reflexivity | apply slice_last_sublist]. Qed.

Lemma slice_from_end_last {A} (n : nat) (l : list A) :
  last (slice_from_end n l) = last l.
Proof. destruct n; [reflexivity | apply last_slice_last; lia]. Qed.

Lemma contextEntries_length (h : Host) (annotatedMessages : list AnnotatedMessage)
    (targetAgent : string) (maxEntries : nat) :
  0 < maxEntries ->
  length (contextEntries h annotatedMessages targetAgent maxEntries) <= maxEntries.
Proof.
  intros Hn. unfold contextEntries. cbv zeta.
  destruct maxEntries; [lia|]. apply slice_last_length.
Qed.

(** X24.  The entries [buildAgentContextMessage] shows a specialist: they
    are messages of the conversation in their order; each is of the user, of
    the system, or an assistant message of that very agent (no other agent's
    reply leaks in); no two have the same content; there are at most
    [maxEntries] of them; and the most recent relevant message is always the
    last of them. *)
Theorem contextEntries_spec (h : Host) (annotatedMessages : list AnnotatedMessage)
    (targetAgent : string) (maxEntries : nat) :
  contextEntries h annotatedMessages targetAgent maxEntries
    `sublist_of` annotatedMessages
  /\ Forall (fun m => relevantTo targetAgent m = true)
       (contextEntries h annotatedMessages targetAgent maxEntries)
  /\ NoDup (contextContent h
              <$> contextEntries h annotatedMessages targetAgent maxEntries)
  /\ (0 < maxEntries ->
      length (contextEntries h annotatedMessages targetAgent maxEntries)
      <= maxEntries)
  /\ last (contextEntries h annotatedMessages targetAgent maxEntries)
     = last (List.filter (relevantTo targetAgent) annotatedMessages).
Proof.
  split; [|split; [|split; [|split]]];
    [| | |apply contextEntries_length|]; unfold contextEntries; cbv zeta;
    set (filtered := List.filter (relevantTo targetAgent) annotatedMessages);
    assert (Hsub : rev (dedupeNewest h (rev filtered) []) `sublist_of` filtered)
      by (rewrite <- (rev_involutive filtered) at 2;
          apply sublist_rev, dedupeNewest_sublist);
    assert (Hslice := slice_from_end_sublist maxEntries
                        (rev (dedupeNewest h (rev filtered) []))).
  - etransitivity; [exact Hslice|]. etransitivity; [exact Hsub|].
    apply filter_sublist.
  - eapply sublist_all; [etransitivity; [exact Hslice | exact Hsub]|].
    apply filter_satisfies.
  - eapply sublist_NoDup; [|apply (fmap_sublist (contextContent h) _ _ Hslice)].
    rewrite fmap_rev. apply NoDup_ListNoDup, NoDup_rev.
    apply dedupeNewest_distinct.
  - rewrite slice_from_end_last.
    destruct (last filtered) as [m|] eqn:Hl; [apply dedupeNewest_first, Hl|].
    apply last_None in Hl. rewrite Hl. reflexivity.
Qed.

Lemma join_occurs (sep l : string) (lines : list string) :
  In l lines -> exists a b, join sep lines = a +:+ l +:+ b.
Proof.
  intros Hin. destruct lines as [|x r]; [destruct Hin|].
  unfold join. destruct Hin as [<- | Hin].
  - exists "". eexists. reflexivity.
  - assert (H : exists a b,
               fold_right (fun y acc => sep +:+ y +:+ acc) "" r = a +:+ l +:+ b).
    { induction r as [|y r IH]; [destruct Hin|]. cbn [fold_right].
      destruct Hin as [<- | Hin].
      - exists sep. eexists. reflexivity.
      - destruct (IH Hin) as (a & b & ->). exists (sep +:+ y +:+ a), b.
        rewrite !string_append_assoc. reflexivity. }
    destruct H as (a & b & ->). exists (x +:+ a), b.
    rewrite string_append_assoc. reflexivity.
Qed.

(** X25.  The context message always contains the current message of the
    user: in one of the lines of the conversation, or in the [USER_LATEST]
    line the function adds when none has it.  It has at most one line more
    than [maxEntries]. *)
Theorem context_mentions_current (h : Host) (annotatedMessages : list AnnotatedMessage)
    (targetAgent currentUserMessage : string) (maxEntries : nat) :
  includes
    (buildAgentContextMessage h annotatedMessages targetAgent currentUserMessage
       maxEntries)
    currentUserMessage = true
  /\ (0 < maxEntries ->
      length (contextLines h annotatedMessages targetAgent currentUserMessage
                maxEntries) <= S maxEntries).
Proof.
  split.
  - assert (H : exists l,
               In l (contextLines h annotatedMessages targetAgent currentUserMessage
                       maxEntries)
               /\ includes l currentUserMessage = true).
    { unfold contextLines. cbv zeta.
      destruct (existsb _ _) eqn:E.
      - apply existsb_exists in E. exact E.
      - exists ("USER_LATEST: " +:+ currentUserMessage). split.
        + apply in_or_app. right. left. reflexivity.
        + apply includes_occurs. exists "USER_LATEST: ", "".
          rewrite string_append_nil_r. reflexivity. }
    destruct H as (l & Hin & Hinc). unfold buildAgentContextMessage.
    destruct (join_occurs (newline +:+ newline) l _ Hin) as (a & b & ->).
    apply includes_inside. exact Hinc.
  - intros Hn. unfold contextLines. cbv zeta.
    pose proof (contextEntries_length h annotatedMessages targetAgent maxEntries Hn)
      as Hlen.
    destruct (existsb _ _); rewrite ?length_app, length_fmap; simpl; lia.
Qed.

(** ** Product names *)

Lemma toLowerCase_list (s : string) :
  list_ascii_of_string (toLowerCase s) = List.map lower_ascii (list_ascii_of_string s).
Proof. induction s as [|c s IH]; [reflexivity|]. simpl. rewrite IH. reflexivity. Qed.

Lemma toLowerCase_string (l : list ascii) :
  toLowerCase (string_of_list_ascii l) = string_of_list_ascii (List.map lower_ascii l).
Proof. induction l as [|c l IH]; [reflexivity|]. simpl. rewrite IH. reflexivity. Qed.

Lemma drop_ws_lower (l : list ascii) :
  drop_ws (List.map lower_ascii l) = List.map lower_ascii (drop_ws l).
Proof.
  induction l as [|c l IH]; [reflexivity|].
  simpl. rewrite lower_ascii_ws. destruct (is_ws c); [exact IH | reflexivity].
Qed.

(** Lower-casing and trimming commute. *)
Lemma toLowerCase_trim (s : string) : toLowerCase (trim s) = trim (toLowerCase s).
Proof.
  unfold trim. rewrite toLowerCase_string, toLowerCase_list.
  rewrite List.map_rev, <- drop_ws_lower, List.map_rev, <- drop_ws_lower.
  reflexivity.
Qed.

Lemma drop_ws_length (l : list ascii) : length (drop_ws l) <= length l.
Proof.
  induction l as [|c l IH]; [reflexivity|].
  simpl. destruct (is_ws c); simpl; lia.
Qed.

Lemma drop_ws_idem (l : list ascii) : drop_ws (drop_ws l) = drop_ws l.
Proof.
  induction l as [|c l IH]; [reflexivity|].
  simpl. destruct (is_ws c) eqn:E; [exact IH|]. simpl. rewrite E. reflexivity.
Qed.

Lemma drop_ws_suffix (l : list ascii) : exists w, l = w ++ drop_ws l.
Proof.
  induction l as [|c l [w IH]]; [exists []; reflexivity|].
  simpl. destruct (is_ws c); [|exists []; reflexivity].
  exists (c :: w). simpl. rewrite <- IH. reflexivity.
Qed.

(** Dropping the white space at the end leaves a list that starts as the
    given one did. *)
Lemma drop_end_keeps_start (l : list ascii) :
  drop_ws l = l -> drop_ws (rev (drop_ws (rev l))) = rev (drop_ws (rev l)).
Proof.
  intros Hl. destruct (drop_ws_suffix (rev l)) as [w Hw].
  assert (Hsplit : l = rev (drop_ws (rev l)) ++ rev w).
  { rewrite <- (rev_involutive l) at 1. rewrite Hw at 1. apply rev_app_distr. }
  destruct (rev (drop_ws (rev l))) as [|c t]; [reflexivity|].
  simpl. destruct (is_ws c) eqn:E; [|reflexivity].
  exfalso. rewrite Hsplit in Hl. simpl in Hl. rewrite E in Hl.
  pose proof (drop_ws_length (t ++ rev w)) as Hlen. rewrite Hl in Hlen.
  simpl in Hlen. lia.
Qed.

Lemma trim_idem (s : string) : trim (trim s) = trim s.
Proof.
  unfold trim. rewrite list_ascii_of_string_of_list_ascii.
  set (l := drop_ws (list_ascii_of_string s)).
  assert (Hl : drop_ws l = l) by apply drop_ws_idem.
  rewrite (drop_end_keeps_start l Hl), rev_involutive, drop_ws_idem. reflexivity.
Qed.

(** A name in lower case and trimmed is left as it is. *)
Lemma normal_name (s : string) :
  trim (toLowerCase (trim (toLowerCase s))) = trim (toLowerCase s).
Proof. rewrite toLowerCase_trim, toLowerCase_idem. apply trim_idem. Qed.

Lemma assoc_In (k v : string) (l : list (string * string)) :
  assoc k l = Some v -> In v (snd <$> l).
Proof.
  induction l as [|[k' v'] l IH]; [discriminate|].
  simpl. destruct (String.eqb k k'); [intros [= ->]; left; reflexivity|].
  intros H. right. exact (IH H).
Qed.

(** X26.  [normalizeProductName] is idempotent: a name it returns is
    returned unchanged when it is normalised again, and is in lower case and
    without white space around it. *)
Theorem normalizeProductName_idempotent (productName name : string) :
  normalizeProductName productName = Some name ->
  normalizeProductName name = Some name
  /\ toLowerCase name = name
  /\ trim name = name.
Proof.
  unfold normalizeProductName at 1. cbv zeta.
  destruct (str_in (trim (toLowerCase productName)) inheritedNames) eqn:Hi;
    [discriminate|].
  destruct (assoc (trim (toLowerCase productName)) pluralToSingular) as [v|] eqn:Ha.
  - intros [= <-]. apply assoc_In in Ha. simpl in Ha.
    repeat (destruct Ha as [<- | Ha]; [vm_compute; repeat split|]). destruct Ha.
  - intros [= <-]. split; [|split].
    + unfold normalizeProductName. cbv zeta. rewrite normal_name, Hi, Ha. reflexivity.
    + rewrite toLowerCase_trim, toLowerCase_idem. reflexivity.
    + apply trim_idem.
Qed.

Lemma normalizeProductName_idempotent_witness :
  normalizeProductName "apple" = Some "apple"
  /\ toLowerCase "apple" = "apple"
  /\ trim "apple" = "apple".
Proof.
  apply (normalizeProductName_idempotent "  Apples "). vm_compute. reflexivity.
Defined.

(** ** The planner cache *)

Lemma getPlannerCache_fresh (now now' ttl : Z) (key : string) (payload : Fragment)
    (store : PlannerStore) :
  (now' <= now + ttl)%Z ->
  fst (getPlannerCache now' key (setPlannerCache now key payload ttl store))
  = Some payload.
Proof.
  intros Hle. unfold getPlannerCache, setPlannerCache. cbn [plannerCache].
  rewrite lookup_insert_eq. cbn [expiresAt value].
  destruct (Z.ltb_spec (now + ttl) now'); [lia | reflexivity].
Qed.

Lemma getPlannerCache_stale (now now' ttl : Z) (key : string) (payload : Fragment)
    (store : PlannerStore) :
  (now + ttl < now')%Z ->
  fst (getPlannerCache now' key (setPlannerCache now key payload ttl store)) = None
  /\ plannerCache
       (snd (getPlannerCache now' key (setPlannerCache now key payload ttl store)))
     !! key = None
  /\ misses (snd (getPlannerCache now' key (setPlannerCache now key payload ttl store)))
     = S (misses store).
Proof.
  intros Hlt. unfold getPlannerCache, setPlannerCache. cbn [plannerCache].
  rewrite lookup_insert_eq. cbn [expiresAt value].
  destruct (Z.ltb_spec (now + ttl) now'); [|lia].
  cbn [fst snd plannerCache misses]. split; [reflexivity|].
  split; [apply lookup_delete_eq | reflexivity].
Qed.

(** A call that finds nothing in the cache and gets an answer of the model
    returns what the planner computes, and writes it to the cache. *)
Lemma plannerWithCache_miss (h : Host) (now : Z) (fingerprint : string)
    (store : PlannerStore) (msgs : PlannerMessages) (st : State)
    (oracle : OracleOutcome) (f : Fragment) :
  fst (getPlannerCache now (plannerKey st fingerprint) store) = None ->
  cachesResult now msgs oracle ->
  fst (plannerWithCache h now fingerprint store msgs st oracle) = Returns f ->
  planner h now None msgs st oracle = Returns f
  /\ snd (plannerWithCache h now fingerprint store msgs st oracle)
     = setPlannerCache now (plannerKey st fingerprint) f 30000
         (snd (getPlannerCache now (plannerKey st fingerprint) store)).
Proof.
  unfold plannerWithCache, cachesResult, oracleCalled. cbv zeta.
  destruct (getPlannerCache now (plannerKey st fingerprint) store) as [cached looked].
  cbn [fst snd]. intros -> [Hshown [response ->]].
  destruct (List.filter has_content (slice_last 6 (fst (plannerMessages now msgs))))
    as [|m0 shown]; [contradiction|].
  destruct (planner h now None msgs st (Replied response)) as [g|];
    cbn [fst snd]; intros H; [|discriminate H].
  injection H as ->. split; reflexivity.
Qed.

Lemma plannerWithCache_hit (h : Host) (now : Z) (fingerprint : string)
    (store : PlannerStore) (msgs : PlannerMessages) (st : State)
    (oracle : OracleOutcome) (f : Fragment) :
  fst (getPlannerCache now (plannerKey st fingerprint) store) = Some f ->
  fst (plannerWithCache h now fingerprint store msgs st oracle) = Returns f.
Proof.
  unfold plannerWithCache. cbv zeta.
  destruct (getPlannerCache now (plannerKey st fingerprint) store) as [cached looked].
  cbn [fst]. intros ->. unfold planner.
  destruct (plannerMessages now msgs). reflexivity.
Qed.

(** X27.  For 30 seconds after the planner has computed a plan, a call
    with the same cache key (the same user, conversation, context summary
    and contents of the last six messages) returns that very fragment: the
    planner's message with its old time stamp and the channels of the state
    of the first call, whatever the other channels of the state and the
    older messages are by then.  The language model is not consulted. *)
Theorem planner_cache_replay (h : Host) (now now' : Z)
    (fingerprint fingerprint' : string) (store : PlannerStore)
    (msgs msgs' : PlannerMessages) (st st' : State)
    (oracle oracle' : OracleOutcome) (f : Fragment) :
  fst (getPlannerCache now (plannerKey st fingerprint) store) = None ->
  cachesResult now msgs oracle ->
  fst (plannerWithCache h now fingerprint store msgs st oracle) = Returns f ->
  plannerKey st' fingerprint' = plannerKey st fingerprint ->
  (now' <= now + 30000)%Z ->
  fst (plannerWithCache h now' fingerprint'
         (snd (plannerWithCache h now fingerprint store msgs st oracle))
         msgs' st' oracle') = Returns f.
Proof.
  intros Hmiss Hcaches Hf Hkey Hle.
  destruct (plannerWithCache_miss _ _ _ _ _ _ _ _ Hmiss Hcaches Hf) as [_ ->].
  apply plannerWithCache_hit. rewrite Hkey. apply getPlannerCache_fresh. exact Hle.
Qed.

Lemma planner_cache_replay_witness :
  fst (plannerWithCache refHost 20000 "none:none:none:Find apples"
         (snd (plannerWithCache refHost 0 "none:none:none:Find apples" emptyStore
                 firstTurn emptyState targetedReply))
         firstTurn emptyState (Failed (JStr "timeout")))
  = Returns cachedPlan.
Proof.
  apply (planner_cache_replay refHost 0 20000 "none:none:none:Find apples"
           "none:none:none:Find apples" emptyStore firstTurn firstTurn
           emptyState emptyState targetedReply (Failed (JStr "timeout")) cachedPlan).
  - reflexivity.
  - split; [vm_compute; discriminate | eexists; reflexivity].
  - vm_compute. reflexivity.
  - reflexivity.
  - lia.
Defined.

(** X28.  Once the 30 seconds are over, the entry is gone: a call with the
    same key does the planner's work again and returns what the planner
    computes then. *)
Theorem planner_cache_expires (h : Host) (now now' : Z)
    (fingerprint fingerprint' : string) (store : PlannerStore)
    (msgs msgs' : PlannerMessages) (st st' : State)
    (oracle oracle' : OracleOutcome) (f : Fragment) :
  fst (getPlannerCache now (plannerKey st fingerprint) store) = None ->
  cachesResult now msgs oracle ->
  fst (plannerWithCache h now fingerprint store msgs st oracle) = Returns f ->
  plannerKey st' fingerprint' = plannerKey st fingerprint ->
  (now + 30000 < now')%Z ->
  fst (plannerWithCache h now' fingerprint'
         (snd (plannerWithCache h now fingerprint store msgs st oracle))
         msgs' st' oracle')
  = planner h now' None msgs' st' oracle'.
Proof.
  intros Hmiss Hcaches Hf Hkey Hlt.
  destruct (plannerWithCache_miss _ _ _ _ _ _ _ _ Hmiss Hcaches Hf) as [_ ->].
  unfold plannerWithCache at 1. cbv zeta. rewrite Hkey.
  destruct (getPlannerCache_stale now now' 30000 (plannerKey st fingerprint) f
              (snd (getPlannerCache now (plannerKey st fingerprint) store)) Hlt)
    as (Hnone & _ & _).
  destruct (getPlannerCache now' _ _) as [cached looked]. cbn [fst] in Hnone.
  subst cached.
  destruct (planner h now' None msgs' st' oracle') as [g|]; [|reflexivity].
  destruct oracle'; [|reflexivity].
  destruct (List.filter has_content _); reflexivity.
Qed.

Lemma planner_cache_expires_witness :
  fst (plannerWithCache refHost 30001 "none:none:none:Find apples"
         (snd (plannerWithCache refHost 0 "none:none:none:Find apples" emptyStore
                 firstTurn emptyState targetedReply))
         firstTurn emptyState (Failed (JStr "timeout")))
  = planner refHost 30001 None firstTurn emptyState (Failed (JStr "timeout")).
Proof.
  apply (planner_cache_expires refHost 0 30001 "none:none:none:Find apples"
           "none:none:none:Find apples" emptyStore firstTurn firstTurn
           emptyState emptyState targetedReply (Failed (JStr "timeout")) cachedPlan).
  - reflexivity.
  - split; [vm_compute; discriminate | eexists; reflexivity].
  - vm_compute. reflexivity.
  - reflexivity.
  - lia.
Defined.

(** What is left in the cache after an invalidation. *)
Lemma invalidate_lookup (prefix key : string) (store : PlannerStore) :
  plannerCache (invalidatePlannerCacheByPrefix prefix store) !! key
  = if String.prefix prefix key then None else plannerCache store !! key.
Proof.
  unfold invalidatePlannerCacheByPrefix. cbv zeta. cbn [plannerCache].
  destruct (String.prefix prefix key) eqn:Hp.
  - apply map_lookup_filter_None. right. intros e _. cbn. congruence.
  - destruct (plannerCache store !! key) as [e|] eqn:He.
    + apply map_lookup_filter_Some. split; [exact He | exact Hp].
    + apply map_lookup_filter_None. left. exact He.
Qed.

(** Two texts without a colon, each followed by a colon, one a prefix of
    the other: they are the same text. *)
Lemma prefix_colon (c u x y : string) :
  lacks ":" c -> lacks ":" u ->
  String.prefix (c +:+ String ":" x) (u +:+ String ":" y) = true -> c = u.
Proof.
  unfold lacks. revert u. induction c as [|a c IH]; intros u Hc Hu H.
  - destruct u as [|b u]; [reflexivity|]. exfalso.
    inversion Hu as [|? ? Hb _]; subst. apply Hb.
    change ("" +:+ String ":" x) with (String ":" x) in H.
    rewrite append_cons in H. apply string_prefix_cons in H. symmetry. apply H.
  - inversion Hc as [|? ? Ha Hc']; subst.
    rewrite append_cons in H. destruct u as [|b u].
    + exfalso. apply Ha.
      change ("" +:+ String ":" y) with (String ":" y) in H.
      apply string_prefix_cons in H. apply H.
    + inversion Hu as [|? ? Hb Hu']; subst.
      rewrite append_cons in H. apply string_prefix_cons in H. destruct H as [-> H].
      f_equal. apply (IH u Hc' Hu' H).
Qed.

(** The prefix the nodes invalidate starts with the conversation, the key
    of the planner with the user. *)
Lemma invalidation_misses_key (st : State) (user conv fingerprint : string) :
  userId st = Val user -> conversationId st = Val conv ->
  user <> "" -> conv <> "" -> lacks ":" user -> lacks ":" conv -> user <> conv ->
  String.prefix (invalidationPrefix st) (plannerKey st fingerprint) = false.
Proof.
  intros Hu Hc Hue Hce Hfu Hfc Hne.
  unfold invalidationPrefix, plannerKey. rewrite Hu, Hc.
  apply String.eqb_neq in Hue, Hce. rewrite Hue, Hce.
  destruct (String.prefix _ _) eqn:Hp; [|reflexivity].
  exfalso. apply Hne. symmetry.
  apply (prefix_colon conv user user (conv +:+ ":" +:+ fingerprint) Hfc Hfu).
  exact Hp.
Qed.

(** X29.  The invalidation the supervisor and the specialist nodes issue
    after they changed the state does not reach the plan cached for the same
    user and conversation: they invalidate the prefix
    [conversationId:userId], and the planner's keys start with
    [userId:conversationId:].  For a user id and a conversation id that
    differ and contain no colon, a planner call within the 30 seconds still
    returns the cached fragment after the invalidation. *)
Theorem invalidation_keeps_cached_plan (h : Host) (now now' : Z)
    (fingerprint : string) (store : PlannerStore) (msgs msgs' : PlannerMessages)
    (st : State) (oracle oracle' : OracleOutcome) (f : Fragment)
    (user conv : string) :
  userId st = Val user -> conversationId st = Val conv ->
  user <> "" -> conv <> "" -> lacks ":" user -> lacks ":" conv -> user <> conv ->
  fst (getPlannerCache now (plannerKey st fingerprint) store) = None ->
  cachesResult now msgs oracle ->
  fst (plannerWithCache h now fingerprint store msgs st oracle) = Returns f ->
  (now' <= now + 30000)%Z ->
  fst (plannerWithCache h now' fingerprint
         (invalidatePlannerCacheByPrefix (invalidationPrefix st)
            (snd (plannerWithCache h now fingerprint store msgs st oracle)))
         msgs' st oracle') = Returns f.
Proof.
  intros Hu Hc Hue Hce Hfu Hfc Hne Hmiss Hcaches Hf Hle.
  destruct (plannerWithCache_miss _ _ _ _ _ _ _ _ Hmiss Hcaches Hf) as [_ ->].
  apply plannerWithCache_hit. unfold getPlannerCache.
  rewrite invalidate_lookup,
    (invalidation_misses_key st user conv fingerprint Hu Hc Hue Hce Hfu Hfc Hne).
  unfold setPlannerCache. cbn [plannerCache]. rewrite lookup_insert_eq.
  cbn [expiresAt value].
  destruct (Z.ltb_spec (now + 30000) now'); [lia | reflexivity].
Qed.

Lemma invalidation_keeps_cached_plan_witness :
  fst (plannerWithCache refHost 100 pearsFingerprint
         (invalidatePlannerCacheByPrefix (invalidationPrefix secondTurn)
            (snd (plannerWithCache refHost 0 pearsFingerprint emptyStore
                    (AnnotatedMessages (messages secondTurn)) secondTurn
                    targetedReply)))
         (AnnotatedMessages (messages secondTurn)) secondTurn
         (Failed (JStr "timeout")))
  = Returns (returned (catalogNode 0 emptyState (agentSays "none"))
               (planner refHost 0 None (AnnotatedMessages (messages secondTurn))
                  secondTurn targetedReply)).
Proof.
  apply (invalidation_keeps_cached_plan refHost 0 100 pearsFingerprint
           emptyStore (AnnotatedMessages (messages secondTurn))
           (AnnotatedMessages (messages secondTurn)) secondTurn targetedReply
           (Failed (JStr "timeout")) _ "user-1" "conv-1").
  - reflexivity.
  - reflexivity.
  - discriminate.
  - discriminate.
  - unfold lacks. vm_compute. repeat constructor; discriminate.
  - unfold lacks. vm_compute. repeat constructor; discriminate.
  - discriminate.
  - reflexivity.
  - split; [vm_compute; discriminate | eexists; reflexivity].
  - vm_compute. reflexivity.
  - lia.
Defined.

Lemma invalidated_count (prefix : string) (cache : gmap string CacheEntry) :
  size cache
  - size (filter (fun entry => String.prefix prefix entry.1 = false) cache)
  = size (filter (fun entry => String.prefix prefix entry.1 = true) cache).
Proof.
  rewrite <- (map_filter_union_complement
                (fun entry : string * CacheEntry =>
                   String.prefix prefix entry.1 = false) cache) at 1.
  rewrite map_size_disj_union by apply map_disjoint_filter_complement.
  assert (Heq : filter (fun v : string * CacheEntry =>
                          ~ String.prefix prefix v.1 = false) cache
                = filter (fun entry => String.prefix prefix entry.1 = true) cache).
  { apply map_filter_ext. intros k e _. cbn. destruct (String.prefix prefix k);
      split; congruence. }
  rewrite Heq. lia.
Qed.

(** X30.  [invalidatePlannerCacheByPrefix] removes exactly the entries
    whose key starts with the prefix, the entries of every user or
    conversation whose id merely starts with the one given among them; the
    other entries stay as they were; a lookup under a removed key finds
    nothing; and the invalidation counter grows by the number of entries
    removed. *)
Theorem invalidate_removes_prefix (prefix : string) (store : PlannerStore) :
  (forall key,
     plannerCache (invalidatePlannerCacheByPrefix prefix store) !! key
     = if String.prefix prefix key then None else plannerCache store !! key)
  /\ (forall now key,
        String.prefix prefix key = true ->
        fst (getPlannerCache now key (invalidatePlannerCacheByPrefix prefix store))
        = None)
  /\ invalidations (invalidatePlannerCacheByPrefix prefix store)
     = invalidations store
       + size (filter (fun entry => String.prefix prefix entry.1 = true)
                 (plannerCache store)).
Proof.
  split; [intros key; apply invalidate_lookup|]. split.
  - intros now key Hp. unfold getPlannerCache. rewrite invalidate_lookup, Hp.
    reflexivity.
  - unfold invalidatePlannerCacheByPrefix. cbn [invalidations].
    rewrite invalidated_count. reflexivity.
Qed.
